(** * Pharaohs back end: request handlers over a relational store

    A shallow embedding of the Express controllers of the scouting
    platform.  Every handler is a function of the store it queries: SQL
    tables are lists of rows in insertion order, a [SELECT] is a filter or
    a nested comprehension, an [INSERT] appends a row under a fresh key, and
    the remote media store is an oracle whose calls are recorded.  Queries
    are taken to succeed: the 500 answers of the handlers' catch blocks for a
    failing database are left out, except in [updatePerformanceStats], whose
    statements bind request values and a computed number that the store
    may refuse.  JavaScript numbers are binary64 floats, and a text is the
    byte sequence of its UTF-8 encoding. *)

From Stdlib Require Import List String Ascii Bool Arith PeanoNat ZArith Lia.
From Stdlib Require Import Floats.
Import ListNotations.

Local Open Scope string_scope.
Local Open Scope list_scope.

(** ** JavaScript strings and values *)

Module Js.

(** [String.prototype.startsWith]. *)
Fixpoint startsWith (s p : string) : bool :=
  match p, s with
  | EmptyString, _ => true
  | String c p', String d s' => Ascii.eqb c d && startsWith s' p'
  | String _ _, EmptyString => false
  end.

(** [String.prototype.includes]: [p] occurs somewhere in [s]. *)
Fixpoint includes (s p : string) : bool :=
  startsWith s p ||
  match s with
  | EmptyString => false
  | String _ s' => includes s' p
  end.

(** [Array.prototype.includes] on an array of strings. *)
Definition array_includes (l : list string) (x : string) : bool :=
  existsb (String.eqb x) l.

(** A text is the sequence of bytes of its UTF-8 encoding, which is also
    how a string literal is read here.  The white space and the line
    terminators that [String.prototype.trim] strips are U+0009 to U+000D and
    U+0020, of one byte each; U+00A0, of two bytes; and U+1680, U+2000 to
    U+200A, U+2028, U+2029, U+202F, U+205F, U+3000 and U+FEFF, of three
    bytes each. *)
Definition is_space (c : ascii) : bool :=
  let n := nat_of_ascii c in
  Nat.eqb n 32 || (Nat.leb 9 n && Nat.leb n 13).

(** U+00A0 is C2 A0. *)
Definition is_space2 (c1 c2 : ascii) : bool :=
  Nat.eqb (nat_of_ascii c1) 194 && Nat.eqb (nat_of_ascii c2) 160.

(** U+1680 is E1 9A 80; U+2000 to U+200A are E2 80 80 to E2 80 8A; U+2028,
    U+2029 and U+202F are E2 80 A8, A9 and AF; U+205F is E2 81 9F; U+3000 is
    E3 80 80; U+FEFF is EF BB BF. *)
Definition is_space3 (c1 c2 c3 : ascii) : bool :=
  let a := nat_of_ascii c1 in
  let b := nat_of_ascii c2 in
  let c := nat_of_ascii c3 in
  (Nat.eqb a 225 && Nat.eqb b 154 && Nat.eqb c 128)
  || (Nat.eqb a 226 && Nat.eqb b 128
      && ((Nat.leb 128 c && Nat.leb c 138)
          || Nat.eqb c 168 || Nat.eqb c 169 || Nat.eqb c 175))
  || (Nat.eqb a 226 && Nat.eqb b 129 && Nat.eqb c 159)
  || (Nat.eqb a 227 && Nat.eqb b 128 && Nat.eqb c 128)
  || (Nat.eqb a 239 && Nat.eqb b 187 && Nat.eqb c 191).

(** Strips the white space a text begins with; [sp2] and [sp3] recognise
    the characters of two and of three bytes. *)
Fixpoint strip (sp2 : ascii -> ascii -> bool)
  (sp3 : ascii -> ascii -> ascii -> bool) (s : string) : string :=
  match s with
  | EmptyString => EmptyString
  | String c1 s1 =>
      if is_space c1 then strip sp2 sp3 s1
      else
        match s1 with
        | EmptyString => s
        | String c2 s2 =>
            if sp2 c1 c2 then strip sp2 sp3 s2
            else
              match s2 with
              | EmptyString => s
              | String c3 s3 =>
                  if sp3 c1 c2 c3 then strip sp2 sp3 s3 else s
              end
        end
  end.

Definition trimStart (s : string) : string := strip is_space2 is_space3 s.

Fixpoint rev_string (acc s : string) : string :=
  match s with
  | EmptyString => acc
  | String c s' => rev_string (String c acc) s'
  end.

(** From the end the bytes of a character come in the opposite order. *)
Definition trimEnd (s : string) : string :=
  rev_string EmptyString
    (strip (fun c2 c1 => is_space2 c1 c2)
           (fun c3 c2 c1 => is_space3 c1 c2 c3)
           (rev_string EmptyString s)).

Definition trim (s : string) : string := trimEnd (trimStart s).

(** Truthiness of a request field that is absent or a string. *)
Definition truthy_str (o : option string) : bool :=
  match o with
  | Some (String _ _) => true
  | _ => false
  end.

(** Truthiness of a request field that is absent or a number: zero is
    falsy. *)
Definition truthy_id (o : option nat) : bool :=
  match o with
  | Some (S _) => true
  | _ => false
  end.

(** [s || d] on a string column. *)
Definition or_else (s d : string) : string :=
  match s with
  | EmptyString => d
  | String _ _ => s
  end.

(** [String.prototype.toLowerCase] on the ASCII range. *)
Definition lower (c : ascii) : ascii :=
  let n := nat_of_ascii c in
  if Nat.leb 65 n && Nat.leb n 90 then ascii_of_nat (n + 32) else c.

Fixpoint toLowerCase (s : string) : string :=
  match s with
  | EmptyString => EmptyString
  | String c s' => String (lower c) (toLowerCase s')
  end.

(** A field of a request body as [JSON.parse] leaves it; the members of an
    object keep the order of the text. *)
#[local] Unset Elimination Schemes.

Inductive json_value :=
| JNull
| JBool (b : bool)
| JNumber (x : float)
| JString (s : string)
| JArray (elements : list json_value)
| JObject (members : list (string * json_value)).

#[local] Set Elimination Schemes.

(** The values a JSON response carries next to its message; [VJson] is a
    field of the request sent back as it came. *)
Inductive value :=
| VNum (n : nat)
| VFloat (x : float)
| VStr (s : string)
| VBool (b : bool)
| VJson (v : json_value).

End Js.

(** ** HTTP responses *)

Record Response := mkResponse {
  status : nat;
  message : string;
  payload : list (string * Js.value)
}.

Definition json (code : nat) (msg : string) : Response :=
  mkResponse code msg [].

Fixpoint field (k : string) (p : list (string * Js.value)) : option Js.value :=
  match p with
  | [] => None
  | (k', v) :: p' => if String.eqb k k' then Some v else field k p'
  end.

(** ** The relational store *)

Record User := mkUser {
  user_id : nat;
  user_name : string;
  user_email : string;
  user_password : string;
  user_role : string;
  user_status : string
}.

Record PlayerProfile := mkPlayerProfile {
  pp_user_id : nat;
  pp_date_of_birth : option string;
  pp_rating : option float
}.

Record Video := mkVideo {
  video_id : nat;
  video_player_id : nat;
  video_url : string;
  video_description : string;
  video_type : string;
  video_public_id : option string
}.

Record Like := mkLike {
  like_id : nat;
  like_user_id : nat;
  like_video_id : nat
}.

Record Comment := mkComment {
  comment_id : nat;
  comment_user_id : nat;
  comment_video_id : nat;
  comment_text : string
}.

Record Tryout := mkTryout {
  tryout_id : nat;
  tryout_scout_id : nat;
  tryout_name : string;
  tryout_location : string;
  tryout_date : string
}.

Record Invitation := mkInvitation {
  inv_id : nat;
  inv_tryout_id : nat;
  inv_player_id : nat;
  inv_status : string
}.

Record Notification := mkNotification {
  notif_id : nat;
  notif_user_id : nat;
  notif_message : string;
  notif_is_read : bool
}.

(** A row of [player_stats] holds the request values that were bound to
    the statement that wrote it; what a column makes of a value that is not
    a number of its range is the schema's. *)
Record PlayerStats := mkPlayerStats {
  ps_id : nat;
  ps_player_id : nat;
  ps_matches_played : Js.json_value;
  ps_goals : Js.json_value;
  ps_assists : Js.json_value;
  ps_yellow_cards : Js.json_value;
  ps_red_cards : Js.json_value
}.

Record SystemLog := mkSystemLog {
  log_user_id : nat;
  log_action : string;
  log_entity_type : string;
  log_entity_id : nat;
  log_ip : string
}.

(** Calls that leave the process: the remote media store and the local
    file system. *)
Inductive Effect :=
| CloudUpload (mimetype resource_type folder : string)
| CloudDestroy (public_id resource_type : string)
| FsUnlink (url : string).

(** The columns the operations below never read or write are left out. *)
Record World := mkWorld {
  users : list User;
  player_profiles : list PlayerProfile;
  videos : list Video;
  likes : list Like;
  comments : list Comment;
  tryouts : list Tryout;
  invitations : list Invitation;
  notifications : list Notification;
  player_stats : list PlayerStats;
  system_logs : list SystemLog;
  effects : list Effect
}.

Definition empty_world : World :=
  mkWorld [] [] [] [] [] [] [] [] [] [] [].

Definition set_users (f : list User -> list User) (w : World) : World :=
  mkWorld (f (users w)) (player_profiles w) (videos w) (likes w) (comments w)
          (tryouts w) (invitations w) (notifications w) (player_stats w)
          (system_logs w) (effects w).

Definition set_player_profiles (f : list PlayerProfile -> list PlayerProfile)
  (w : World) : World :=
  mkWorld (users w) (f (player_profiles w)) (videos w) (likes w) (comments w)
          (tryouts w) (invitations w) (notifications w) (player_stats w)
          (system_logs w) (effects w).

Definition set_videos (f : list Video -> list Video) (w : World) : World :=
  mkWorld (users w) (player_profiles w) (f (videos w)) (likes w) (comments w)
          (tryouts w) (invitations w) (notifications w) (player_stats w)
          (system_logs w) (effects w).

Definition set_likes (f : list Like -> list Like) (w : World) : World :=
  mkWorld (users w) (player_profiles w) (videos w) (f (likes w)) (comments w)
          (tryouts w) (invitations w) (notifications w) (player_stats w)
          (system_logs w) (effects w).

Definition set_comments (f : list Comment -> list Comment) (w : World) : World :=
  mkWorld (users w) (player_profiles w) (videos w) (likes w) (f (comments w))
          (tryouts w) (invitations w) (notifications w) (player_stats w)
          (system_logs w) (effects w).

Definition set_invitations (f : list Invitation -> list Invitation)
  (w : World) : World :=
  mkWorld (users w) (player_profiles w) (videos w) (likes w) (comments w)
          (tryouts w) (f (invitations w)) (notifications w) (player_stats w)
          (system_logs w) (effects w).

Definition set_notifications (f : list Notification -> list Notification)
  (w : World) : World :=
  mkWorld (users w) (player_profiles w) (videos w) (likes w) (comments w)
          (tryouts w) (invitations w) (f (notifications w)) (player_stats w)
          (system_logs w) (effects w).

Definition set_player_stats (f : list PlayerStats -> list PlayerStats)
  (w : World) : World :=
  mkWorld (users w) (player_profiles w) (videos w) (likes w) (comments w)
          (tryouts w) (invitations w) (notifications w) (f (player_stats w))
          (system_logs w) (effects w).

Definition set_system_logs (f : list SystemLog -> list SystemLog)
  (w : World) : World :=
  mkWorld (users w) (player_profiles w) (videos w) (likes w) (comments w)
          (tryouts w) (invitations w) (notifications w) (player_stats w)
          (f (system_logs w)) (effects w).

Definition set_effects (f : list Effect -> list Effect) (w : World) : World :=
  mkWorld (users w) (player_profiles w) (videos w) (likes w) (comments w)
          (tryouts w) (invitations w) (notifications w) (player_stats w)
          (system_logs w) (f (effects w)).

Definition set_tryouts (f : list Tryout -> list Tryout) (w : World) : World :=
  mkWorld (users w) (player_profiles w) (videos w) (likes w) (comments w)
          (f (tryouts w)) (invitations w) (notifications w) (player_stats w)
          (system_logs w) (effects w).

(** The key an AUTO_INCREMENT column hands to the next row. *)
Definition fresh {A : Type} (key : A -> nat) (rows : list A) : nat :=
  S (list_max (map key rows)).

(** ** Handlers: state passing with early return

    A handler step either goes on with a value or has sent the response;
    after [Done] nothing of the handler runs any more. *)

Inductive step (A : Type) :=
| Next (a : A)
| Done (r : Response).

Arguments Next {A} a.
Arguments Done {A} r.

Definition handler (A : Type) : Type := World -> step A * World.

Definition ret {A : Type} (a : A) : handler A := fun w => (Next a, w).

Definition bind {A B : Type} (m : handler A) (k : A -> handler B) : handler B :=
  fun w =>
    match m w with
    | (Next a, w') => k a w'
    | (Done r, w') => (Done r, w')
    end.

(** [return res.status(..).json(..)] *)
Definition respond {A : Type} (r : Response) : handler A := fun w => (Done r, w).

(** [if (c) return res.status(..).json(..)] *)
Definition guard (c : bool) (r : Response) : handler unit :=
  if c then respond r else ret tt.

(** [db.query] of a SELECT. *)
Definition query {A : Type} (q : World -> A) : handler A := fun w => (Next (q w), w).

(** [db.query] of an INSERT, UPDATE or DELETE, or a recorded effect. *)
Definition exec (f : World -> World) : handler unit := fun w => (Next tt, f w).

Definition when (c : bool) (m : handler unit) : handler unit :=
  if c then m else ret tt.

Declare Scope handler_scope.
Delimit Scope handler_scope with handler.

Notation "x <- m ;; k" := (bind m (fun x => k))
  (at level 100, m at next level, right associativity) : handler_scope.
Notation "m ;; k" := (bind m (fun _ => k))
  (at level 100, right associativity) : handler_scope.

(** The response a request gets and the store it leaves behind. *)
Definition run (h : handler Response) (w : World) : Response * World :=
  match h w with
  | (Next r, w') => (r, w')
  | (Done r, w') => (r, w')
  end.

(** A three-way inner join with its ON and WHERE conditions folded into
    [on]: rows come out in the order of the first table, then the second,
    then the third. *)
Definition join3 {A B C : Type} (on : A -> B -> C -> bool)
  (la : list A) (lb : list B) (lc : list C) : list (A * B * C) :=
  flat_map (fun a =>
    flat_map (fun b =>
      flat_map (fun c => if on a b c then [(a, b, c)] else []) lc) lb) la.

Definition join2 {A B : Type} (on : A -> B -> bool)
  (la : list A) (lb : list B) : list (A * B) :=
  flat_map (fun a =>
    flat_map (fun b => if on a b then [(a, b)] else []) lb) la.

Definition nonempty {A : Type} (l : list A) : bool :=
  match l with
  | [] => false
  | _ :: _ => true
  end.

(** ** notification.controller and notification.util *)

Module NotificationController.

(** [createNotification]: one unread row in the inbox of [userId]. *)
Definition createNotification (userId : nat) (msg : string) : handler bool :=
  (exec (set_notifications (fun l =>
     l ++ [mkNotification (fresh notif_id l) userId msg false])) ;;
   ret true)%handler.

End NotificationController.

Module NotificationUtil.

Import NotificationController.

Definition title (videoTitle : string) : string :=
  match videoTitle with
  | EmptyString => "Untitled"
  | _ => videoTitle
  end.

Definition createInvitationNotification (userId : nat)
  (scoutName tryoutName : string) : handler bool :=
  createNotification userId
    ("You have received a new invitation from " ++ scoutName
     ++ " for the tryout: " ++ tryoutName)%string.

Definition createCommentNotification (userId : nat)
  (commenterName videoTitle : string) : handler bool :=
  createNotification userId
    (commenterName ++ " commented on your video: " ++ title videoTitle)%string.

Definition createLikeNotification (userId : nat)
  (likerName videoTitle : string) : handler bool :=
  createNotification userId
    (likerName ++ " liked your video: " ++ title videoTitle)%string.

Definition createCustomNotification (userId : nat) (msg : string)
  : handler bool :=
  createNotification userId msg.

Definition createShortlistNotification (userId : nat)
  (scoutName clubName : string) : handler bool :=
  createNotification userId
    (scoutName ++ " from " ++ clubName ++ " has added you to their shortlist")%string.

End NotificationUtil.

(** ** What the handlers take from outside

    The remote media store, the file system, the password hash and the
    token signer are not this program's code: each is an oracle of its
    arguments, and every statement below holds for every oracle.  So are
    the two conversions of the JavaScript runtime between numbers and
    texts, outside the cases that are written out in [JsNumber].

    The schema of the database is not among the sources.  What the
    handlers need of it is a parameter: the defaults of the columns
    [status] of [users] and [rating] of [player_profiles], which [register]
    leaves to the store, and whether the store executes a statement that
    binds given request values to the numeric columns of [player_stats] and
    [player_profiles]. *)

Inductive UploadOutcome :=
| Uploaded (secure_url public_id : string)
| UploadFailed (err_message : string).

Record Env := mkEnv {
  cloudinary_configured : bool;
  cloud_upload : string -> string -> UploadOutcome;
  cloud_destroy_ok : string -> string -> bool;
  fs_unlink_ok : string -> bool;
  bcrypt_hash : string -> string;
  bcrypt_compare : string -> string -> bool;
  jwt_sign : nat -> string -> string;
  string_to_number : string -> float;
  number_to_string : float -> string;
  users_status_default : string;
  profile_rating_default : option float;
  store_executes : list Js.json_value -> bool
}.

(** A value the driver can write into the text of a statement: it writes
    NaN and the infinities as bare words, which are no SQL values, so a
    statement with one of them is refused whatever the schema. *)
Definition writable (v : Js.json_value) : bool :=
  match v with
  | Js.JNumber x => negb (is_nan x || is_infinity x)
  | _ => true
  end.

(** Whether a statement that binds [params] to numeric columns is
    executed; if not, [db.query] throws. *)
Definition executes (env : Env) (params : list Js.json_value) : bool :=
  forallb writable params && store_executes env params.

(** The authenticated caller, as the token middleware leaves it in
    [req.user]. *)
Record Caller := mkCaller {
  caller_id : nat;
  caller_role : string
}.

Module CloudinaryService.

(** [deleteFile]: asks the store to destroy the object; [false] stands for
    the rejected promise, which the callers catch. *)
Definition deleteFile (env : Env) (publicId resourceType : string)
  : handler bool :=
  (exec (set_effects (fun l => l ++ [CloudDestroy publicId resourceType])) ;;
   ret (cloud_destroy_ok env publicId resourceType))%handler.

(** [uploadBuffer]: the upload call and what it resolves to or throws. *)
Definition uploadBuffer (env : Env) (originalname mimetype resourceType
  folder : string) : handler UploadOutcome :=
  (exec (set_effects (fun l => l ++ [CloudUpload mimetype resourceType folder])) ;;
   ret (cloud_upload env originalname mimetype))%handler.

End CloudinaryService.

(** ** notification.controller: the inbox of the caller *)

Module NotificationInbox.

(** [markAsRead]: one notification of the caller. *)
Definition markAsRead (caller : Caller) (notificationId : nat)
  : handler Response :=
  (notification <- query (fun w =>
     filter (fun n => Nat.eqb (notif_id n) notificationId
                      && Nat.eqb (notif_user_id n) (caller_id caller))
            (notifications w)) ;;
   guard (negb (nonempty notification)) (json 404 "Notification not found") ;;
   exec (set_notifications (map (fun n =>
     if Nat.eqb (notif_id n) notificationId
     then mkNotification (notif_id n) (notif_user_id n) (notif_message n) true
     else n))) ;;
   ret (json 200 "Notification marked as read"))%handler.

(** [markAllAsRead] *)
Definition markAllAsRead (caller : Caller) : handler Response :=
  (exec (set_notifications (map (fun n =>
     if Nat.eqb (notif_user_id n) (caller_id caller)
     then mkNotification (notif_id n) (notif_user_id n) (notif_message n) true
     else n))) ;;
   ret (json 200 "All notifications marked as read"))%handler.

(** [deleteNotification]: one notification of the caller. *)
Definition deleteNotification (caller : Caller) (notificationId : nat)
  : handler Response :=
  (notification <- query (fun w =>
     filter (fun n => Nat.eqb (notif_id n) notificationId
                      && Nat.eqb (notif_user_id n) (caller_id caller))
            (notifications w)) ;;
   guard (negb (nonempty notification)) (json 404 "Notification not found") ;;
   exec (set_notifications
           (filter (fun n => negb (Nat.eqb (notif_id n) notificationId)))) ;;
   ret (json 200 "Notification deleted"))%handler.

(** The count [getUnreadCount] answers with. *)
Definition unread (userId : nat) (w : World) : nat :=
  List.length (filter (fun n => Nat.eqb (notif_user_id n) userId
                                && negb (notif_is_read n)) (notifications w)).

(** [getUnreadCount] *)
Definition getUnreadCount (caller : Caller) : handler Response :=
  (count <- query (unread (caller_id caller)) ;;
   ret (mkResponse 200 EmptyString [("unreadCount", Js.VNum count)]))%handler.

End NotificationInbox.

(** ** auth.controller *)

Module AuthController.

Section WithEnv.

Variable env : Env.

Record RegisterBody := mkRegisterBody {
  reg_name : option string;
  reg_email : option string;
  reg_password : option string;
  reg_confirmPassword : option string;
  reg_role : option string;
  reg_date_of_birth : option string
}.

Definition text (o : option string) : string :=
  match o with
  | Some s => s
  | None => EmptyString
  end.

(** [password !== confirmPassword] on two fields that are absent or
    strings. *)
Definition strict_neq (a b : option string) : bool :=
  match a, b with
  | Some x, Some y => negb (String.eqb x y)
  | None, None => false
  | _, _ => true
  end.

(** [!name || !email || !password || !role || !confirmPassword] *)
Definition missing_fields (body : RegisterBody) : bool :=
  negb (Js.truthy_str (reg_name body))
  || negb (Js.truthy_str (reg_email body))
  || negb (Js.truthy_str (reg_password body))
  || negb (Js.truthy_str (reg_role body))
  || negb (Js.truthy_str (reg_confirmPassword body)).

(** The INSERT into [users] names no [status] and the one into
    [player_profiles] no [rating]: the new rows take the defaults of the
    columns. *)
Definition register (body : RegisterBody) : handler Response :=
  (guard (missing_fields body) (json 400 "All fields are required") ;;
   guard (strict_neq (reg_password body) (reg_confirmPassword body))
         (json 400 "Passwords do not match") ;;
   let name := text (reg_name body) in
   let email := text (reg_email body) in
   let role := text (reg_role body) in
   existing <- query (fun w =>
     filter (fun u => String.eqb (user_email u) email) (users w)) ;;
   guard (nonempty existing) (json 409 "Email already exists") ;;
   let hashed := bcrypt_hash env (text (reg_password body)) in
   userId <- query (fun w => fresh user_id (users w)) ;;
   exec (set_users (fun l =>
     l ++ [mkUser userId name email hashed role (users_status_default env)])) ;;
   when (String.eqb role "player" && Js.truthy_str (reg_date_of_birth body))
     (exec (set_player_profiles (fun l =>
        l ++ [mkPlayerProfile userId (reg_date_of_birth body)
                (profile_rating_default env)]))) ;;
   let token := jwt_sign env userId role in
   ret (mkResponse 201 EmptyString
          [("token", Js.VStr token); ("id", Js.VNum userId);
           ("name", Js.VStr name); ("email", Js.VStr email);
           ("role", Js.VStr role)]))%handler.

(** A missing email is bound as NULL and matches no row;
    [bcrypt.compare] throws on a missing password, and the handler's
    catch turns that into the 500 answer. *)
Definition login (email password : option string) : handler Response :=
  (found <- query (fun w =>
     match email with
     | Some e => filter (fun u => String.eqb (user_email u) e) (users w)
     | None => []
     end) ;;
   match found with
   | [] => respond (json 401 "Invalid credentials")
   | user :: _ =>
       guard (negb (String.eqb (user_status user) "active"))
             (json 403 "Account is not active") ;;
       match password with
       | None => respond (json 500 "Server error")
       | Some pw =>
           guard (negb (bcrypt_compare env pw (user_password user)))
                 (json 401 "Invalid credentials") ;;
           let token := jwt_sign env (user_id user) (user_role user) in
           ret (mkResponse 200 EmptyString
                  [("token", Js.VStr token); ("id", Js.VNum (user_id user));
                   ("name", Js.VStr (user_name user));
                   ("email", Js.VStr (user_email user));
                   ("role", Js.VStr (user_role user))])
       end
   end)%handler.

End WithEnv.

End AuthController.

(** ** scout.controller: tryouts and invitations of a scout *)

Module ScoutController.

Definition dquote : string := String (ascii_of_nat 34) EmptyString.

(** [invitePlayer]: the scout of the tryout invites a player. *)
Definition invitePlayer (caller : Caller) (tryout_id_ player_id_ : option nat)
  : handler Response :=
  let scoutId := caller_id caller in
  (guard (negb (Js.truthy_id tryout_id_) || negb (Js.truthy_id player_id_))
         (json 400 "Tryout and Player IDs are required") ;;
   let tid := match tryout_id_ with Some n => n | None => 0 end in
   let pid := match player_id_ with Some n => n | None => 0 end in
   scoutAndTryout <- query (fun w =>
     join2 (fun u t => Nat.eqb (tryout_scout_id t) (user_id u)
                       && Nat.eqb (tryout_id t) tid
                       && Nat.eqb (tryout_scout_id t) scoutId)
           (users w) (tryouts w)) ;;
   match scoutAndTryout with
   | [] => respond (json 403 "You are not the owner of this tryout")
   | (u, t) :: _ =>
       existing <- query (fun w =>
         filter (fun i => Nat.eqb (inv_tryout_id i) tid
                          && Nat.eqb (inv_player_id i) pid)
                (invitations w)) ;;
       guard (nonempty existing)
             (json 409 "Player already invited to this tryout") ;;
       exec (set_invitations (fun l =>
         l ++ [mkInvitation (fresh inv_id l) tid pid "pending"])) ;;
       _ <- NotificationUtil.createInvitationNotification pid
              (user_name u) (tryout_name t) ;;
       ret (json 201 "Player invited successfully")
   end)%handler.

(** [cancelInvitation]: the scout withdraws an invitation that is still
    pending.  The key is a segment of the request path, so the handler's
    test for a missing key never fires. *)
Definition cancelInvitation (caller : Caller) (invitationId : nat)
  : handler Response :=
  let scoutId := caller_id caller in
  (invitation <- query (fun w =>
     join3 (fun i t u => Nat.eqb (inv_tryout_id i) (tryout_id t)
                         && Nat.eqb (inv_player_id i) (user_id u)
                         && Nat.eqb (inv_id i) invitationId
                         && Nat.eqb (tryout_scout_id t) scoutId)
           (invitations w) (tryouts w) (users w)) ;;
   match invitation with
   | [] => respond (json 404 "Invitation not found or unauthorized")
   | (i, t, u) :: _ =>
       guard (negb (String.eqb (inv_status i) "pending"))
             (json 400 ("Cannot cancel an invitation that has been "
                        ++ Js.toLowerCase (inv_status i))%string) ;;
       exec (set_invitations
               (filter (fun j => negb (Nat.eqb (inv_id j) invitationId)))) ;;
       _ <- NotificationUtil.createCustomNotification (inv_player_id i)
              ("Your invitation to the tryout " ++ dquote ++ tryout_name t
               ++ dquote ++ " has been canceled")%string ;;
       ret (json 200 "Invitation canceled successfully")
   end)%handler.

(** [createTryout] *)
Definition createTryout (caller : Caller) (name location date : option string)
  : handler Response :=
  (guard (negb (Js.truthy_str name) || negb (Js.truthy_str location)
          || negb (Js.truthy_str date))
         (json 400 "All fields required") ;;
   exec (set_tryouts (fun l =>
     l ++ [mkTryout (fresh tryout_id l) (caller_id caller)
             (AuthController.text name) (AuthController.text location)
             (AuthController.text date)])) ;;
   ret (json 201 "Tryout created"))%handler.

(** [createTryoutWithTime]: date and time are stored as one text. *)
Definition createTryoutWithTime (caller : Caller)
  (name location date time : option string) : handler Response :=
  (guard (negb (Js.truthy_str name) || negb (Js.truthy_str location)
          || negb (Js.truthy_str date) || negb (Js.truthy_str time))
         (json 400 "All fields required") ;;
   let dateTime := (AuthController.text date ++ " " ++ AuthController.text time)%string in
   exec (set_tryouts (fun l =>
     l ++ [mkTryout (fresh tryout_id l) (caller_id caller)
             (AuthController.text name) (AuthController.text location)
             dateTime])) ;;
   ret (json 201 "Tryout created with time"))%handler.

(** [updateTryout]: by the scout of the tryout. *)
Definition updateTryout (caller : Caller) (tryoutId : nat)
  (name location date time : option string) : handler Response :=
  (guard (negb (Js.truthy_str name) || negb (Js.truthy_str location)
          || negb (Js.truthy_str date) || negb (Js.truthy_str time))
         (json 400 "All fields required") ;;
   tryout <- query (fun w =>
     filter (fun t => Nat.eqb (tryout_id t) tryoutId
                      && Nat.eqb (tryout_scout_id t) (caller_id caller))
            (tryouts w)) ;;
   guard (negb (nonempty tryout))
         (json 403 "You do not have permission to update this tryout") ;;
   let dateTime := (AuthController.text date ++ " " ++ AuthController.text time)%string in
   exec (set_tryouts (map (fun t =>
     if Nat.eqb (tryout_id t) tryoutId
     then mkTryout (tryout_id t) (tryout_scout_id t) (AuthController.text name)
                   (AuthController.text location) dateTime
     else t))) ;;
   ret (json 200 "Tryout updated successfully"))%handler.

(** [deleteTryout]: by the scout of the tryout; its invitations go
    first. *)
Definition deleteTryout (caller : Caller) (tryoutId : nat) : handler Response :=
  (tryout <- query (fun w =>
     filter (fun t => Nat.eqb (tryout_id t) tryoutId
                      && Nat.eqb (tryout_scout_id t) (caller_id caller))
            (tryouts w)) ;;
   guard (negb (nonempty tryout))
         (json 403 "You do not have permission to delete this tryout") ;;
   exec (set_invitations
           (filter (fun i => negb (Nat.eqb (inv_tryout_id i) tryoutId)))) ;;
   exec (set_tryouts (filter (fun t => negb (Nat.eqb (tryout_id t) tryoutId)))) ;;
   ret (json 200 "Tryout deleted successfully"))%handler.

End ScoutController.

(** ** JavaScript numbers: binary64 *)

Module JsNumber.

Local Open Scope float_scope.

(** [Math.max] on two arguments: NaN is contagious and [+0] is larger than
    [-0]. *)
Definition Math_max (a b : float) : float :=
  if is_nan a || is_nan b then nan
  else if a <? b then b
  else if b <? a then a
  else if is_zero a && get_sign a then b else a.

(** [Math.min] on two arguments. *)
Definition Math_min (a b : float) : float :=
  if is_nan a || is_nan b then nan
  else if a <? b then a
  else if b <? a then b
  else if is_zero a && get_sign a then a else b.

(** [Number.isInteger]: finite and without a fractional part. *)
Definition isInteger (x : float) : bool :=
  match Prim2SF x with
  | S754_zero _ => true
  | S754_finite _ m e =>
      (0 <=? e)%Z || (Z.pos m mod 2 ^ (- e) =? 0)%Z
  | S754_infinity _ | S754_nan => false
  end.

Definition digit (n : Z) : ascii := ascii_of_nat (48 + Z.to_nat n).

Fixpoint digits (fuel : nat) (n : Z) (acc : string) : string :=
  match fuel with
  | O => acc
  | S fuel' =>
      let acc' := String (digit (n mod 10)) acc in
      if (n / 10 =? 0)%Z then acc' else digits fuel' (n / 10) acc'
  end.

(** The decimal digits of a natural number; it has no more of them than
    binary digits. *)
Definition decimal (n : Z) : string :=
  digits (S (Z.to_nat (Z.log2 n))) n EmptyString.

(** The integer [n] for which [n / 100] is nearest to [m * 2^e], the
    larger one of two. *)
Definition hundredths (m : positive) (e : Z) : Z :=
  if (0 <=? e)%Z then Z.pos m * 2 ^ e * 100
  else (2 * (Z.pos m * 100) + 2 ^ (- e)) / (2 * 2 ^ (- e)).

(** Whether [m * 2^e] reaches [10^21], from where [toFixed] hands over to
    the exponent notation of [Number::toString]. *)
Definition huge (m : positive) (e : Z) : bool :=
  if (0 <=? e)%Z then (10 ^ 21 <=? Z.pos m * 2 ^ e)%Z
  else (10 ^ 21 * 2 ^ (- e) <=? Z.pos m)%Z.

(** [Number.prototype.toFixed(2)]; [None] where the result is in exponent
    notation, which is not printed here. *)
Definition toFixed2 (x : float) : option string :=
  match Prim2SF x with
  | S754_nan => Some "NaN"%string
  | S754_infinity s => Some (if s then "-Infinity" else "Infinity")%string
  | S754_zero _ => Some "0.00"%string
  | S754_finite s m e =>
      if huge m e then None
      else
        let n := hundredths m e in
        Some ((if s then "-" else "")
              ++ decimal (n / 100) ++ "."
              ++ String (digit (n mod 100 / 10))
                   (String (digit (n mod 10)) EmptyString))%string
  end.

(** *** Request values under the operators

    What the comparison and the arithmetic of a handler do to a value of
    the request body that need not be a number.  [None] is a thrown
    TypeError. *)

Section Conversions.

Variable env : Env.

(** The integer [m * 2^e], if it is one and at most [2^53]. *)
Definition safe_integer (m : positive) (e : Z) : option Z :=
  if (0 <=? e)%Z then
    let n := (Z.pos m * 2 ^ e)%Z in
    if (n <=? 2 ^ 53)%Z then Some n else None
  else if (Z.pos m mod 2 ^ (- e) =? 0)%Z then Some (Z.pos m / 2 ^ (- e))%Z
  else None.

(** [Number::toString]: an integer up to [2^53] is written with all its
    digits, and minus zero as 0; the shortest digits of any other finite
    number are the runtime's. *)
Definition NumberToString (x : float) : string :=
  match Prim2SF x with
  | S754_nan => "NaN"%string
  | S754_infinity s => (if s then "-Infinity" else "Infinity")%string
  | S754_zero _ => "0"%string
  | S754_finite s m e =>
      match safe_integer m e with
      | Some n => ((if s then "-" else "") ++ decimal n)%string
      | None => number_to_string env x
      end
  end.

Definition is_digit (c : ascii) : bool :=
  let n := nat_of_ascii c in Nat.leb 48 n && Nat.leb n 57.

(** The characters of which the numeric literals are made: the digits,
    [a] to [f] and [A] to [F] (with the exponent and the binary prefix
    among them), the signs and the point, [x], [X], [o], [O], and the
    letters of [Infinity]. *)
Definition numeric_char (c : ascii) : bool :=
  let n := nat_of_ascii c in
  is_digit c
  || (Nat.leb 97 n && Nat.leb n 102) || (Nat.leb 65 n && Nat.leb n 70)
  || Nat.eqb n 43 || Nat.eqb n 45 || Nat.eqb n 46
  || Nat.eqb n 120 || Nat.eqb n 88 || Nat.eqb n 111 || Nat.eqb n 79
  || Nat.eqb n 73 || Nat.eqb n 110 || Nat.eqb n 105 || Nat.eqb n 116
  || Nat.eqb n 121.

Fixpoint numeric_chars (s : string) : bool :=
  match s with
  | EmptyString => true
  | String c s' => numeric_char c && numeric_chars s'
  end.

(** The number a text of decimal digits denotes. *)
Fixpoint digits_value (acc : Z) (s : string) : option Z :=
  match s with
  | EmptyString => Some acc
  | String c s' =>
      if is_digit c
      then digits_value (10 * acc + Z.of_nat (nat_of_ascii c - 48)) s'
      else None
  end.

(** [StringToNumber]: white space around the literal does not count; the
    empty text is 0; a text with a character of no literal is NaN; decimal
    digits alone are the nearest number, ties to even; the other literals
    are the runtime's. *)
Definition StringToNumber (s : string) : float :=
  let literal := Js.trim s in
  match literal with
  | EmptyString => 0
  | String _ _ =>
      if negb (numeric_chars literal) then nan
      else
        match digits_value 0 literal with
        | Some n => SF2Prim (binary_normalize prec emax n 0 false)
        | None => string_to_number env s
        end
  end.

Definition has_member (k : string) (members : list (string * Js.json_value))
  : bool :=
  existsb (fun member => String.eqb (fst member) k) members.

(** [ToString].  An array is the texts of its elements joined by commas,
    with the empty text for null ([Array.prototype.join]).  An object from
    [JSON.parse] has no method of its own: it is [[object Object]] by the
    inherited [toString], unless a member of that name, which is no
    function, hides it, and then the conversion throws. *)
Fixpoint ToString (v : Js.json_value) : option string :=
  match v with
  | Js.JNull => Some "null"%string
  | Js.JBool b => Some (if b then "true" else "false")%string
  | Js.JNumber x => Some (NumberToString x)
  | Js.JString s => Some s
  | Js.JArray elements =>
      (fix join (l : list Js.json_value) : option string :=
         match l with
         | [] => Some EmptyString
         | element :: rest =>
             match match element with
                   | Js.JNull => Some EmptyString
                   | _ => ToString element
                   end with
             | None => None
             | Some first =>
                 match rest with
                 | [] => Some first
                 | _ :: _ =>
                     match join rest with
                     | None => None
                     | Some others => Some (first ++ "," ++ others)%string
                     end
                 end
             end
         end) elements
  | Js.JObject members =>
      if has_member "toString" members then None
      else Some "[object Object]"%string
  end.

(** [ToPrimitive]: arrays and objects become their texts. *)
Definition ToPrimitive (v : Js.json_value) : option Js.json_value :=
  match v with
  | Js.JArray _ | Js.JObject _ => option_map Js.JString (ToString v)
  | _ => Some v
  end.

(** [ToNumber], and so [Number(v)]. *)
Definition ToNumber (v : Js.json_value) : option float :=
  match v with
  | Js.JNull => Some 0
  | Js.JBool b => Some (if b then 1 else 0)
  | Js.JNumber x => Some x
  | Js.JString s => Some (StringToNumber s)
  | Js.JArray _ | Js.JObject _ => option_map StringToNumber (ToString v)
  end.

(** [a * b], [a - b] and [a / b] convert both sides to numbers. *)
Definition arithmetic (op : float -> float -> float) (a b : Js.json_value)
  : option float :=
  match ToNumber a, ToNumber b with
  | Some x, Some y => Some (op x y)
  | _, _ => None
  end.

Definition multiply := arithmetic PrimFloat.mul.
Definition subtract := arithmetic PrimFloat.sub.
Definition divide := arithmetic PrimFloat.div.

(** [a + b] joins the texts of the two sides when one of them is a text
    after [ToPrimitive], and adds their numbers otherwise. *)
Definition add (a b : Js.json_value) : option Js.json_value :=
  match ToPrimitive a, ToPrimitive b with
  | Some pa, Some pb =>
      match pa, pb with
      | Js.JString _, _ | _, Js.JString _ =>
          match ToString pa, ToString pb with
          | Some x, Some y => Some (Js.JString (x ++ y))
          | _, _ => None
          end
      | _, _ => option_map Js.JNumber (arithmetic PrimFloat.add pa pb)
      end
  | _, _ => None
  end.

(** [v > 0]: a comparison with a number is one of numbers. *)
Definition greaterThanZero (v : Js.json_value) : option bool :=
  option_map (fun n => 0 <? n) (ToNumber v).

End Conversions.

End JsNumber.

(** ** player.controller *)

Module PlayerController.

Import JsNumber.

Record File := mkFile {
  originalname : string;
  mimetype : string;
  size : N
}.

(** [type.charAt(0).toUpperCase() + type.slice(1)] on the two types. *)
Definition capitalized (type : string) : string :=
  if String.eqb type "image" then "Image" else "Video".

(** [uploadMedia]: sends the buffer to the media store, then records the
    returned address. *)
Definition uploadMedia (env : Env) (caller : Caller) (file : option File)
  (description : option string) : handler Response :=
  (guard (negb (String.eqb (caller_role caller) "player"))
         (json 403 "Only players can upload media.") ;;
   let playerId := caller_id caller in
   let description := if Js.truthy_str description
                      then AuthController.text description
                      else EmptyString in
   match file with
   | None => respond (json 400 "File is required")
   | Some file =>
       guard (negb (cloudinary_configured env))
             (json 500 "Server configuration error") ;;
       let type := if Js.startsWith (mimetype file) "image/"
                   then "image" else "video" in
       let resourceType := if String.eqb type "image"
                           then "image" else "video" in
       cloudinaryResult <- CloudinaryService.uploadBuffer env
         (originalname file) (mimetype file) resourceType
         ("pharaohs/" ++ type ++ "s")%string ;;
       match cloudinaryResult with
       | Uploaded secure_url public_id =>
           exec (set_videos (fun l =>
             l ++ [mkVideo (fresh video_id l) playerId secure_url
                     description type (Some public_id)])) ;;
           ret (mkResponse 201 (capitalized type ++ " uploaded successfully")%string
                  [("url", Js.VStr secure_url);
                   ("type", Js.VStr (mimetype file))])
       | UploadFailed err =>
           guard (Js.includes err "payload too large")
                 (mkResponse 413
                    "File size too large. Maximum allowed size is 20MB."
                    [("error", Js.VStr "PAYLOAD_TOO_LARGE")]) ;;
           guard (Js.includes err "cloudinary")
                 (mkResponse 500 "Error uploading to cloud storage"
                    [("error", Js.VStr "CLOUDINARY_ERROR")]) ;;
           ret (mkResponse 500 "Server error during upload"
                  [("error", Js.VStr (Js.or_else err "UNKNOWN_ERROR"))])
       end
   end)%handler.

Definition id_of (o : option nat) : nat :=
  match o with
  | Some n => n
  | None => 0
  end.

Definition like_count (videoId : nat) (w : World) : nat :=
  List.length (filter (fun l => Nat.eqb (like_video_id l) videoId) (likes w)).

(** [likeVideo]; the video key is a field of the request body. *)
Definition likeVideo (caller : Caller) (videoId_ : option nat)
  : handler Response :=
  let userId := caller_id caller in
  (guard (negb (Js.truthy_id videoId_)) (json 400 "Video ID is required") ;;
   let videoId := id_of videoId_ in
   videoExists <- query (fun w =>
     filter (fun v => Nat.eqb (video_id v) videoId) (videos w)) ;;
   guard (negb (nonempty videoExists)) (json 404 "Video not found") ;;
   existingLike <- query (fun w =>
     filter (fun l => Nat.eqb (like_user_id l) userId
                      && Nat.eqb (like_video_id l) videoId) (likes w)) ;;
   guard (nonempty existingLike)
         (mkResponse 200 "Already liked this video"
            [("alreadyLiked", Js.VBool true)]) ;;
   videoResult <- query (fun w =>
     join2 (fun v u => Nat.eqb (user_id u) userId
                       && Nat.eqb (video_id v) videoId)
           (videos w) (users w)) ;;
   exec (set_likes (fun l => l ++ [mkLike (fresh like_id l) userId videoId])) ;;
   match videoResult with
   | (v, u) :: _ =>
       if negb (Nat.eqb (video_player_id v) userId)
       then _ <- NotificationUtil.createLikeNotification (video_player_id v)
                   (user_name u)
                   (Js.or_else (video_description v) "your video") ;;
            ret tt
       else ret tt
   | [] => ret tt
   end ;;
   likeCount <- query (like_count videoId) ;;
   ret (mkResponse 201 "Liked video" [("likeCount", Js.VNum likeCount)]))%handler.

(** [unlikeVideo]; the video key is a segment of the request path. *)
Definition unlikeVideo (caller : Caller) (videoId : nat) : handler Response :=
  let userId := caller_id caller in
  (videoExists <- query (fun w =>
     filter (fun v => Nat.eqb (video_id v) videoId) (videos w)) ;;
   guard (negb (nonempty videoExists)) (json 404 "Video not found") ;;
   existingLike <- query (fun w =>
     filter (fun l => Nat.eqb (like_user_id l) userId
                      && Nat.eqb (like_video_id l) videoId) (likes w)) ;;
   guard (negb (nonempty existingLike))
         (mkResponse 200 "Not liked" [("alreadyUnliked", Js.VBool true)]) ;;
   exec (set_likes
           (filter (fun l => negb (Nat.eqb (like_user_id l) userId
                                   && Nat.eqb (like_video_id l) videoId)))) ;;
   likeCount <- query (like_count videoId) ;;
   ret (mkResponse 200 "Unliked video" [("likeCount", Js.VNum likeCount)]))%handler.

(** [addComment]: the comment is written whether or not the video
    exists. *)
Definition addComment (caller : Caller) (videoId_ : option nat)
  (content : option string) : handler Response :=
  (guard (negb (String.eqb (caller_role caller) "player"))
         (json 403 "Only players can post comments.") ;;
   let trimmed := match content with
                  | Some c => Js.trim c
                  | None => EmptyString
                  end in
   guard (negb (Js.truthy_id videoId_) || negb (Js.truthy_str (Some trimmed)))
         (json 400 "Video ID and comment content are required") ;;
   let videoId := id_of videoId_ in
   videoResult <- query (fun w =>
     join2 (fun v u => Nat.eqb (user_id u) (caller_id caller)
                       && Nat.eqb (video_id v) videoId)
           (videos w) (users w)) ;;
   exec (set_comments (fun l =>
     l ++ [mkComment (fresh comment_id l) (caller_id caller) videoId trimmed])) ;;
   match videoResult with
   | (v, u) :: _ =>
       if negb (Nat.eqb (video_player_id v) (caller_id caller))
       then _ <- NotificationUtil.createCommentNotification (video_player_id v)
                   (user_name u)
                   (Js.or_else (video_description v) "your video") ;;
            ret tt
       else ret tt
   | [] => ret tt
   end ;;
   ret (json 201 "Comment added"))%handler.

(** [updateInvitationStatus]: the invited player answers an invitation. *)
Definition updateInvitationStatus (caller : Caller) (invitationId : nat)
  (status_ : option string) : handler Response :=
  let playerId := caller_id caller in
  let validStatuses := ["accepted"; "declined"] in
  match status_ with
  | None => respond (json 400 "Status must be accepted or declined")
  | Some status =>
      (guard (negb (Js.array_includes validStatuses status))
             (json 400 "Status must be accepted or declined") ;;
       invitationDetails <- query (fun w =>
         join3 (fun i t u => Nat.eqb (inv_tryout_id i) (tryout_id t)
                             && Nat.eqb (tryout_scout_id t) (user_id u)
                             && Nat.eqb (inv_id i) invitationId
                             && Nat.eqb (inv_player_id i) playerId)
               (invitations w) (tryouts w) (users w)) ;;
       match invitationDetails with
       | [] => respond (json 404 "Invitation not found or unauthorized")
       | (i, t, u) :: _ =>
           exec (set_invitations (map (fun j =>
             if Nat.eqb (inv_id j) invitationId
             then mkInvitation (inv_id j) (inv_tryout_id j) (inv_player_id j)
                               status
             else j))) ;;
           names <- query (fun w =>
             filter (fun p => Nat.eqb (user_id p) playerId) (users w)) ;;
           let playerName := match names with
                             | p :: _ => Js.or_else (user_name p) "A player"
                             | [] => "A player"
                             end in
           _ <- NotificationUtil.createCustomNotification (user_id u)
                  (playerName ++ " has " ++ status
                   ++ " your invitation to the tryout: " ++ tryout_name t)%string ;;
           ret (json 200 ("Invitation " ++ status ++ " successfully")%string)
       end)%handler
  end.

(** [sendInvitation]: the older way to invite, without a notification. *)
Definition sendInvitation (caller : Caller) (tryoutId_ playerId_ : option nat)
  : handler Response :=
  let scoutId := caller_id caller in
  (guard (negb (Js.truthy_id tryoutId_) || negb (Js.truthy_id playerId_))
         (json 400 "Tryout ID and Player ID are required") ;;
   let tryoutId := id_of tryoutId_ in
   let playerId := id_of playerId_ in
   tryout <- query (fun w =>
     filter (fun t => Nat.eqb (tryout_id t) tryoutId
                      && Nat.eqb (tryout_scout_id t) scoutId) (tryouts w)) ;;
   guard (negb (nonempty tryout)) (json 403 "Unauthorized or tryout not found") ;;
   existing <- query (fun w =>
     filter (fun i => Nat.eqb (inv_tryout_id i) tryoutId
                      && Nat.eqb (inv_player_id i) playerId)
            (invitations w)) ;;
   guard (nonempty existing) (json 400 "Invitation already sent") ;;
   exec (set_invitations (fun l =>
     l ++ [mkInvitation (fresh inv_id l) tryoutId playerId "pending"])) ;;
   ret (json 200 "Invitation sent successfully"))%handler.

(** [deleteVideo]: the owner removes a video; what the media store or
    the file system answers is caught and only logged. *)
Definition deleteVideo (env : Env) (caller : Caller) (videoId : nat)
  : handler Response :=
  let playerId := caller_id caller in
  (video <- query (fun w =>
     filter (fun v => Nat.eqb (video_id v) videoId
                      && Nat.eqb (video_player_id v) playerId) (videos w)) ;;
   match video with
   | [] => respond (json 404 "Video not found or unauthorized")
   | v :: _ =>
       (if Js.truthy_str (video_public_id v)
        then deleted <- CloudinaryService.deleteFile env
               (AuthController.text (video_public_id v))
               (if String.eqb (video_type v) "image" then "image" else "video") ;;
             if deleted then ret tt else (* console.warn *) ret tt
        else if Js.truthy_str (Some (video_url v))
                && negb (Js.includes (video_url v) "cloudinary")
        then exec (set_effects (fun l => l ++ [FsUnlink (video_url v)])) ;;
             if fs_unlink_ok env (video_url v) then ret tt
             else (* console.warn *) ret tt
        else ret tt) ;;
       exec (set_videos (filter (fun x => negb (Nat.eqb (video_id x) videoId)))) ;;
       ret (json 200 "Video deleted successfully")
   end)%handler.

(** The five fields of the request, each absent or a JSON value. *)
Record StatsBody := mkStatsBody {
  matches_played : option Js.json_value;
  goals : option Js.json_value;
  assists : option Js.json_value;
  yellow_cards : option Js.json_value;
  red_cards : option Js.json_value
}.

(** [value < 0 || !Number.isInteger(Number(value))], on the number that
    both conversions of the value give: the comparison with 0 is one of
    numbers. *)
Definition invalid_stat (value : float) : bool :=
  (value <? 0)%float || negb (isInteger value).

(** The rating on five numbers: 1 by default, otherwise the scaled and
    bounded ratio.  It is what [rating_of] computes when every field is a
    number. *)
Definition rating (matches_played goals assists yellow_cards red_cards : float)
  : float :=
  if (0 <? matches_played)%float then
    let numerator := ((goals * 2) + assists - yellow_cards - (red_cards * 3))%float in
    let denominator := matches_played in
    let rawRating := (numerator / denominator)%float in
    let scaledRating := ((rawRating + 3) / 6 * 4 + 1)%float in
    Math_max 1 (Math_min 5 scaledRating)
  else 1%float.

(** What [rating.toFixed(2)] puts into the response. *)
Definition rating_text (r : float) : Js.value :=
  match toFixed2 r with
  | Some s => Js.VStr s
  | None => Js.VFloat r
  end.

(** The answer of the handler's catch block. *)
Definition failed : Response :=
  json 500 "Failed to update performance statistics".

Section Statistics.

Variable env : Env.

(** One round of the validation loop. *)
Definition validate (key : string) (value : Js.json_value) : handler unit :=
  match ToNumber env value with
  | None => respond failed
  | Some n =>
      guard (invalid_stat n)
            (json 400 (key ++ " must be a non-negative integer")%string)
  end.

(** The rating the handler computes between validation and the writes, on
    the fields as they came: [+] joins texts where [assists] is one. *)
Definition rating_of
  (matches_played goals assists yellow_cards red_cards : Js.json_value)
  : option float :=
  match greaterThanZero env matches_played with
  | None => None
  | Some false => Some 1%float
  | Some true =>
      match multiply env goals (Js.JNumber 2) with
      | None => None
      | Some doubled =>
          match add env (Js.JNumber doubled) assists with
          | None => None
          | Some sum =>
              match subtract env sum yellow_cards,
                    multiply env red_cards (Js.JNumber 3),
                    ToNumber env matches_played with
              | Some difference, Some tripled, Some denominator =>
                  let numerator := (difference - tripled)%float in
                  let rawRating := (numerator / denominator)%float in
                  let scaledRating := ((rawRating + 3) / 6 * 4 + 1)%float in
                  Some (Math_max 1 (Math_min 5 scaledRating))
              | _, _, _ => None
              end
          end
      end
  end.

(** [updatePerformanceStats].  Everything runs inside the handler's [try]:
    a conversion that throws and a statement that the store does not
    execute both end in the answer of the [catch], with what was written
    before left in place. *)
Definition updatePerformanceStats (caller : Caller) (body : StatsBody)
  : handler Response :=
  let playerId := caller_id caller in
  match matches_played body, goals body, assists body,
        yellow_cards body, red_cards body with
  | Some mp, Some g, Some a, Some y, Some r =>
      (validate "matches_played" mp ;;
       validate "goals" g ;;
       validate "assists" a ;;
       validate "yellow_cards" y ;;
       validate "red_cards" r ;;
       match rating_of mp g a y r with
       | None => respond failed
       | Some rating =>
           existing <- query (fun w =>
             filter (fun s => Nat.eqb (ps_player_id s) playerId)
                    (player_stats w)) ;;
           guard (negb (executes env [mp; g; a; y; r])) failed ;;
           (if nonempty existing
            then exec (set_player_stats (map (fun s =>
                   if Nat.eqb (ps_player_id s) playerId
                   then mkPlayerStats (ps_id s) playerId mp g a y r
                   else s)))
            else exec (set_player_stats (fun l =>
                   l ++ [mkPlayerStats (fresh ps_id l) playerId mp g a y r]))) ;;
           guard (negb (executes env [Js.JNumber rating])) failed ;;
           exec (set_player_profiles (map (fun p =>
             if Nat.eqb (pp_user_id p) playerId
             then mkPlayerProfile (pp_user_id p) (pp_date_of_birth p)
                                  (Some rating)
             else p))) ;;
           ret (mkResponse 200 "Performance statistics updated successfully"
                  [("matches_played", Js.VJson mp); ("goals", Js.VJson g);
                   ("assists", Js.VJson a); ("yellow_cards", Js.VJson y);
                   ("red_cards", Js.VJson r);
                   ("rating", rating_text rating)])
       end)%handler
  | _, _, _, _, _ =>
      respond (json 400 "All statistics fields are required")
  end.

End Statistics.

(** [deleteComment]: by its author or by an administrator. *)
Definition deleteComment (caller : Caller) (commentId : nat) : handler Response :=
  (comment <- query (fun w =>
     filter (fun c => Nat.eqb (comment_id c) commentId) (comments w)) ;;
   match comment with
   | [] => respond (json 404 "Comment not found or already deleted")
   | c :: _ =>
       let isCommentOwner := Nat.eqb (comment_user_id c) (caller_id caller) in
       let isAdmin := String.eqb (caller_role caller) "admin" in
       guard (negb isCommentOwner && negb isAdmin)
             (json 403 "You can only delete your own comments") ;;
       affectedRows <- query (fun w =>
         List.length (filter (fun x => Nat.eqb (comment_id x) commentId)
                             (comments w))) ;;
       exec (set_comments
               (filter (fun x => negb (Nat.eqb (comment_id x) commentId)))) ;;
       guard (Nat.eqb affectedRows 0)
             (json 404 "Comment not found or already deleted") ;;
       ret (json 200 "Comment deleted successfully")
   end)%handler.

(** [updateVideo]: the owner rewrites the description. *)
Definition updateVideo (caller : Caller) (videoId : nat)
  (description : option string) : handler Response :=
  match description with
  | None => respond (json 400 "Description is required")
  | Some description =>
      (video <- query (fun w =>
         filter (fun v => Nat.eqb (video_id v) videoId
                          && Nat.eqb (video_player_id v) (caller_id caller))
                (videos w)) ;;
       guard (negb (nonempty video)) (json 404 "Video not found or unauthorized") ;;
       exec (set_videos (map (fun v =>
         if Nat.eqb (video_id v) videoId
         then mkVideo (video_id v) (video_player_id v) (video_url v) description
                      (video_type v) (video_public_id v)
         else v))) ;;
       ret (mkResponse 200 "Video updated successfully"
              [("description", Js.VStr description)]))%handler
  end.

(** One row of the answer of [getVideoLikes]. *)
Record VideoLikes := mkVideoLikes {
  vl_video_id : nat;
  vl_likeCount : nat;
  vl_likedByUser : nat
}.

(** [SELECT video_id, COUNT( * ) FROM likes GROUP BY video_id] *)
Definition likeCounts (w : World) : list (nat * nat) :=
  map (fun v =>
         (v, List.length (filter (fun l => Nat.eqb (like_video_id l) v) (likes w))))
      (nodup Nat.eq_dec (map like_video_id (likes w))).

(** [likeCountMap], filled row by row; a later row of a key replaces an
    earlier one. *)
Definition likeCountMap (rows : list (nat * nat)) : nat -> option nat :=
  fold_left (fun m row => fun k => if Nat.eqb k (fst row) then Some (snd row)
                                   else m k)
            rows (fun _ => None).

(** [getVideoLikes]: for every video its number of likes and whether the
    caller likes it. *)
Definition getVideoLikes (caller : Caller) (w : World) : list VideoLikes :=
  let videoIds := map video_id (videos w) in
  match videoIds with
  | [] => []
  | _ :: _ =>
      let likeCountMap := likeCountMap (likeCounts w) in
      let userLikes :=
        filter (fun l => Nat.eqb (like_user_id l) (caller_id caller)) (likes w) in
      let userLikedVideos := map like_video_id userLikes in
      map (fun videoId =>
             mkVideoLikes videoId
               (match likeCountMap videoId with
                | Some (S n) => S n
                | _ => 0
                end)
               (if existsb (Nat.eqb videoId) userLikedVideos then 1 else 0))
          videoIds
  end.

(** The answer of [getPlayerStats]. *)
Record PlayerStatsView := mkPlayerStatsView {
  mediaCount : nat;
  invitationCount : nat;
  pendingCount : nat;
  performanceStats : option PlayerStats;
  stats_rating : option float
}.

(** [getPlayerStats]: the rating is that of the profile (which may hold
    none), and 0 without a profile. *)
Definition getPlayerStats (caller : Caller) (w : World) : PlayerStatsView :=
  let playerId := caller_id caller in
  mkPlayerStatsView
    (List.length (filter (fun v => Nat.eqb (video_player_id v) playerId) (videos w)))
    (List.length (filter (fun i => Nat.eqb (inv_player_id i) playerId)
                         (invitations w)))
    (List.length (filter (fun i => Nat.eqb (inv_player_id i) playerId
                                   && String.eqb (inv_status i) "pending")
                         (invitations w)))
    (match filter (fun s => Nat.eqb (ps_player_id s) playerId) (player_stats w) with
     | s :: _ => Some s
     | [] => None
     end)
    (match filter (fun p => Nat.eqb (pp_user_id p) playerId) (player_profiles w) with
     | p :: _ => pp_rating p
     | [] => Some 0%float
     end).

End PlayerController.

(** ** admin.controller *)

Module AdminController.

(** [logAdminAction]: one row of the audit trail. *)
Definition logAdminAction (userId : nat) (action entityType : string)
  (entityId : nat) (ipAddress : string) : handler bool :=
  (exec (set_system_logs (fun l =>
     l ++ [mkSystemLog userId action entityType entityId ipAddress])) ;;
   ret true)%handler.

(** [deleteVideo]: an administrator removes any video. *)
Definition deleteVideo (env : Env) (caller : Caller) (videoId : nat)
  (ip : string) : handler Response :=
  (videoDetails <- query (fun w =>
     filter (fun v => Nat.eqb (video_id v) videoId) (videos w)) ;;
   match videoDetails with
   | [] => respond (json 404 "Video not found")
   | v :: _ =>
       (if Js.truthy_str (video_public_id v)
        then deleted <- CloudinaryService.deleteFile env
               (AuthController.text (video_public_id v))
               (if String.eqb (video_type v) "image" then "image" else "video") ;;
             if deleted then ret tt else (* console.warn *) ret tt
        else ret tt) ;;
       exec (set_videos (filter (fun x => negb (Nat.eqb (video_id x) videoId)))) ;;
       _ <- logAdminAction (caller_id caller) "DELETE" "video" videoId ip ;;
       ret (json 200 "Video deleted")
   end)%handler.

(** [updateUserStatus] *)
Definition updateUserStatus (caller : Caller) (userId : nat)
  (status_ : option string) (ip : string) : handler Response :=
  (guard (negb (Js.truthy_str status_)
          || negb (Js.array_includes ["active"; "inactive"; "suspended"]
                     (AuthController.text status_)))
         (json 400 "Invalid status value") ;;
   exec (set_users (map (fun u =>
     if Nat.eqb (user_id u) userId
     then mkUser (user_id u) (user_name u) (user_email u) (user_password u)
                 (user_role u) (AuthController.text status_)
     else u))) ;;
   _ <- logAdminAction (caller_id caller) "UPDATE" "user" userId ip ;;
   ret (json 200 "User status updated"))%handler.

(** [deleteUser] *)
Definition deleteUser (caller : Caller) (userId : nat) (ip : string)
  : handler Response :=
  (exec (set_users (filter (fun u => negb (Nat.eqb (user_id u) userId)))) ;;
   _ <- logAdminAction (caller_id caller) "DELETE" "user" userId ip ;;
   ret (json 200 "User deleted"))%handler.

(** [resetUserPassword]: [tempPassword] is what the random generator
    gave. *)
Definition resetUserPassword (env : Env) (caller : Caller) (userId : nat)
  (tempPassword ip : string) : handler Response :=
  (let hashedPassword := bcrypt_hash env tempPassword in
   exec (set_users (map (fun u =>
     if Nat.eqb (user_id u) userId
     then mkUser (user_id u) (user_name u) (user_email u) hashedPassword
                 (user_role u) (user_status u)
     else u))) ;;
   _ <- logAdminAction (caller_id caller) "RESET_PASSWORD" "user" userId ip ;;
   ret (mkResponse 200 "Password reset" [("tempPassword", Js.VStr tempPassword)]))%handler.

(** [addTryoutLocation]: a location is a tryout row under a reserved
    name; [now] is the clock.  The audit row of a location has no row key,
    written 0 here. *)
Definition addTryoutLocation (caller : Caller) (location : option string)
  (now ip : string) : handler Response :=
  (guard (negb (Js.truthy_str location)
          || String.eqb (Js.trim (AuthController.text location)) EmptyString)
         (json 400 "Location name is required") ;;
   let location := AuthController.text location in
   existingLocations <- query (fun w =>
     filter (fun t => String.eqb (tryout_location t) location) (tryouts w)) ;;
   guard (nonempty existingLocations) (json 400 "Location already exists") ;;
   exec (set_tryouts (fun l =>
     l ++ [mkTryout (fresh tryout_id l) (caller_id caller) "Location Template"
             location now])) ;;
   _ <- logAdminAction (caller_id caller) "CREATE" "location" 0 ip ;;
   ret (mkResponse 201 "Location added successfully"
          [("location", Js.VStr location)]))%handler.

(** The tryouts that keep a location in use. *)
Definition activeTryouts (location : string) (w : World) : list Tryout :=
  filter (fun t => String.eqb (tryout_location t) location
                   && negb (String.eqb (tryout_name t) "Location Template"))
         (tryouts w).

(** [deleteTryoutLocation]; the location is a segment of the request
    path. *)
Definition deleteTryoutLocation (caller : Caller) (location ip : string)
  : handler Response :=
  (guard (negb (Js.truthy_str (Some location)))
         (json 400 "Location name is required") ;;
   count <- query (fun w => List.length (activeTryouts location w)) ;;
   guard (Nat.ltb 0 count)
         (mkResponse 400 "Cannot delete location that is in use by active tryouts"
            [("count", Js.VNum count)]) ;;
   exec (set_tryouts (filter (fun t =>
     negb (String.eqb (tryout_location t) location
           && String.eqb (tryout_name t) "Location Template")))) ;;
   _ <- logAdminAction (caller_id caller) "DELETE" "location" 0 ip ;;
   ret (json 200 "Location deleted successfully"))%handler.

End AdminController.

(** ** upload.service: the multipart parser and its file filter *)

Module UploadService.

Import PlayerController.

(** What the parser passes to its callback when it gives up on a file. *)
Record UploadError := mkUploadError {
  err_code : option string;
  err_message : string
}.

Definition allowedTypes : list string :=
  ["video/mp4"; "video/webm"; "image/jpeg"; "image/png"; "image/jpg";
   "image/webp"].

(** [fileFilter]: [None] accepts the file. *)
Definition fileFilter (file : File) : option UploadError :=
  if Js.array_includes allowedTypes (mimetype file) then None
  else Some (mkUploadError None
         ("Invalid file type: " ++ mimetype file
          ++ ". Only MP4, WebM, JPEG, PNG, JPG, and WebP are allowed.")%string).

(** [limits.fileSize] *)
Definition fileSize : N := 20 * 1024 * 1024.

(** [upload.single]: the parser asks the filter when the part begins and
    counts the bytes of an accepted part against the limit; a request
    without the part goes on with no file. *)
Definition single (part : option File) : UploadError + option File :=
  match part with
  | None => inr None
  | Some file =>
      match fileFilter file with
      | Some err => inl err
      | None =>
          if (fileSize <? size file)%N
          then inl (mkUploadError (Some "LIMIT_FILE_SIZE") "File too large")
          else inr (Some file)
      end
  end.

End UploadService.

(** ** player.routes and the error handler of index.js *)

Module PlayerRoutes.

Import PlayerController UploadService.

(** The error handler that [index.js] mounts after the routes, which is
    where [next(err)] arrives: every error gets the same answer. *)
Definition errorHandler (err : UploadError) : Response :=
  json 500 "Something went wrong!".

(** [role('player')] *)
Definition role (required : string) (caller : Caller) : handler unit :=
  guard (negb (String.eqb (caller_role caller) required))
        (json 403 ("Access denied. Required role: " ++ required)%string).

(** [handleUploadErrors] *)
Definition handleUploadErrors (err : UploadError) : Response :=
  if match err_code err with
     | Some c => String.eqb c "LIMIT_FILE_SIZE"
     | None => false
     end
  then mkResponse 413 "File size too large. Maximum allowed size is 20MB."
         [("error", Js.VStr "FILE_TOO_LARGE")]
  else if Js.truthy_str (Some (err_message err))
          && Js.includes (err_message err) "Invalid file type"
  then mkResponse 415 (err_message err) [("error", Js.VStr "INVALID_FILE_TYPE")]
  else errorHandler err.

(** [POST /upload] behind the token check: role gate, multipart parser,
    then the controller. *)
Definition upload (env : Env) (caller : Caller) (part : option File)
  (description : option string) : handler Response :=
  (role "player" caller ;;
   match single part with
   | inl err => respond (handleUploadErrors err)
   | inr None => respond (json 400 "File is required")
   | inr (Some file) => uploadMedia env caller (Some file) description
   end)%handler.

End PlayerRoutes.

(** ** scout.controller: the shortlist

    Two more tables, beside the store of the handlers above. *)

Module Shortlists.

Record Shortlist := mkShortlist {
  sl_id : nat;
  sl_scout_id : nat;
  sl_player_id : nat
}.

(** A scout profile; the organization may be NULL. *)
Record ScoutProfile := mkScoutProfile {
  sp_user_id : nat;
  sp_organization : option string
}.

Record Directory := mkDirectory {
  world : World;
  shortlists : list Shortlist;
  scout_profiles : list ScoutProfile
}.

(** [users u LEFT JOIN scout_profiles s ON u.id = s.user_id WHERE u.id = ?]:
    the name of the scout with each organization, or with NULL where the
    scout has no profile. *)
Definition scoutDetails (scoutId : nat) (d : Directory)
  : list (string * option string) :=
  flat_map (fun u =>
    if Nat.eqb (user_id u) scoutId then
      match filter (fun s => Nat.eqb (user_id u) (sp_user_id s))
                   (scout_profiles d) with
      | [] => [(user_name u, None)]
      | profiles => map (fun s => (user_name u, sp_organization s)) profiles
      end
    else []) (users (world d)).

(** [club_name || 'Unknown Club'] *)
Definition club_or_unknown (club_name : option string) : string :=
  match club_name with
  | Some (String c s) => String c s
  | _ => "Unknown Club"
  end.

Definition shortlisted (scoutId playerId : nat) (d : Directory) : list Shortlist :=
  filter (fun s => Nat.eqb (sl_scout_id s) scoutId
                   && Nat.eqb (sl_player_id s) playerId) (shortlists d).

(** [addToShortlist] *)
Definition addToShortlist (caller : Caller) (player_id_ : option nat)
  (d : Directory) : Response * Directory :=
  let scoutId := caller_id caller in
  if negb (Js.truthy_id player_id_) then (json 400 "Player ID is required", d)
  else
    let player_id := PlayerController.id_of player_id_ in
    let details := scoutDetails scoutId d in
    if nonempty (shortlisted scoutId player_id d)
    then (json 409 "Player already shortlisted", d)
    else
      let inserted :=
        shortlists d
        ++ [mkShortlist (fresh sl_id (shortlists d)) scoutId player_id] in
      let notified :=
        match details with
        | (scout_name, club_name) :: _ =>
            snd (NotificationUtil.createShortlistNotification player_id
                   scout_name (club_or_unknown club_name) (world d))
        | [] => world d
        end in
      (json 201 "Player added to shortlist",
       mkDirectory notified inserted (scout_profiles d)).

(** [removeFromShortlist]; the player key is a segment of the request
    path. *)
Definition removeFromShortlist (caller : Caller) (playerId : nat)
  (d : Directory) : Response * Directory :=
  (json 200 "Player removed from shortlist",
   mkDirectory (world d)
     (filter (fun s => negb (Nat.eqb (sl_scout_id s) (caller_id caller)
                             && Nat.eqb (sl_player_id s) playerId))
             (shortlists d))
     (scout_profiles d)).

(** [getShortlist]: the users on the caller's shortlist. *)
Definition getShortlist (caller : Caller) (d : Directory) : list User :=
  map snd
    (join2 (fun s u => Nat.eqb (sl_player_id s) (user_id u)
                       && Nat.eqb (sl_scout_id s) (caller_id caller))
           (shortlists d) (users (world d))).

End Shortlists.

(** ** The rating as the specification words it *)

Module Spec.

Local Open Scope float_scope.

(** [clamp(x, lo, hi)]: [x] brought into the interval by comparison. *)
Definition clamp (x lo hi : float) : float :=
  if x <? lo then lo else if hi <? x then hi else x.

Definition raw (matches_played goals assists yellow_cards red_cards : float)
  : float :=
  (2 * goals + assists - yellow_cards - 3 * red_cards) / matches_played.

Definition scaled (raw : float) : float := (raw + 3) / 6 * 4 + 1.

Definition rating (matches_played goals assists yellow_cards red_cards : float)
  : float :=
  if 0 <? matches_played
  then clamp (scaled (raw matches_played goals assists yellow_cards red_cards))
             1 5
  else 1.

End Spec.

(** ** Stores after an operation *)

(** The store after [updateInvitationStatus] answered 200: every row with
    the key carries the requested status, the others are as before. *)
Definition answered (invitationId : nat) (s : string) (l : list Invitation)
  : list Invitation :=
  map (fun j =>
         if Nat.eqb (inv_id j) invitationId
         then mkInvitation (inv_id j) (inv_tryout_id j) (inv_player_id j) s
         else j) l.

(** The invitations of one tryout to one player. *)
Definition invitations_of (tryoutId playerId : nat) (w : World) : list Invitation :=
  filter (fun i => Nat.eqb (inv_tryout_id i) tryoutId
                   && Nat.eqb (inv_player_id i) playerId) (invitations w).

(** Whether the user has a like on the video. *)
Definition has_liked (userId videoId : nat) (w : World) : bool :=
  nonempty (filter (fun l => Nat.eqb (like_user_id l) userId
                             && Nat.eqb (like_video_id l) videoId) (likes w)).

(** The videos left when the one with the key is deleted. *)
Definition without_video (videoId : nat) (l : list Video) : list Video :=
  filter (fun x => negb (Nat.eqb (video_id x) videoId)) l.

(** The remote deletion a video with a storage identifier asks for. *)
Definition destroy_request (v : Video) : Effect :=
  CloudDestroy (AuthController.text (video_public_id v))
               (if String.eqb (video_type v) "image" then "image" else "video").

(** The join of the video with the acting user, from which [likeVideo] and
    [addComment] take the owner. *)
Definition owner_lookup (w : World) (caller : Caller) (videoId : nat)
  : list (Video * User) :=
  join2 (fun x u => Nat.eqb (user_id u) (caller_id caller)
                    && Nat.eqb (video_id x) videoId)
        (videos w) (users w).

(** The type [uploadMedia] infers from the declared mimetype. *)
Definition inferred_type (file : PlayerController.File) : string :=
  if Js.startsWith (PlayerController.mimetype file) "image/"
  then "image" else "video".

(** The profiles after the rating of one player has been written. *)
Definition rated (playerId : nat) (rating : float) (l : list PlayerProfile)
  : list PlayerProfile :=
  map (fun p =>
         if Nat.eqb (pp_user_id p) playerId
         then mkPlayerProfile (pp_user_id p) (pp_date_of_birth p) (Some rating)
         else p) l.

(** The two bounds of the rating, as sign, mantissa and exponent. *)
Definition sf_one : spec_float := Eval vm_compute in Prim2SF 1.
Definition sf_five : spec_float := Eval vm_compute in Prim2SF 5.

(** The row a like or an unlike of the user for the video is about. *)
Definition own_like (userId videoId : nat) (l : Like) : bool :=
  Nat.eqb (like_user_id l) userId && Nat.eqb (like_video_id l) videoId.

(** The comments left when the one with the key is deleted. *)
Definition without_comment (commentId : nat) (l : list Comment) : list Comment :=
  filter (fun x => negb (Nat.eqb (comment_id x) commentId)) l.

(** A video under a new description. *)
Definition described (description : string) (v : Video) : Video :=
  mkVideo (video_id v) (video_player_id v) (video_url v) description
          (video_type v) (video_public_id v).

(** Every invitation refers to a tryout of the store. *)
Definition invitations_have_tryouts (w : World) : Prop :=
  forall i, In i (invitations w) ->
            exists t, In t (tryouts w) /\ tryout_id t = inv_tryout_id i.

(** No tryout with the key belongs to the caller. *)
Definition not_owner (caller : Caller) (tryoutId : nat) (w : World) : Prop :=
  forall t, In t (tryouts w) -> tryout_id t = tryoutId ->
            tryout_scout_id t <> caller_id caller.

(** The row [register] writes for a body. *)
Definition registered (env : Env) (body : AuthController.RegisterBody)
  (w : World) : User :=
  mkUser (fresh user_id (users w))
         (AuthController.text (AuthController.reg_name body))
         (AuthController.text (AuthController.reg_email body))
         (bcrypt_hash env (AuthController.text (AuthController.reg_password body)))
         (AuthController.text (AuthController.reg_role body))
         (users_status_default env).

(** A user row under another status, and under another password hash. *)
Definition with_status (s : string) (u : User) : User :=
  mkUser (user_id u) (user_name u) (user_email u) (user_password u)
         (user_role u) s.

Definition with_password (hash : string) (u : User) : User :=
  mkUser (user_id u) (user_name u) (user_email u) hash (user_role u)
         (user_status u).

(** The row that registers a location. *)
Definition location_template (w : World) (caller : Caller) (location now : string)
  : Tryout :=
  mkTryout (fresh tryout_id (tryouts w)) (caller_id caller) "Location Template"
           location now.

(** A notification after it has been read. *)
Definition read (n : Notification) : Notification :=
  mkNotification (notif_id n) (notif_user_id n) (notif_message n) true.

(** No notification with the key is in the caller's inbox. *)
Definition not_in_inbox (caller : Caller) (notificationId : nat) (w : World)
  : Prop :=
  forall n, In n (notifications w) -> notif_id n = notificationId ->
            notif_user_id n <> caller_id caller.

(** The notification a player gets when a scout puts them on a
    shortlist. *)
Definition shortlist_notice (d : Shortlists.Directory) (playerId : nat)
  (scout_name : string) (club_name : option string) : Notification :=
  mkNotification (fresh notif_id (notifications (Shortlists.world d))) playerId
    (scout_name ++ " from " ++ Shortlists.club_or_unknown club_name
       ++ " has added you to their shortlist")%string
    false.

(** The row [addToShortlist] inserts. *)
Definition shortlist_row (d : Shortlists.Directory) (scoutId playerId : nat)
  : Shortlists.Shortlist :=
  Shortlists.mkShortlist (fresh Shortlists.sl_id (Shortlists.shortlists d))
    scoutId playerId.

(** A request whose five fields are numbers. *)
Definition numbers (mp g a y r : float) : PlayerController.StatsBody :=
  PlayerController.mkStatsBody (Some (Js.JNumber mp)) (Some (Js.JNumber g))
    (Some (Js.JNumber a)) (Some (Js.JNumber y)) (Some (Js.JNumber r)).

(** The statistics row of a player after a request of numbers was
    written. *)
Definition kept (playerId : nat) (mp g a y r : float) (l : list PlayerStats)
  : list PlayerStats :=
  if nonempty (filter (fun s => Nat.eqb (ps_player_id s) playerId) l)
  then map (fun s =>
              if Nat.eqb (ps_player_id s) playerId
              then mkPlayerStats (ps_id s) playerId (Js.JNumber mp)
                     (Js.JNumber g) (Js.JNumber a) (Js.JNumber y) (Js.JNumber r)
              else s) l
  else l ++ [mkPlayerStats (fresh ps_id l) playerId (Js.JNumber mp)
               (Js.JNumber g) (Js.JNumber a) (Js.JNumber y) (Js.JNumber r)].

(** The statistics rows and the profile rows of a player. *)
Definition stats_of (playerId : nat) (w : World) : list PlayerStats :=
  filter (fun s => Nat.eqb (ps_player_id s) playerId) (player_stats w).

Definition profiles_of (playerId : nat) (w : World) : list PlayerProfile :=
  filter (fun p => Nat.eqb (pp_user_id p) playerId) (player_profiles w).

(** The upload call [uploadMedia] makes for a file. *)
Definition upload_request (file : PlayerController.File) : Effect :=
  CloudUpload (PlayerController.mimetype file) (inferred_type file)
    ("pharaohs/" ++ inferred_type file ++ "s")%string.

(** ** A sample store *)

Module Examples.

Definition sam : User :=
  mkUser 1 "Sam" "sam@club.example" "h:oak" "scout" "active".
Definition pat : User :=
  mkUser 2 "Pat" "pat@club.example" "h:elm" "player" "active".
Definition kim : User :=
  mkUser 3 "Kim" "kim@club.example" "h:ash" "player" "suspended".

Definition trial : Tryout :=
  mkTryout 1 1 "Spring trial" "Cairo" "2025-05-01 10:00".

Definition invite_pat : Invitation := mkInvitation 1 1 2 "pending".
Definition invite_kim : Invitation := mkInvitation 2 1 3 "accepted".

Definition clip : Video :=
  mkVideo 1 2 "https://res.cloudinary.com/demo/clip.mp4" "Free kick"
          "video" (Some "pharaohs/videos/clip").

Definition store : World :=
  mkWorld [sam; pat; kim] [mkPlayerProfile 2 None None] [clip]
          [mkLike 1 3 1] [] [trial] [invite_pat; invite_kim] [] [] [] [].

Definition scout_sam : Caller := mkCaller 1 "scout".
Definition player_pat : Caller := mkCaller 2 "player".
Definition player_kim : Caller := mkCaller 3 "player".

(** Three uploads: a document, a film beyond the size limit, a photo. *)
Definition document : PlayerController.File :=
PlayerController.mkFile "cv.pdf" "application/pdf" 1000.
Definition long_film : PlayerController.File :=
PlayerController.mkFile "final.mp4" "video/mp4" (30 * 1024 * 1024).
Definition photo : PlayerController.File :=
PlayerController.mkFile "goal.png" "image/png" 4096.

(** A media store that takes every upload. *)
Definition env_up : Env :=
mkEnv true
(fun name _ => Uploaded ("https://res.cloudinary.com/demo/" ++ name)%string name)
(fun _ _ => true)
(fun _ => true)
(fun pw => ("h:" ++ pw)%string)
(fun pw hash => String.eqb ("h:" ++ pw)%string hash)
(fun _ role => ("token-" ++ role)%string)
(fun _ => nan)
(fun _ => "NaN")
"active"
None
(fun _ => true).

(** Ten matches, five goals, three assists, one yellow card: as numbers,
    and as the texts a form sends. *)
Definition season : PlayerController.StatsBody :=
numbers 10 5 3 1 0.



(** A remark of Kim under Pat's clip. *)
Definition remark : Comment := mkComment 1 3 1 "What a strike".

Definition store_with_remark : World := set_comments (fun _ => [remark]) store.

(** Another scout, with no tryout. *)
Definition scout_ray : Caller := mkCaller 7 "scout".

(** The store with a real tryout and a registered location in Giza, and
    with two notices in Pat's inbox. *)
Definition giza_cup : Tryout := mkTryout 2 1 "Giza cup" "Giza" "2025-06-01 09:00".
Definition giza : Tryout := mkTryout 3 9 "Location Template" "Giza" "2025-01-01".
Definition luxor : Tryout := mkTryout 4 9 "Location Template" "Luxor" "2025-01-01".

Definition store_with_locations : World :=
set_tryouts (fun l => l ++ [giza_cup; giza; luxor]) store.

Definition notice_one : Notification := mkNotification 1 2 "Sam liked your video" false.
Definition notice_two : Notification := mkNotification 2 3 "You are invited" false.

Definition store_with_notices : World :=
set_notifications (fun _ => [notice_one; notice_two]) store.

(** The shortlists: Sam, who has a profile without organization, has
    nobody on the list yet. *)
Definition directory : Shortlists.Directory :=
Shortlists.mkDirectory store [Shortlists.mkShortlist 1 7 2]
  [Shortlists.mkScoutProfile 1 None].

(** U+00A0, the no-break space, and U+2028, the line separator. *)
Definition no_break_space : string :=
String "194"%char (String "160"%char EmptyString).
Definition line_separator : string :=
String "226"%char (String "128"%char (String "168"%char EmptyString)).

(** A newcomer. *)
Definition lee : AuthController.RegisterBody :=
AuthController.mkRegisterBody (Some "Lee") (Some "lee@club.example")
(Some "fir") (Some "fir") (Some "player") (Some "2004-02-29").

(** Pat's address again, under another name. *)
Definition second_pat : AuthController.RegisterBody :=
  AuthController.mkRegisterBody (Some "Patrick") (Some "pat@club.example")
    (Some "birch") (Some "birch") (Some "player") None.
Definition admin : Caller := mkCaller 9 "admin".

(** A media store that is down, and a toy password hash.  The examples
    ask the runtime for no conversion beyond the written cases; the schema
    makes new accounts active, and the store takes every value that can be
    written as one. *)
Definition env : Env :=
  mkEnv true
        (fun _ _ => UploadFailed "socket hang up")
        (fun _ _ => false)
        (fun _ => false)
        (fun pw => ("h:" ++ pw)%string)
        (fun pw hash => String.eqb ("h:" ++ pw)%string hash)
        (fun _ role => ("token-" ++ role)%string)
        (fun _ => nan)
        (fun _ => "NaN")
        "active"
        None
        (fun _ => true).

(** The same under a schema whose new accounts wait for an
    administrator. *)
Definition env_pending : Env :=
  mkEnv true
        (fun _ _ => UploadFailed "socket hang up")
        (fun _ _ => false)
        (fun _ => false)
        (fun pw => ("h:" ++ pw)%string)
        (fun pw hash => String.eqb ("h:" ++ pw)%string hash)
        (fun _ role => ("token-" ++ role)%string)
        (fun _ => nan)
        (fun _ => "NaN")
        "inactive"
        None
        (fun _ => true).

End Examples.

(** * Properties *)

(** ** Queries *)

Lemma in_join3 {A B C : Type} (on : A -> B -> C -> bool) la lb lc a b c :
  In (a, b, c) (join3 on la lb lc) <->
  In a la /\ In b lb /\ In c lc /\ on a b c = true.
Proof.
  unfold join3. rewrite in_flat_map. split.
  - intros (a' & Ha & H). rewrite in_flat_map in H.
    destruct H as (b' & Hb & H). rewrite in_flat_map in H.
    destruct H as (c' & Hc & H).
    destruct (on a' b' c') eqn:E; simpl in H; [| contradiction].
    destruct H as [H | []]. inversion H; subst. auto.
  - intros (Ha & Hb & Hc & E). exists a. split; [assumption |].
    rewrite in_flat_map. exists b. split; [assumption |].
    rewrite in_flat_map. exists c. split; [assumption |].
    rewrite E. simpl. auto.
Qed.

Lemma in_join2 {A B : Type} (on : A -> B -> bool) la lb a b :
  In (a, b) (join2 on la lb) <-> In a la /\ In b lb /\ on a b = true.
Proof.
  unfold join2. rewrite in_flat_map. split.
  - intros (a' & Ha & H). rewrite in_flat_map in H.
    destruct H as (b' & Hb & H).
    destruct (on a' b') eqn:E; simpl in H; [| contradiction].
    destruct H as [H | []]. inversion H; subst. auto.
  - intros (Ha & Hb & E). exists a. split; [assumption |].
    rewrite in_flat_map. exists b. split; [assumption |].
    rewrite E. simpl. auto.
Qed.

Lemma in_not_nil {A : Type} (x : A) l : In x l -> l <> [].
Proof. intros H ->. exact H. Qed.

Lemma key_unique {A K : Type} (key : A -> K) (l : list A) a b :
  NoDup (map key l) -> In a l -> In b l -> key a = key b -> a = b.
Proof.
  induction l as [| x l IH]; simpl; intros Hnd Ha Hb E; [contradiction |].
  inversion Hnd as [| ? ? Hx Hl]; subst.
  destruct Ha as [-> | Ha], Hb as [-> | Hb]; auto.
  - exfalso. apply Hx. rewrite E. apply in_map. assumption.
  - exfalso. apply Hx. rewrite <- E. apply in_map. assumption.
Qed.

Lemma nonempty_filter {A : Type} (p : A -> bool) l x :
  In x l -> p x = true -> nonempty (filter p l) = true.
Proof.
  intros Hin Hp.
  assert (H : In x (filter p l)) by (apply filter_In; auto).
  destruct (filter p l); [contradiction | reflexivity].
Qed.

Lemma nonempty_false {A : Type} (l : list A) : nonempty l = false -> l = [].
Proof. destruct l; [reflexivity | discriminate]. Qed.

(** ** Invitations *)

Section Invitations.

Import ScoutController PlayerController.

Variable w : World.
Variable caller : Caller.

(** The row [cancelInvitation] works on is the invitation with the key
    asked for, as soon as that invitation, its tryout of the calling scout
    and its player are in the store. *)
Lemma cancel_lookup invitationId i t u :
  NoDup (map inv_id (invitations w)) ->
  In i (invitations w) -> inv_id i = invitationId ->
  In t (tryouts w) -> tryout_id t = inv_tryout_id i ->
  tryout_scout_id t = caller_id caller ->
  In u (users w) -> user_id u = inv_player_id i ->
  exists t' u' rest,
    join3 (fun i t u => Nat.eqb (inv_tryout_id i) (tryout_id t)
                        && Nat.eqb (inv_player_id i) (user_id u)
                        && Nat.eqb (inv_id i) invitationId
                        && Nat.eqb (tryout_scout_id t) (caller_id caller))
          (invitations w) (tryouts w) (users w) = (i, t', u') :: rest.
Proof.
  intros Hnd Hi Hid Ht Htid Hts Hu Huid.
  match goal with |- exists _ _ _, ?J = _ => remember J as rows eqn:E end.
  assert (Hin : In (i, t, u) rows).
  { subst rows. apply in_join3. repeat split; try assumption.
    rewrite Htid, Huid, Hid, Hts, !Nat.eqb_refl. reflexivity. }
  destruct rows as [| [[i' t'] u'] rest]; [contradiction |].
  assert (Hin' : In (i', t', u') (join3
    (fun i t u => Nat.eqb (inv_tryout_id i) (tryout_id t)
                  && Nat.eqb (inv_player_id i) (user_id u)
                  && Nat.eqb (inv_id i) invitationId
                  && Nat.eqb (tryout_scout_id t) (caller_id caller))
    (invitations w) (tryouts w) (users w))).
  { rewrite <- E. left. reflexivity. }
  apply in_join3 in Hin'. destruct Hin' as (Hi' & _ & _ & Hc).
  rewrite !andb_true_iff in Hc. destruct Hc as [[[_ _] Hid'] _].
  apply Nat.eqb_eq in Hid'.
  assert (i' = i) by (apply (key_unique inv_id (invitations w)); congruence).
  subst i'. eauto.
Qed.

End Invitations.

Ltac open_handler :=
  unfold run, bind, guard, query, exec, respond, ret, when.

Ltac step_handler := open_handler; cbn.

Lemma truthy_id_Some n : n <> 0 -> Js.truthy_id (Some n) = true.
Proof. destruct n; [congruence | reflexivity]. Qed.

(** C5. An invitation of the calling scout's tryout that is already accepted
    or declined cannot be cancelled: the answer is 400 and the store is left
    as it was.  A pending one is cancelled: the answer is 200, the row is
    gone, and the invited player gets a notification. *)
Theorem cancelInvitation_only_while_pending :
  forall (w : World) (caller : Caller) (invitationId : nat)
         (i : Invitation) (t : Tryout) (u : User),
    NoDup (map inv_id (invitations w)) ->
    In i (invitations w) -> inv_id i = invitationId ->
    In t (tryouts w) -> tryout_id t = inv_tryout_id i ->
    tryout_scout_id t = caller_id caller ->
    In u (users w) -> user_id u = inv_player_id i ->
    let (r, w') := run (ScoutController.cancelInvitation caller invitationId) w in
    (inv_status i = "accepted" \/ inv_status i = "declined" ->
       status r = 400 /\ w' = w) /\
    (inv_status i = "pending" ->
       status r = 200 /\
       invitations w' =
         filter (fun j => negb (Nat.eqb (inv_id j) invitationId)) (invitations w) /\
       ~ In i (invitations w') /\
       exists msg,
         notifications w' =
           notifications w ++
           [mkNotification (fresh notif_id (notifications w))
                           (inv_player_id i) msg false]).
Proof.
  intros w caller invitationId i t u Hnd Hi Hid Ht Htid Hts Hu Huid.
  destruct (cancel_lookup w caller invitationId i t u Hnd Hi Hid Ht Htid Hts Hu Huid)
    as (t' & u' & rest & E).
  unfold ScoutController.cancelInvitation. step_handler. rewrite E.
  destruct (String.eqb (inv_status i) "pending") eqn:Es; cbn.
  - apply String.eqb_eq in Es. split.
    + intros [H | H]; rewrite H in Es; discriminate.
    + intros _. split; [reflexivity |]. split; [reflexivity |]. split.
      * rewrite filter_In. intros [_ H]. rewrite Hid, Nat.eqb_refl in H.
        discriminate.
      * eexists. reflexivity.
  - split.
    + intros _. split; reflexivity.
    + intros H. rewrite H in Es. discriminate.
Qed.

(** C5 on the sample store: Sam cancels the pending invitation of Pat. *)
Lemma cancelInvitation_only_while_pending_witness :
  (NoDup (map inv_id (invitations Examples.store)) /\
   In Examples.invite_pat (invitations Examples.store) /\
   inv_id Examples.invite_pat = 1 /\
   In Examples.trial (tryouts Examples.store) /\
   tryout_id Examples.trial = inv_tryout_id Examples.invite_pat /\
   tryout_scout_id Examples.trial = caller_id Examples.scout_sam /\
   In Examples.pat (users Examples.store) /\
   user_id Examples.pat = inv_player_id Examples.invite_pat) /\
  let (r, w') := run (ScoutController.cancelInvitation Examples.scout_sam 1)
                     Examples.store in
  (inv_status Examples.invite_pat = "accepted" \/
   inv_status Examples.invite_pat = "declined" ->
     status r = 400 /\ w' = Examples.store) /\
  (inv_status Examples.invite_pat = "pending" ->
     status r = 200 /\
     invitations w' =
       filter (fun j => negb (Nat.eqb (inv_id j) 1)) (invitations Examples.store) /\
     ~ In Examples.invite_pat (invitations w') /\
     exists msg,
       notifications w' =
         notifications Examples.store ++
         [mkNotification (fresh notif_id (notifications Examples.store))
                         (inv_player_id Examples.invite_pat) msg false]).
Proof.
  assert (Hnd : NoDup (map inv_id (invitations Examples.store))).
  { cbn. repeat constructor; cbn; intuition discriminate. }
  split.
  - split; [exact Hnd |]. cbn. intuition.
  - apply (cancelInvitation_only_while_pending Examples.store Examples.scout_sam 1
             Examples.invite_pat Examples.trial Examples.pat Hnd);
      cbn; auto.
Defined.

(** The two outcomes of [updateInvitationStatus] for a status it accepts:
    404 and no write when the lookup is empty, else 200 and the status
    written to every row with the key. *)
Lemma updateInvitationStatus_valid w caller invitationId s :
  s = "accepted" \/ s = "declined" ->
  let rows :=
    join3 (fun i t u => Nat.eqb (inv_tryout_id i) (tryout_id t)
                        && Nat.eqb (tryout_scout_id t) (user_id u)
                        && Nat.eqb (inv_id i) invitationId
                        && Nat.eqb (inv_player_id i) (caller_id caller))
          (invitations w) (tryouts w) (users w) in
  let (r, w') := run (PlayerController.updateInvitationStatus caller
                        invitationId (Some s)) w in
  (rows = [] -> status r = 404 /\ w' = w) /\
  (rows <> [] ->
   status r = 200 /\ invitations w' = answered invitationId s (invitations w)).
Proof.
  intros Hs rows. subst rows.
  unfold PlayerController.updateInvitationStatus. step_handler.
  assert (Hv : (String.eqb s "accepted" || (String.eqb s "declined" || false))
               = true).
  { destruct Hs as [-> | ->]; reflexivity. }
  rewrite Hv. cbn.
  destruct (join3 _ (invitations w) (tryouts w) (users w))
    as [| [[i t] u] rest]; cbn.
  - split; [auto | congruence].
  - split; [discriminate | auto].
Qed.

(** The lookup of [updateInvitationStatus]. *)
Lemma updateInvitationStatus_lookup w caller invitationId i t u rest :
  join3 (fun i t u => Nat.eqb (inv_tryout_id i) (tryout_id t)
                      && Nat.eqb (tryout_scout_id t) (user_id u)
                      && Nat.eqb (inv_id i) invitationId
                      && Nat.eqb (inv_player_id i) (caller_id caller))
        (invitations w) (tryouts w) (users w) = (i, t, u) :: rest ->
  In i (invitations w) /\ inv_id i = invitationId /\
  inv_player_id i = caller_id caller.
Proof.
  intros E.
  assert (Hin : In (i, t, u) (join3
    (fun i t u => Nat.eqb (inv_tryout_id i) (tryout_id t)
                  && Nat.eqb (tryout_scout_id t) (user_id u)
                  && Nat.eqb (inv_id i) invitationId
                  && Nat.eqb (inv_player_id i) (caller_id caller))
    (invitations w) (tryouts w) (users w)))
    by (rewrite E; left; reflexivity).
  apply in_join3 in Hin. destruct Hin as (Hi & _ & _ & Hc).
  apply andb_true_iff in Hc. destruct Hc as [Hc Hp].
  apply andb_true_iff in Hc. destruct Hc as [_ Hid].
  apply Nat.eqb_eq in Hid. apply Nat.eqb_eq in Hp. auto.
Qed.

Lemma updateInvitationStatus_not_found w caller invitationId s :
  s = "accepted" \/ s = "declined" ->
  join3 (fun i t u => Nat.eqb (inv_tryout_id i) (tryout_id t)
                      && Nat.eqb (tryout_scout_id t) (user_id u)
                      && Nat.eqb (inv_id i) invitationId
                      && Nat.eqb (inv_player_id i) (caller_id caller))
        (invitations w) (tryouts w) (users w) = [] ->
  run (PlayerController.updateInvitationStatus caller invitationId (Some s)) w
  = (json 404 "Invitation not found or unauthorized", w).
Proof.
  intros Hs E.
  unfold PlayerController.updateInvitationStatus. step_handler.
  assert (Hv : (String.eqb s "accepted" || (String.eqb s "declined" || false))
               = true).
  { destruct Hs as [-> | ->]; reflexivity. }
  rewrite Hv. cbn. rewrite E. reflexivity.
Qed.

(** C3, as the code has it.  [updateInvitationStatus] writes nothing but
    accepted or declined: it either refuses and leaves the store alone, or
    answers 200 and sets the invitation to the requested status whatever
    the status was before.  A request for any other status, pending
    included, or for none is refused with 400; a request for an invitation
    that is not the caller's is refused with 404; and 200 is only ever the
    answer for an invitation of the caller.  So a pending invitation of the
    caller moves to accepted or declined and none is ever set back to
    pending, while an accepted or declined one can still be switched. *)
Theorem updateInvitationStatus_writes_accepted_or_declined :
  forall (w : World) (caller : Caller) (invitationId : nat)
         (status_ : option string),
    let (r, w') := run (PlayerController.updateInvitationStatus caller
                          invitationId status_) w in
    (((status r = 400 \/ status r = 404) /\ w' = w) \/
     (status r = 200 /\
      exists s, status_ = Some s /\ (s = "accepted" \/ s = "declined") /\
        invitations w' = answered invitationId s (invitations w) /\
        forall j, In j (invitations w') -> inv_status j = "pending" ->
                  In j (invitations w) /\ inv_id j <> invitationId)) /\
    (forall s i t u,
       status_ = Some s -> s = "accepted" \/ s = "declined" ->
       In i (invitations w) -> inv_id i = invitationId ->
       inv_player_id i = caller_id caller ->
       In t (tryouts w) -> tryout_id t = inv_tryout_id i ->
       In u (users w) -> user_id u = tryout_scout_id t ->
       status r = 200 /\
       invitations w' = answered invitationId s (invitations w)) /\
    ((forall s, status_ = Some s -> s <> "accepted" /\ s <> "declined") ->
     r = json 400 "Status must be accepted or declined" /\ w' = w) /\
    (forall s,
       status_ = Some s -> s = "accepted" \/ s = "declined" ->
       (forall i, In i (invitations w) -> inv_id i = invitationId ->
                  inv_player_id i <> caller_id caller) ->
       r = json 404 "Invitation not found or unauthorized" /\ w' = w) /\
    (status r = 200 ->
     exists i, In i (invitations w) /\ inv_id i = invitationId /\
               inv_player_id i = caller_id caller).
Proof.
  intros w caller invitationId [s |].
  2:{ cbn. split; [left; auto |]. split; [intros; discriminate |].
      split; [auto |]. split; [intros; discriminate | discriminate]. }
  destruct (String.eqb s "accepted" || String.eqb s "declined") eqn:Ev.
  - assert (Hs : s = "accepted" \/ s = "declined").
    { apply orb_true_iff in Ev.
      destruct Ev as [E | E]; apply String.eqb_eq in E; auto. }
    destruct (join3 (fun i t u => Nat.eqb (inv_tryout_id i) (tryout_id t)
                        && Nat.eqb (tryout_scout_id t) (user_id u)
                        && Nat.eqb (inv_id i) invitationId
                        && Nat.eqb (inv_player_id i) (caller_id caller))
                (invitations w) (tryouts w) (users w))
      as [| [[i0 t0] u0] rest] eqn:E.
    + rewrite (updateInvitationStatus_not_found w caller invitationId s Hs E).
      split; [left; auto |]. split; [| split; [| split; [| discriminate]]].
      * intros s' i t u _ _ Hi Hid Hp Ht Htid Hu Huid. exfalso.
        assert (Hin : In (i, t, u) []); [| exact Hin].
        rewrite <- E. apply in_join3. repeat split; try assumption.
        rewrite Htid, Huid, Hid, Hp, !Nat.eqb_refl. reflexivity.
      * intros Hbad. destruct (Hbad s eq_refl). destruct Hs; contradiction.
      * intros; split; reflexivity.
    + destruct (updateInvitationStatus_lookup w caller invitationId i0 t0 u0
                  rest E) as (Hi0 & Hid0 & Hp0).
      pose proof (updateInvitationStatus_valid w caller invitationId s Hs) as H.
      cbv zeta in H. rewrite E in H.
      destruct (run _ w) as [r w']. destruct H as [_ Hsome].
      destruct Hsome as [H200 Hinv]; [discriminate |].
      split; [| split; [| split; [| split]]].
      * right. split; [exact H200 |]. exists s. repeat split; auto;
          rewrite Hinv in H; apply in_map_iff in H; destruct H as (j0 & E0 & Hj);
          destruct (Nat.eqb (inv_id j0) invitationId) eqn:Ej; subst j;
          try assumption;
          try (exfalso; destruct Hs; subst s; discriminate).
        apply Nat.eqb_neq. assumption.
      * intros s' i t u E' _ _ _ _ _ _ _ _. inversion E'; subst s'. auto.
      * intros Hbad. destruct (Hbad s eq_refl). destruct Hs; contradiction.
      * intros s' _ _ Hother. exfalso. apply (Hother i0 Hi0 Hid0 Hp0).
      * intros _. exists i0. auto.
  - apply orb_false_iff in Ev. destruct Ev as [Ea Ed].
    unfold PlayerController.updateInvitationStatus. step_handler.
    rewrite Ea, Ed. cbn. split; [left; auto |].
    split; [| split; [auto | split; [| discriminate]]].
    + intros s' i t u E Hs. inversion E; subst s'.
      destruct Hs; subst s; discriminate.
    + intros s' E Hs. inversion E; subst s'.
      destruct Hs; subst s; discriminate.
Qed.

(** C3 on the sample store: Pat accepts the pending invitation, and Kim,
    who is not the invited player, is refused. *)
Lemma updateInvitationStatus_writes_accepted_or_declined_witness :
  (In Examples.invite_pat (invitations Examples.store) /\
   inv_status Examples.invite_pat = "pending" /\
   inv_player_id Examples.invite_pat = caller_id Examples.player_pat) /\
  (let (r, w') := run (PlayerController.updateInvitationStatus
                         Examples.player_pat 1 (Some "accepted"))
                      Examples.store in
   status r = 200 /\
   invitations w' = answered 1 "accepted" (invitations Examples.store)) /\
  run (PlayerController.updateInvitationStatus Examples.player_kim 1
         (Some "accepted")) Examples.store
  = (json 404 "Invitation not found or unauthorized", Examples.store).
Proof.
  split; [cbn; auto |]. split.
  - pose proof (updateInvitationStatus_writes_accepted_or_declined
                  Examples.store Examples.player_pat 1 (Some "accepted")) as H.
    destruct (run _ Examples.store) as [r w']. destruct H as (_ & H & _).
    apply (H "accepted" Examples.invite_pat Examples.trial Examples.sam);
      cbn; auto.
  - pose proof (updateInvitationStatus_writes_accepted_or_declined
                  Examples.store Examples.player_kim 1 (Some "accepted")) as H.
    destruct (run _ Examples.store) as [r w'].
    destruct H as (_ & _ & _ & H & _).
    destruct (H "accepted" eq_refl (or_introl eq_refl)) as [-> ->];
      [| reflexivity].
    intros i [<- | [<- | []]]; cbn; intros; discriminate.
Defined.

(** C3 fails as stated: Kim's invitation is accepted, and Kim's next
    request turns it into declined. *)
Lemma accepted_invitation_is_not_terminal :
  In Examples.invite_kim (invitations Examples.store) /\
  inv_status Examples.invite_kim = "accepted" /\
  status (fst (run (PlayerController.updateInvitationStatus Examples.player_kim 2
                      (Some "declined")) Examples.store)) = 200 /\
  invitations (snd (run (PlayerController.updateInvitationStatus
                           Examples.player_kim 2 (Some "declined"))
                        Examples.store))
  = [Examples.invite_pat; mkInvitation 2 1 3 "declined"].
Proof.
  cbn. intuition.
Qed.

(** What both operations do with a duplicate.  When the calling scout owns
    the tryout and an invitation of the player to it is already there, both
    refuse and insert nothing, so the pair has as many rows as before (one,
    if it had one): [invitePlayer] answers 409, [sendInvitation] answers
    400. *)
Theorem duplicate_invitation_is_refused :
  forall (w : World) (caller : Caller) (tryoutId playerId : nat)
         (t : Tryout) (i : Invitation),
    tryoutId <> 0 -> playerId <> 0 ->
    In t (tryouts w) -> tryout_id t = tryoutId ->
    tryout_scout_id t = caller_id caller ->
    In i (invitations w) ->
    inv_tryout_id i = tryoutId -> inv_player_id i = playerId ->
    (forall u, In u (users w) -> user_id u = caller_id caller ->
       let (r, w') := run (ScoutController.invitePlayer caller (Some tryoutId)
                             (Some playerId)) w in
       status r = 409 /\ w' = w /\
       invitations_of tryoutId playerId w' = invitations_of tryoutId playerId w) /\
    (let (r, w') := run (PlayerController.sendInvitation caller (Some tryoutId)
                           (Some playerId)) w in
     status r = 400 /\ w' = w /\
     invitations_of tryoutId playerId w' = invitations_of tryoutId playerId w).
Proof.
  intros w caller tryoutId playerId t i Ht0 Hp0 Ht Htid Hts Hi Hit Hip.
  assert (Hex : nonempty (filter (fun i => Nat.eqb (inv_tryout_id i) tryoutId
                                           && Nat.eqb (inv_player_id i) playerId)
                                 (invitations w)) = true).
  { apply nonempty_filter with (x := i); [assumption |].
    rewrite Hit, Hip, !Nat.eqb_refl. reflexivity. }
  destruct tryoutId as [| tid']; [congruence |].
  destruct playerId as [| pid']; [congruence |].
  split.
  - intros u Hu Huid.
    unfold ScoutController.invitePlayer. step_handler.
    destruct (join2 _ (users w) (tryouts w)) as [| [u' t'] rest] eqn:E.
    + exfalso. apply (in_not_nil (u, t)) in E; [exact E |].
      apply in_join2. repeat split; try assumption.
      rewrite Hts, Huid, Htid, !Nat.eqb_refl. reflexivity.
    + cbn. rewrite Hex. cbn. auto.
  - unfold PlayerController.sendInvitation. step_handler.
    rewrite (nonempty_filter _ (tryouts w) t Ht).
    + cbn. rewrite Hex. cbn. auto.
    + rewrite Htid, Hts, !Nat.eqb_refl. reflexivity.
Qed.

(** On the sample store: Sam invites Pat to the trial a second time. *)
Lemma duplicate_invitation_is_refused_witness :
  (1 <> 0 /\ 2 <> 0 /\
   In Examples.trial (tryouts Examples.store) /\
   In Examples.invite_pat (invitations Examples.store)) /\
  (forall u, In u (users Examples.store) ->
     user_id u = caller_id Examples.scout_sam ->
     let (r, w') := run (ScoutController.invitePlayer Examples.scout_sam
                           (Some 1) (Some 2)) Examples.store in
     status r = 409 /\ w' = Examples.store /\
     invitations_of 1 2 w' = invitations_of 1 2 Examples.store) /\
  (let (r, w') := run (PlayerController.sendInvitation Examples.scout_sam
                         (Some 1) (Some 2)) Examples.store in
   status r = 400 /\ w' = Examples.store /\
   invitations_of 1 2 w' = invitations_of 1 2 Examples.store).
Proof.
  split.
  - cbn. intuition discriminate.
  - apply (duplicate_invitation_is_refused Examples.store Examples.scout_sam 1 2
             Examples.trial Examples.invite_pat); cbn; auto.
Defined.

(** C4.  The code at the failing input: Pat is invited to the trial, and
    Sam's second invitation through [sendInvitation] is answered 400, where
    the claim, the documentation of the route and [invitePlayer] say 409;
    no row is inserted. *)
Lemma sendInvitation_duplicate_is_400 :
  invitations_of 1 2 Examples.store = [Examples.invite_pat] /\
  run (PlayerController.sendInvitation Examples.scout_sam (Some 1) (Some 2))
      Examples.store
  = (json 400 "Invitation already sent", Examples.store) /\
  Nat.eqb (status (fst (run (PlayerController.sendInvitation Examples.scout_sam
                               (Some 1) (Some 2)) Examples.store))) 409 = false /\
  status (fst (run (ScoutController.invitePlayer Examples.scout_sam
                      (Some 1) (Some 2)) Examples.store)) = 409.
Proof.
  cbn. intuition.
Qed.

(** ** Likes *)

Section Likes.

Import PlayerController.

Variable caller : Caller.
Variable videoId : nat.
Hypothesis videoId_truthy : videoId <> 0.

Lemma like_count_app l x w :
  likes w = l ++ [x] ->
  like_count videoId w =
    List.length (filter (fun l => Nat.eqb (like_video_id l) videoId) l)
    + (if Nat.eqb (like_video_id x) videoId then 1 else 0).
Proof.
  intros E. unfold like_count. rewrite E, filter_app, length_app. cbn.
  destruct (Nat.eqb (like_video_id x) videoId); reflexivity.
Qed.

(** The no-op path: nothing is written and no count is reported. *)
Lemma likeVideo_again w v :
  In v (videos w) -> video_id v = videoId ->
  has_liked (caller_id caller) videoId w = true ->
  run (likeVideo caller (Some videoId)) w =
    (mkResponse 200 "Already liked this video" [("alreadyLiked", Js.VBool true)],
     w).
Proof.
  intros Hv Hid Hl. unfold likeVideo. step_handler.
  destruct videoId as [| n]; [congruence |]. cbn.
  rewrite (nonempty_filter _ (videos w) v Hv)
    by (rewrite Hid; apply Nat.eqb_refl).
  cbn. unfold has_liked in Hl. rewrite Hl. reflexivity.
Qed.

(** The fresh path: one row more, and the count of the new store in the
    answer. *)
Lemma likeVideo_fresh w v :
  In v (videos w) -> video_id v = videoId ->
  has_liked (caller_id caller) videoId w = false ->
  let (r, w') := run (likeVideo caller (Some videoId)) w in
  status r = 201 /\
  payload r = [("likeCount", Js.VNum (like_count videoId w'))] /\
  likes w' = likes w ++ [mkLike (fresh like_id (likes w)) (caller_id caller) videoId] /\
  videos w' = videos w.
Proof.
  intros Hv Hid Hl. unfold likeVideo. step_handler.
  destruct videoId as [| n] eqn:En; [congruence |]. cbn.
  rewrite (nonempty_filter _ (videos w) v Hv)
    by (rewrite Hid; apply Nat.eqb_refl).
  cbn. unfold has_liked in Hl. rewrite Hl. cbn.
  destruct (join2 _ (videos w) (users w)) as [| [v' u'] rest]; cbn;
    [| destruct (Nat.eqb (video_player_id v') (caller_id caller)); cbn];
    repeat split; reflexivity.
Qed.

End Likes.

(** C2, as the code has it.  For an existing video: a like by a user who
    already likes it is answered 200 with the flag [alreadyLiked] and
    without a like count, and writes nothing; a fresh like is answered 201
    with the recomputed count, which is one more than before; and after
    liking twice in a row the user has one row and the count of the video
    is still one more than before the first like. *)
Theorem likeVideo_idempotent :
  forall (w : World) (caller : Caller) (videoId : nat) (v : Video),
    videoId <> 0 -> In v (videos w) -> video_id v = videoId ->
    let once := run (PlayerController.likeVideo caller (Some videoId)) w in
    let twice := run (PlayerController.likeVideo caller (Some videoId)) (snd once) in
    (has_liked (caller_id caller) videoId w = true ->
       status (fst once) = 200 /\
       field "alreadyLiked" (payload (fst once)) = Some (Js.VBool true) /\
       field "likeCount" (payload (fst once)) = None /\
       snd once = w) /\
    (has_liked (caller_id caller) videoId w = false ->
       status (fst once) = 201 /\
       field "likeCount" (payload (fst once))
         = Some (Js.VNum (PlayerController.like_count videoId (snd once))) /\
       PlayerController.like_count videoId (snd once)
         = S (PlayerController.like_count videoId w) /\
       status (fst twice) = 200 /\
       field "likeCount" (payload (fst twice)) = None /\
       snd twice = snd once /\
       PlayerController.like_count videoId (snd twice)
         = S (PlayerController.like_count videoId w) /\
       List.length (filter (fun l => Nat.eqb (like_user_id l) (caller_id caller)
                                     && Nat.eqb (like_video_id l) videoId)
                           (likes (snd twice))) = 1).
Proof.
  intros w caller videoId v Hv0 Hv Hid once twice. split.
  - intros Hl. subst once.
    rewrite (likeVideo_again caller videoId Hv0 w v Hv Hid Hl). cbn. auto.
  - intros Hl.
    pose proof (likeVideo_fresh caller videoId Hv0 w v Hv Hid Hl) as H.
    fold once in H. destruct once as [r w'] eqn:E. cbn in twice.
    destruct H as (Hs & Hp & Hlikes & Hvideos).
    assert (Hc : PlayerController.like_count videoId w'
                 = S (PlayerController.like_count videoId w)).
    { rewrite (like_count_app videoId _ _ w' Hlikes). cbn.
      rewrite Nat.eqb_refl. unfold PlayerController.like_count. lia. }
    assert (Hmine : filter (fun l => Nat.eqb (like_user_id l) (caller_id caller)
                                     && Nat.eqb (like_video_id l) videoId) (likes w')
                    = [mkLike (fresh like_id (likes w)) (caller_id caller) videoId]).
    { rewrite Hlikes, filter_app. unfold has_liked in Hl.
      apply nonempty_false in Hl. rewrite Hl. cbn.
      rewrite !Nat.eqb_refl. reflexivity. }
    assert (Hl' : has_liked (caller_id caller) videoId w' = true).
    { unfold has_liked. rewrite Hmine. reflexivity. }
    assert (Hv' : In v (videos w')) by (rewrite Hvideos; assumption).
    subst twice.
    rewrite (likeVideo_again caller videoId Hv0 w' v Hv' Hid Hl').
    cbn. rewrite Hs, Hp, Hmine. cbn. repeat split; auto.
Qed.

(** C2 on the sample store: Pat likes the clip twice; Kim already did. *)
Lemma likeVideo_idempotent_witness :
  (1 <> 0 /\ In Examples.clip (videos Examples.store) /\
   video_id Examples.clip = 1 /\
   has_liked (caller_id Examples.player_pat) 1 Examples.store = false) /\
  status (fst (run (PlayerController.likeVideo Examples.player_pat (Some 1))
                   Examples.store)) = 201 /\
  PlayerController.like_count 1
    (snd (run (PlayerController.likeVideo Examples.player_pat (Some 1))
              (snd (run (PlayerController.likeVideo Examples.player_pat (Some 1))
                        Examples.store))))
  = S (PlayerController.like_count 1 Examples.store).
Proof.
  assert (H0 : 1 <> 0) by discriminate.
  assert (Hin : In Examples.clip (videos Examples.store)) by (left; reflexivity).
  split.
  - repeat split; auto.
  - pose proof (likeVideo_idempotent Examples.store Examples.player_pat 1
                  Examples.clip H0 Hin eq_refl) as [_ H].
    specialize (H eq_refl). split; apply H.
Defined.

(** C2 fails as stated: the answer to a like of a video the user already
    likes carries no like count. *)
Lemma duplicate_like_reports_no_count :
  has_liked (caller_id Examples.player_kim) 1 Examples.store = true /\
  fst (run (PlayerController.likeVideo Examples.player_kim (Some 1)) Examples.store)
  = mkResponse 200 "Already liked this video" [("alreadyLiked", Js.VBool true)] /\
  field "likeCount"
    (payload (fst (run (PlayerController.likeVideo Examples.player_kim (Some 1))
                       Examples.store))) = None.
Proof.
  cbn. intuition.
Qed.

(** ** Accounts *)

Lemma strict_neq_spec a b :
  AuthController.strict_neq a b = true <-> a <> b.
Proof.
  destruct a as [x |], b as [y |]; cbn; split; intros H;
    try congruence; try reflexivity.
  - intros E. inversion E; subst. rewrite String.eqb_refl in H. discriminate.
  - destruct (String.eqb x y) eqn:E; [| reflexivity].
    apply String.eqb_eq in E. congruence.
Qed.

(** C7. A request with a required field missing, or with two different
    passwords, is answered 400 and writes nothing.  A request whose email
    is already that of a user never inserts a row, and when it is otherwise
    well formed it is answered 409. *)
Theorem register_rejects :
  forall (env : Env) (w : World) (body : AuthController.RegisterBody),
    (AuthController.missing_fields body = true ->
       status (fst (run (AuthController.register env body) w)) = 400 /\
       snd (run (AuthController.register env body) w) = w) /\
    (AuthController.reg_password body <> AuthController.reg_confirmPassword body ->
       status (fst (run (AuthController.register env body) w)) = 400 /\
       snd (run (AuthController.register env body) w) = w) /\
    (forall u, In u (users w) ->
       AuthController.reg_email body = Some (user_email u) ->
       snd (run (AuthController.register env body) w) = w /\
       (AuthController.missing_fields body = false ->
        AuthController.reg_password body = AuthController.reg_confirmPassword body ->
        status (fst (run (AuthController.register env body) w)) = 409)).
Proof.
  intros env w body.
  unfold AuthController.register. step_handler.
  destruct (AuthController.missing_fields body) eqn:Em; cbn.
  - repeat split; auto. discriminate.
  - split; [discriminate |].
    destruct (AuthController.strict_neq (AuthController.reg_password body)
                (AuthController.reg_confirmPassword body)) eqn:Ep; cbn.
    + repeat split; auto. intros _ E.
      apply strict_neq_spec in Ep. contradiction.
    + split.
      * intros H. apply strict_neq_spec in H. congruence.
      * intros u Hu He. rewrite He. cbn.
        rewrite (nonempty_filter _ (users w) u Hu (String.eqb_refl _)). cbn.
        auto.
Qed.

(** C7 on the sample store: a second registration under Pat's address. *)
Lemma register_rejects_witness :
  (In Examples.pat (users Examples.store) /\
   AuthController.reg_email Examples.second_pat = Some (user_email Examples.pat) /\
   AuthController.missing_fields Examples.second_pat = false) /\
  snd (run (AuthController.register Examples.env Examples.second_pat) Examples.store)
  = Examples.store /\
  status (fst (run (AuthController.register Examples.env Examples.second_pat)
                   Examples.store)) = 409.
Proof.
  assert (Hin : In Examples.pat (users Examples.store)) by (right; left; reflexivity).
  split.
  - repeat split; auto.
  - destruct (register_rejects Examples.env Examples.store Examples.second_pat)
      as (_ & _ & H).
    destruct (H Examples.pat Hin eq_refl) as [Hw Hs].
    split; [exact Hw | apply Hs; reflexivity].
Defined.

(** C9. When the address is that of an account whose status is not active,
    the answer is 403 and nothing else: the same for every submitted
    password, right, wrong or missing, and for every password check. *)
Theorem login_inactive_is_forbidden :
  forall (env : Env) (w : World) (u : User) (password : option string),
    NoDup (map user_email (users w)) ->
    In u (users w) -> user_status u <> "active" ->
    run (AuthController.login env (Some (user_email u)) password) w
      = (json 403 "Account is not active", w) /\
    forall (env' : Env) (password' : option string),
      run (AuthController.login env' (Some (user_email u)) password') w
      = run (AuthController.login env (Some (user_email u)) password) w.
Proof.
  intros env w u password Hnd Hu Hs.
  assert (H : forall e p,
             run (AuthController.login e (Some (user_email u)) p) w
             = (json 403 "Account is not active", w)).
  { intros e p. unfold AuthController.login. step_handler.
    destruct (filter _ (users w)) as [| u' rest] eqn:E.
    - exfalso. apply (in_not_nil u) in E; [exact E |].
      apply filter_In. split; [assumption | apply String.eqb_refl].
    - assert (Hu' : In u' (filter (fun x => String.eqb (user_email x) (user_email u))
                                  (users w))) by (rewrite E; left; reflexivity).
      apply filter_In in Hu'. destruct Hu' as [Hin He].
      apply String.eqb_eq in He.
      assert (u' = u) by (apply (key_unique user_email (users w)); assumption).
      subst u'.
      destruct (String.eqb (user_status u) "active") eqn:Ea.
      + apply String.eqb_eq in Ea. contradiction.
      + reflexivity. }
  split; [apply H |]. intros env' password'. rewrite !H. reflexivity.
Qed.

(** C9 on the sample store: Kim is suspended and submits the right
    password. *)
Lemma login_inactive_is_forbidden_witness :
  (NoDup (map user_email (users Examples.store)) /\
   In Examples.kim (users Examples.store) /\
   user_status Examples.kim <> "active" /\
   bcrypt_compare Examples.env "ash" (user_password Examples.kim) = true) /\
  run (AuthController.login Examples.env (Some (user_email Examples.kim))
         (Some "ash")) Examples.store
  = (json 403 "Account is not active", Examples.store).
Proof.
  assert (Hnd : NoDup (map user_email (users Examples.store))).
  { cbn. repeat constructor; cbn; intuition discriminate. }
  assert (Hin : In Examples.kim (users Examples.store)) by (cbn; auto).
  assert (Hs : user_status Examples.kim <> "active") by discriminate.
  split.
  - repeat split; auto.
  - apply (login_inactive_is_forbidden Examples.env Examples.store Examples.kim
             (Some "ash") Hnd Hin Hs).
Defined.

(** ** Videos *)

Lemma without_video_spec videoId l x :
  In x (without_video videoId l) -> video_id x <> videoId.
Proof.
  unfold without_video. rewrite filter_In. intros [_ H].
  apply Nat.eqb_neq. destruct (Nat.eqb (video_id x) videoId);
    [discriminate | reflexivity].
Qed.

(** C8. Whatever the media store answers to the deletion request, a
    failure included, the owner's and the administrator's [deleteVideo]
    answer 200 and the video row is gone; for a video with a storage
    identifier the request to the media store has been made. *)
Theorem deleteVideo_survives_storage_failure :
  forall (env : Env) (w : World) (caller : Caller) (videoId : nat) (v : Video)
         (ip : string),
    NoDup (map video_id (videos w)) ->
    In v (videos w) -> video_id v = videoId ->
    (video_player_id v = caller_id caller ->
     let (r, w') := run (PlayerController.deleteVideo env caller videoId) w in
     status r = 200 /\
     videos w' = without_video videoId (videos w) /\
     ~ In v (videos w') /\
     (Js.truthy_str (video_public_id v) = true ->
      effects w' = effects w ++ [destroy_request v])) /\
    (let (r, w') := run (AdminController.deleteVideo env caller videoId ip) w in
     status r = 200 /\
     videos w' = without_video videoId (videos w) /\
     ~ In v (videos w') /\
     (Js.truthy_str (video_public_id v) = true ->
      effects w' = effects w ++ [destroy_request v])).
Proof.
  intros env w caller videoId v ip Hnd Hv Hid.
  assert (Hgone : ~ In v (without_video videoId (videos w))).
  { intros H. apply without_video_spec in H. contradiction. }
  split.
  - intros Hown. unfold PlayerController.deleteVideo. step_handler.
    destruct (filter _ (videos w)) as [| v' rest] eqn:E.
    + exfalso. apply (in_not_nil v) in E; [exact E |].
      apply filter_In. split; [assumption |].
      rewrite Hid, Hown, !Nat.eqb_refl. reflexivity.
    + assert (Hv' : In v' (filter (fun x => Nat.eqb (video_id x) videoId
                                            && Nat.eqb (video_player_id x)
                                                 (caller_id caller)) (videos w)))
        by (rewrite E; left; reflexivity).
      apply filter_In in Hv'. destruct Hv' as [Hin Hc].
      apply andb_true_iff in Hc. destruct Hc as [Hc _]. apply Nat.eqb_eq in Hc.
      assert (v' = v) by (apply (key_unique video_id (videos w)); congruence).
      subst v'.
      destruct (Js.truthy_str (video_public_id v)) eqn:Ep; cbn.
      * destruct (cloud_destroy_ok env _ _); cbn; repeat split; auto.
      * destruct (Js.includes (video_url v) "cloudinary"),
                 (video_url v) as [| c s]; cbn;
          try destruct (fs_unlink_ok env _); cbn;
          repeat split; auto; discriminate.
  - unfold AdminController.deleteVideo, AdminController.logAdminAction.
    step_handler.
    destruct (filter _ (videos w)) as [| v' rest] eqn:E.
    + exfalso. apply (in_not_nil v) in E; [exact E |].
      apply filter_In. split; [assumption |].
      rewrite Hid. apply Nat.eqb_refl.
    + assert (Hv' : In v' (filter (fun x => Nat.eqb (video_id x) videoId) (videos w)))
        by (rewrite E; left; reflexivity).
      apply filter_In in Hv'. destruct Hv' as [Hin Hc]. apply Nat.eqb_eq in Hc.
      assert (v' = v) by (apply (key_unique video_id (videos w)); congruence).
      subst v'.
      destruct (Js.truthy_str (video_public_id v)) eqn:Ep; cbn.
      * destruct (cloud_destroy_ok env _ _); cbn; repeat split; auto.
      * repeat split; auto; discriminate.
Qed.

(** C8 on the sample store, whose media store refuses every deletion: Pat
    deletes the clip, and so does the administrator. *)
Lemma deleteVideo_survives_storage_failure_witness :
  (NoDup (map video_id (videos Examples.store)) /\
   In Examples.clip (videos Examples.store) /\
   video_player_id Examples.clip = caller_id Examples.player_pat /\
   cloud_destroy_ok Examples.env "pharaohs/videos/clip" "video" = false) /\
  (let (r, w') := run (PlayerController.deleteVideo Examples.env
                         Examples.player_pat 1) Examples.store in
   status r = 200 /\
   videos w' = without_video 1 (videos Examples.store) /\
   ~ In Examples.clip (videos w') /\
   (Js.truthy_str (video_public_id Examples.clip) = true ->
    effects w' = effects Examples.store ++ [destroy_request Examples.clip])).
Proof.
  assert (Hnd : NoDup (map video_id (videos Examples.store))).
  { cbn. repeat constructor; cbn; intuition discriminate. }
  assert (Hin : In Examples.clip (videos Examples.store)) by (cbn; auto).
  split.
  - repeat split; auto.
  - destruct (deleteVideo_survives_storage_failure Examples.env Examples.store
                Examples.player_pat 1 Examples.clip "10.0.0.1" Hnd Hin eq_refl)
      as [H _].
    apply H. reflexivity.
Defined.

(** ** Notifications of likes and comments *)

Section OwnVideo.

Import PlayerController.

Variable w : World.
Variable caller : Caller.
Variable videoId : nat.
Variable v : Video.
Hypothesis videoId_truthy : videoId <> 0.
Hypothesis videos_key : NoDup (map video_id (videos w)).
Hypothesis v_in : In v (videos w).
Hypothesis v_id : video_id v = videoId.

Local Abbreviation lookup := (owner_lookup w caller videoId).

Lemma owner_lookup_head v' u' rest :
  lookup = (v', u') :: rest -> v' = v /\ user_id u' = caller_id caller.
Proof.
  intros E.
  assert (H : In (v', u') lookup) by (rewrite E; left; reflexivity).
  apply in_join2 in H. destruct H as (Hv' & _ & Hc).
  apply andb_true_iff in Hc. destruct Hc as [Hu Hc].
  apply Nat.eqb_eq in Hc. apply Nat.eqb_eq in Hu. split; [| exact Hu].
  apply (key_unique video_id (videos w)); congruence.
Qed.

Lemma owner_lookup_found u :
  In u (users w) -> user_id u = caller_id caller -> lookup <> [].
Proof.
  intros Hu Hid. apply (in_not_nil (v, u)). apply in_join2.
  repeat split; try assumption.
  rewrite Hid, v_id, !Nat.eqb_refl. reflexivity.
Qed.

Lemma video_found :
  nonempty (filter (fun x => Nat.eqb (video_id x) videoId) (videos w)) = true.
Proof.
  apply nonempty_filter with (x := v); [exact v_in |].
  rewrite v_id. apply Nat.eqb_refl.
Qed.

Lemma likeVideo_notifies :
  let w' := snd (run (likeVideo caller (Some videoId)) w) in
  (video_player_id v = caller_id caller ->
     notifications w' = notifications w) /\
  (has_liked (caller_id caller) videoId w = false ->
     likes w' = likes w ++
                [mkLike (fresh like_id (likes w)) (caller_id caller) videoId]) /\
  (video_player_id v <> caller_id caller ->
   has_liked (caller_id caller) videoId w = false ->
   forall u, In u (users w) -> user_id u = caller_id caller ->
   exists msg,
     notifications w' = notifications w ++
       [mkNotification (fresh notif_id (notifications w))
                       (video_player_id v) msg false]).
Proof.
  unfold likeVideo. open_handler.
  rewrite (truthy_id_Some videoId videoId_truthy). cbn.
  rewrite video_found. cbn.
  unfold has_liked.
  destruct (nonempty (filter _ (likes w))) eqn:El; cbn.
  - repeat split; auto; discriminate.
  - fold lookup.
    destruct lookup as [| [v' u'] rest] eqn:E; cbn.
    + repeat split; auto. intros _ _ u Hu Hid.
      exfalso. apply (owner_lookup_found u Hu Hid). exact E.
    + destruct (owner_lookup_head v' u' rest E) as [-> _].
      destruct (Nat.eqb (video_player_id v) (caller_id caller)) eqn:Eo; cbn.
      * apply Nat.eqb_eq in Eo. repeat split; auto. contradiction.
      * apply Nat.eqb_neq in Eo. repeat split; auto; try contradiction.
        intros _ _ u _ _. eexists. reflexivity.
Qed.

Lemma addComment_notifies content :
  let w' := snd (run (addComment caller (Some videoId) content) w) in
  (video_player_id v = caller_id caller ->
     notifications w' = notifications w) /\
  (caller_role caller = "player" ->
   forall c, content = Some c -> Js.trim c <> EmptyString ->
     comments w' = comments w ++
       [mkComment (fresh comment_id (comments w)) (caller_id caller) videoId
                  (Js.trim c)] /\
     (video_player_id v <> caller_id caller ->
      forall u, In u (users w) -> user_id u = caller_id caller ->
      exists msg,
        notifications w' = notifications w ++
          [mkNotification (fresh notif_id (notifications w))
                          (video_player_id v) msg false])).
Proof.
  unfold addComment. open_handler.
  rewrite (truthy_id_Some videoId videoId_truthy).
  destruct (String.eqb (caller_role caller) "player") eqn:Er; cbn.
  2:{ split; [reflexivity |]. intros H. rewrite H in Er. discriminate. }
  destruct content as [c |]; cbn.
  2:{ split; [reflexivity |]. intros _ c H. discriminate. }
  destruct (Js.trim c) as [| a s] eqn:Et; cbn.
  { split; [reflexivity |]. intros _ c0 H. inversion H; subst c0.
    rewrite Et. congruence. }
  fold lookup.
  destruct lookup as [| [v' u'] rest] eqn:E; cbn.
  - split; [reflexivity |]. intros _ c0 H _. inversion H; subst c0.
    rewrite Et. split; [reflexivity |]. intros _ u Hu Hid.
    exfalso. apply (owner_lookup_found u Hu Hid). exact E.
  - destruct (owner_lookup_head v' u' rest E) as [-> _].
    destruct (Nat.eqb (video_player_id v) (caller_id caller)) eqn:Eo; cbn.
    + apply Nat.eqb_eq in Eo. split; [reflexivity |].
      intros _ c0 H _. inversion H; subst c0. rewrite Et.
      split; [reflexivity | contradiction].
    + apply Nat.eqb_neq in Eo. split; [contradiction |].
      intros _ c0 H _. inversion H; subst c0. rewrite Et.
      split; [reflexivity |]. intros _ u _ _. eexists. reflexivity.
Qed.

End OwnVideo.

(** C10. A like or a comment on the caller's own video leaves the
    notifications as they were, and the like row (of a fresh like) and the
    comment row (of a player's non-blank comment) are written all the same;
    on another user's video the owner gets one notification. *)
Theorem own_video_is_not_notified :
  forall (w : World) (caller : Caller) (videoId : nat) (v : Video)
         (content : option string),
    videoId <> 0 -> NoDup (map video_id (videos w)) ->
    In v (videos w) -> video_id v = videoId ->
    let liked := snd (run (PlayerController.likeVideo caller (Some videoId)) w) in
    let commented :=
      snd (run (PlayerController.addComment caller (Some videoId) content) w) in
    (video_player_id v = caller_id caller ->
       notifications liked = notifications w /\
       notifications commented = notifications w) /\
    (has_liked (caller_id caller) videoId w = false ->
       likes liked = likes w ++
         [mkLike (fresh like_id (likes w)) (caller_id caller) videoId]) /\
    (caller_role caller = "player" ->
     forall c, content = Some c -> Js.trim c <> EmptyString ->
       comments commented = comments w ++
         [mkComment (fresh comment_id (comments w)) (caller_id caller) videoId
                    (Js.trim c)]) /\
    (video_player_id v <> caller_id caller ->
     forall u, In u (users w) -> user_id u = caller_id caller ->
       (has_liked (caller_id caller) videoId w = false ->
        exists msg,
          notifications liked = notifications w ++
            [mkNotification (fresh notif_id (notifications w))
                            (video_player_id v) msg false]) /\
       (caller_role caller = "player" ->
        forall c, content = Some c -> Js.trim c <> EmptyString ->
        exists msg,
          notifications commented = notifications w ++
            [mkNotification (fresh notif_id (notifications w))
                            (video_player_id v) msg false])).
Proof.
  intros w caller videoId v content Hv0 Hnd Hv Hid liked commented.
  destruct (likeVideo_notifies w caller videoId v Hv0 Hnd Hv Hid) as (L1 & L2 & L3).
  destruct (addComment_notifies w caller videoId v Hv0 Hnd Hv Hid content)
    as (C1 & C2).
  fold liked in L1, L2, L3. fold commented in C1, C2.
  split; [| split; [| split]].
  - intros Hown. split; [apply L1 | apply C1]; assumption.
  - exact L2.
  - intros Hr c Hc Ht. apply (C2 Hr c Hc Ht).
  - intros Hother u Hu Huid. split.
    + intros Hl. apply (L3 Hother Hl u Hu Huid).
    + intros Hr c Hc Ht. destruct (C2 Hr c Hc Ht) as [_ H].
      apply (H Hother u Hu Huid).
Qed.

(** C10 on the sample store: Pat likes and comments on Pat's own clip. *)
Lemma own_video_is_not_notified_witness :
  (1 <> 0 /\ NoDup (map video_id (videos Examples.store)) /\
   In Examples.clip (videos Examples.store) /\ video_id Examples.clip = 1 /\
   video_player_id Examples.clip = caller_id Examples.player_pat) /\
  notifications (snd (run (PlayerController.likeVideo Examples.player_pat (Some 1))
                          Examples.store)) = notifications Examples.store /\
  notifications (snd (run (PlayerController.addComment Examples.player_pat (Some 1)
                             (Some " nice one ")) Examples.store))
  = notifications Examples.store /\
  likes (snd (run (PlayerController.likeVideo Examples.player_pat (Some 1))
                  Examples.store))
  = likes Examples.store ++ [mkLike 2 2 1].
Proof.
  assert (H0 : 1 <> 0) by discriminate.
  assert (Hnd : NoDup (map video_id (videos Examples.store))).
  { cbn. repeat constructor; cbn; intuition discriminate. }
  assert (Hin : In Examples.clip (videos Examples.store)) by (cbn; auto).
  split.
  - repeat split; auto.
  - destruct (own_video_is_not_notified Examples.store Examples.player_pat 1
                Examples.clip (Some " nice one ") H0 Hnd Hin eq_refl)
      as (A & B & _).
    destruct (A eq_refl) as [A1 A2].
    split; [exact A1 | split; [exact A2 | apply B; reflexivity]].
Defined.

(** ** Uploads *)

(** C6. For an upload request of a player: a mimetype outside the allowed
    list is answered 415 and a file beyond the size limit 413, and in both
    cases the store and the log of remote calls are as before; an upload
    that is answered 201 has added exactly one video row, whose type is
    image when the declared mimetype starts with image/ and video
    otherwise. *)
Theorem upload_is_screened_and_typed :
  forall (env : Env) (w : World) (caller : Caller) (file : PlayerController.File)
         (description : option string),
    caller_role caller = "player" ->
    let (r, w') := run (PlayerRoutes.upload env caller (Some file) description) w in
    (Js.array_includes UploadService.allowedTypes (PlayerController.mimetype file)
       = false ->
     status r = 415 /\ w' = w) /\
    (Js.array_includes UploadService.allowedTypes (PlayerController.mimetype file)
       = true ->
     (UploadService.fileSize < PlayerController.size file)%N ->
     status r = 413 /\ w' = w) /\
    (status r = 201 ->
     exists row,
       videos w' = videos w ++ [row] /\
       video_player_id row = caller_id caller /\
       video_type row = inferred_type file /\
       (video_type row = "image" <->
        Js.startsWith (PlayerController.mimetype file) "image/" = true) /\
       (video_type row = "video" <->
        Js.startsWith (PlayerController.mimetype file) "image/" = false)).
Proof.
  intros env w caller file description Hrole.
  unfold PlayerRoutes.upload, PlayerRoutes.role, UploadService.single,
    UploadService.fileFilter, PlayerRoutes.handleUploadErrors,
    PlayerController.uploadMedia, CloudinaryService.uploadBuffer, inferred_type.
  open_handler. rewrite Hrole.
  destruct (Js.array_includes UploadService.allowedTypes
              (PlayerController.mimetype file)) eqn:Ea.
  2:{ cbn. repeat split; auto; discriminate. }
  destruct (UploadService.fileSize <? PlayerController.size file)%N eqn:Es.
  { cbn. repeat split; auto; discriminate. }
  apply N.ltb_ge in Es. cbn.
  assert (Hfits : ~ (UploadService.fileSize < PlayerController.size file)%N)
    by lia.
  destruct (cloudinary_configured env); cbn.
  2:{ split; [discriminate | split; [tauto | discriminate]]. }
  destruct (cloud_upload env _ _) as [url pid | err]; cbn.
  - split; [discriminate |]. split; [tauto |].
    intros _. eexists. split; [reflexivity |]. cbn.
    destruct (Js.startsWith (PlayerController.mimetype file) "image/");
      repeat split; auto; discriminate.
  - destruct (Js.includes err "payload too large"); cbn.
    { split; [discriminate | split; [tauto | discriminate]]. }
    destruct (Js.includes err "cloudinary"); cbn;
      (split; [discriminate | split; [tauto | discriminate]]).
Qed.

(** C6 on the sample store: Pat uploads a document, then a film that is too
    long, then a photo. *)
Lemma upload_is_screened_and_typed_witness :
  (caller_role Examples.player_pat = "player" /\
   Js.array_includes UploadService.allowedTypes
     (PlayerController.mimetype Examples.document) = false /\
   (UploadService.fileSize < PlayerController.size Examples.long_film)%N) /\
  run (PlayerRoutes.upload Examples.env_up Examples.player_pat
         (Some Examples.document) None) Examples.store
  = (mkResponse 415
       "Invalid file type: application/pdf. Only MP4, WebM, JPEG, PNG, JPG, and WebP are allowed."
       [("error", Js.VStr "INVALID_FILE_TYPE")], Examples.store) /\
  (let (r, w') := run (PlayerRoutes.upload Examples.env_up Examples.player_pat
                         (Some Examples.long_film) None) Examples.store in
   status r = 413 /\ w' = Examples.store) /\
  (let (r, w') := run (PlayerRoutes.upload Examples.env_up Examples.player_pat
                         (Some Examples.photo) None) Examples.store in
   status r = 201 /\
   exists row, videos w' = videos Examples.store ++ [row] /\
               video_type row = "image").
Proof.
  split; [repeat split; reflexivity |].
  split; [reflexivity |].
  split.
  - pose proof (upload_is_screened_and_typed Examples.env_up Examples.store
                  Examples.player_pat Examples.long_film None eq_refl) as H.
    destruct (run _ Examples.store) as [r w']. destruct H as (_ & H & _).
    apply H; reflexivity.
  - pose proof (upload_is_screened_and_typed Examples.env_up Examples.store
                  Examples.player_pat Examples.photo None eq_refl) as H.
    cbn in H. cbn. destruct H as (_ & _ & H). split; [reflexivity |].
    destruct (H eq_refl) as (row & Hv & _ & Ht & _).
    exists row. split; [exact Hv | exact Ht].
Defined.

(** ** Binary64 order and the rating *)

Section Order.

Variables (m1 m5 : positive) (e1 e5 : Z).
Hypothesis exponents : (e1 < e5)%Z.

Let low := S754_finite false m1 e1.
Let high := S754_finite false m5 e5.

Lemma SFeqb_refl_nan sx : SFeqb sx sx = false -> sx = S754_nan.
Proof.
  destruct sx as [s | s | | s m e]; try destruct s; unfold SFeqb; simpl;
    try discriminate; try reflexivity;
    rewrite Z.compare_refl, Pos.compare_cont_refl; discriminate.
Qed.

Lemma SFltb_above_high sx : SFltb high sx = true -> SFltb sx low = false.
Proof.
  unfold low, high.
  destruct sx as [s | s | | s m e]; try destruct s; unfold SFltb; simpl;
    try discriminate; try reflexivity.
  destruct (Z.compare_spec e5 e), (Z.compare_spec e e1); try lia;
    intros; (discriminate || reflexivity).
Qed.

Lemma SFltb_above_low sx : SFltb low sx = true -> SFltb sx low = false.
Proof.
  unfold low.
  destruct sx as [s | s | | s m e]; try destruct s; unfold SFltb; simpl;
    try discriminate; try reflexivity.
  rewrite (Z.compare_antisym e e1).
  change (Pos.compare_cont Eq) with Pos.compare.
  rewrite (Pos.compare_antisym m).
  destruct (e ?= e1)%Z; cbn [CompOpp]; try discriminate; try reflexivity.
  destruct (m ?= m1)%positive; cbn [CompOpp]; intros;
    (discriminate || reflexivity).
Qed.

Lemma SFeq_low sx :
  SFeqb sx sx = true -> SFltb low sx = false -> SFltb sx low = false ->
  sx = low.
Proof.
  unfold low.
  destruct sx as [s | s | | s m e]; try destruct s; unfold SFeqb, SFltb; simpl;
    try discriminate; try reflexivity.
  intros _.
  rewrite (Z.compare_antisym e e1).
  change (Pos.compare_cont Eq) with Pos.compare.
  rewrite (Pos.compare_antisym m).
  destruct (e ?= e1)%Z eqn:Ee; cbn [CompOpp]; try discriminate.
  destruct (m ?= m1)%positive eqn:Em; cbn [CompOpp]; intros; try discriminate.
  apply Z.compare_eq in Ee. apply Pos.compare_eq in Em. subst. reflexivity.
Qed.

End Order.

Section Rating.

Import JsNumber.
Local Open Scope float_scope.

Lemma Prim2SF_one : Prim2SF 1 = sf_one.
Proof. vm_compute. reflexivity. Qed.

Lemma Prim2SF_five : Prim2SF 5 = sf_five.
Proof. vm_compute. reflexivity. Qed.

Lemma SF_five_lt sx : SFltb sf_five sx = true -> SFltb sx sf_one = false.
Proof. apply SFltb_above_high. reflexivity. Qed.

Lemma SF_one_lt sx : SFltb sf_one sx = true -> SFltb sx sf_one = false.
Proof. apply SFltb_above_low. Qed.

Lemma SF_eq_one sx :
  SFeqb sx sx = true -> SFltb sf_one sx = false -> SFltb sx sf_one = false ->
  sx = sf_one.
Proof. apply SFeq_low. Qed.

Lemma SFmul_comm prec emax x y : SFmul prec emax x y = SFmul prec emax y x.
Proof.
  destruct x as [sx | sx | | sx mx ex], y as [sy | sy | | sy my ey]; simpl;
    try reflexivity; try (rewrite xorb_comm; reflexivity).
  rewrite xorb_comm, Pos.mul_comm, Z.add_comm. reflexivity.
Qed.

Lemma float_mul_comm (x y : float) : x * y = y * x.
Proof.
  apply Prim2SF_inj. rewrite !mul_spec. apply SFmul_comm.
Qed.

Lemma is_nan_eq x : is_nan x = true -> x = nan.
Proof.
  unfold is_nan. rewrite FloatAxioms.eqb_spec. intros H.
  apply Prim2SF_inj. apply negb_true_iff in H.
  rewrite (SFeqb_refl_nan _ H). reflexivity.
Qed.

Lemma Math_min_5 x :
  is_nan x = false -> Math_min 5 x = if 5 <? x then 5 else x.
Proof.
  intros Hn. unfold Math_min. rewrite Hn.
  change (is_nan 5) with false. change (is_zero 5) with false.
  cbv beta iota delta [orb andb].
  destruct (5 <? x); [reflexivity |]. destruct (x <? 5); reflexivity.
Qed.

Lemma Math_max_1 x :
  is_nan x = false -> Math_max 1 x = if x <? 1 then 1 else x.
Proof.
  intros Hn. unfold Math_max. rewrite Hn.
  change (is_nan 1) with false. change (is_zero 1) with false.
  cbv beta iota delta [orb andb].
  unfold is_nan in Hn. apply negb_false_iff in Hn.
  rewrite FloatAxioms.eqb_spec in Hn.
  rewrite !FloatAxioms.ltb_spec, Prim2SF_one.
  destruct (SFltb sf_one (Prim2SF x)) eqn:G.
  - rewrite (SF_one_lt _ G). reflexivity.
  - destruct (SFltb (Prim2SF x) sf_one) eqn:L; [reflexivity |].
    apply Prim2SF_inj. rewrite Prim2SF_one. symmetry.
    apply SF_eq_one; assumption.
Qed.

Lemma clamp_nan : Math_max 1 (Math_min 5 nan) = Spec.clamp nan 1 5.
Proof. vm_compute. reflexivity. Qed.

(** Bounding by [Math.max] and [Math.min] is the clamp, NaN included. *)
Lemma clamp_refines x : Math_max 1 (Math_min 5 x) = Spec.clamp x 1 5.
Proof.
  destruct (is_nan x) eqn:Hn.
  - apply is_nan_eq in Hn. subst x. apply clamp_nan.
  - rewrite (Math_min_5 x Hn). unfold Spec.clamp.
    destruct (5 <? x) eqn:G5.
    + rewrite FloatAxioms.ltb_spec, Prim2SF_five in G5.
      rewrite FloatAxioms.ltb_spec, Prim2SF_one.
      rewrite (SF_five_lt _ G5).
      apply (Math_max_1 5 eq_refl).
    + apply (Math_max_1 x Hn).
Qed.

(** The rating the handler computes is the rating of the specification. *)
Lemma rating_refines mp g a y r :
  PlayerController.rating mp g a y r = Spec.rating mp g a y r.
Proof.
  unfold PlayerController.rating, Spec.rating, Spec.scaled, Spec.raw.
  destruct (0 <? mp); [| reflexivity].
  rewrite clamp_refines, (float_mul_comm g 2), (float_mul_comm r 3).
  reflexivity.
Qed.


End Rating.


(** Finite numbers can be written into a statement. *)
Lemma finite_is_writable x :
  match Prim2SF x with
  | S754_zero _ | S754_finite _ _ _ => True
  | S754_infinity _ | S754_nan => False
  end ->
  writable (Js.JNumber x) = true.
Proof.
  intros H. unfold writable, is_nan, is_infinity.
  rewrite !FloatAxioms.eqb_spec, FloatAxioms.abs_spec.
  change (Prim2SF infinity) with (S754_infinity false).
  destruct (Prim2SF x) as [s | s | | s m e]; try contradiction.
  - reflexivity.
  - unfold SFeqb at 1, SFcompare.
    destruct s; rewrite Z.compare_refl, Pos.compare_cont_refl; reflexivity.
Qed.

Lemma valid_is_writable x :
  PlayerController.invalid_stat x = false -> writable (Js.JNumber x) = true.
Proof.
  unfold PlayerController.invalid_stat, JsNumber.isInteger. intros H.
  apply orb_false_iff in H. destruct H as [_ H].
  apply finite_is_writable.
  destruct (Prim2SF x); try exact I; discriminate.
Qed.

Lemma infinite_cases x :
  is_infinity x = true -> x = infinity \/ x = neg_infinity.
Proof.
  unfold is_infinity. rewrite FloatAxioms.eqb_spec, FloatAxioms.abs_spec.
  change (Prim2SF infinity) with (S754_infinity false).
  intros H.
  destruct (Prim2SF x) as [s | s | | s m e] eqn:E; try discriminate.
  destruct s; [right | left]; apply Prim2SF_inj; rewrite E; reflexivity.
Qed.

Lemma clamp_bounds x :
  (Spec.clamp x 1 5 <? 1)%float = false /\ (5 <? Spec.clamp x 1 5)%float = false.
Proof.
  unfold Spec.clamp.
  assert (H1 : (1 <? 1)%float = false /\ (5 <? 1)%float = false)
    by (vm_compute; auto).
  assert (H5 : (5 <? 1)%float = false /\ (5 <? 5)%float = false)
    by (vm_compute; auto).
  destruct (x <? 1)%float eqn:L; [tauto |].
  destruct (5 <? x)%float eqn:G; tauto.
Qed.

(** A rating that is a number can be written into a statement. *)
Lemma rating_is_writable mp g a y r :
  is_nan (Spec.rating mp g a y r) = false ->
  writable (Js.JNumber (Spec.rating mp g a y r)) = true.
Proof.
  intros Hn. unfold writable. rewrite Hn. cbn [orb].
  destruct (is_infinity (Spec.rating mp g a y r)) eqn:Hi; [| reflexivity].
  exfalso. apply infinite_cases in Hi.
  assert (Hb : (Spec.rating mp g a y r <? 1)%float = false
               /\ (5 <? Spec.rating mp g a y r)%float = false).
  { unfold Spec.rating. destruct (0 <? mp)%float; [apply clamp_bounds |].
    vm_compute. auto. }
  destruct Hb as [Hlow Hhigh].
  destruct Hi as [E | E]; rewrite E in *.
  - vm_compute in Hhigh. discriminate.
  - vm_compute in Hlow. discriminate.
Qed.

(** On numbers the operators are those of binary64. *)
Lemma rating_of_numbers env mp g a y r :
  PlayerController.rating_of env (Js.JNumber mp) (Js.JNumber g) (Js.JNumber a)
    (Js.JNumber y) (Js.JNumber r)
  = Some (PlayerController.rating mp g a y r).
Proof.
  unfold PlayerController.rating_of, PlayerController.rating,
    JsNumber.greaterThanZero, JsNumber.multiply, JsNumber.subtract,
    JsNumber.add, JsNumber.arithmetic, JsNumber.ToPrimitive, JsNumber.ToNumber.
  cbn. destruct (0 <? mp)%float; reflexivity.
Qed.


(** What a request of five valid numbers does, by what the store executes:
    nothing; the statistics alone; or both writes, with the rating of the
    specification on the caller's profile rows and, to two decimals, in the
    answer. *)
Lemma updatePerformanceStats_numbers env w caller mp g a y r :
  PlayerController.invalid_stat mp = false ->
  PlayerController.invalid_stat g = false ->
  PlayerController.invalid_stat a = false ->
  PlayerController.invalid_stat y = false ->
  PlayerController.invalid_stat r = false ->
  let (resp, w') :=
    run (PlayerController.updatePerformanceStats env caller
           (numbers mp g a y r)) w in
  (executes env [Js.JNumber mp; Js.JNumber g; Js.JNumber a; Js.JNumber y;
                 Js.JNumber r] = false ->
   resp = PlayerController.failed /\ w' = w) /\
  (executes env [Js.JNumber mp; Js.JNumber g; Js.JNumber a; Js.JNumber y;
                 Js.JNumber r] = true ->
   player_stats w' = kept (caller_id caller) mp g a y r (player_stats w) /\
   (executes env [Js.JNumber (Spec.rating mp g a y r)] = false ->
    resp = PlayerController.failed /\
    w' = set_player_stats (kept (caller_id caller) mp g a y r) w) /\
   (executes env [Js.JNumber (Spec.rating mp g a y r)] = true ->
    status resp = 200 /\
    w' = set_player_profiles
           (rated (caller_id caller) (Spec.rating mp g a y r))
           (set_player_stats (kept (caller_id caller) mp g a y r) w) /\
    field "rating" (payload resp)
      = Some (PlayerController.rating_text (Spec.rating mp g a y r)))).
Proof.
  intros Hmp Hg Ha Hy Hr.
  unfold PlayerController.updatePerformanceStats, numbers, kept.
  cbv beta iota delta [PlayerController.matches_played PlayerController.goals
    PlayerController.assists PlayerController.yellow_cards
    PlayerController.red_cards].
  rewrite rating_of_numbers, rating_refines.
  unfold PlayerController.validate. cbv beta iota delta [JsNumber.ToNumber].
  open_handler. rewrite Hmp, Hg, Ha, Hy, Hr.
  cbv beta iota.
  destruct (executes env [Js.JNumber mp; Js.JNumber g; Js.JNumber a;
                          Js.JNumber y; Js.JNumber r]) eqn:Es;
    cbv beta iota delta [negb].
  2:{ split; [auto | discriminate]. }
  destruct (executes env [Js.JNumber (Spec.rating mp g a y r)]) eqn:Ex;
    cbv beta iota delta [negb];
    unfold set_player_stats, set_player_profiles;
    cbn [player_stats player_profiles users videos likes comments tryouts
         invitations notifications system_logs effects];
    destruct (nonempty (filter _ (player_stats w)));
    (split; [discriminate |]); intros _;
    (split; [reflexivity |]);
    (split; [intros; try discriminate; split; reflexivity |]);
    intros; try discriminate; repeat split.
Qed.




(** ** Worked requests on the sample store *)

Example login_active_right_password :
  status (fst (run (AuthController.login Examples.env (Some "pat@club.example")
                      (Some "elm")) Examples.store)) = 200.
Proof. reflexivity. Qed.

Example login_active_wrong_password :
  run (AuthController.login Examples.env (Some "pat@club.example") (Some "oak"))
      Examples.store
  = (json 401 "Invalid credentials", Examples.store).
Proof. reflexivity. Qed.

Example register_newcomer :
  let (r, w') := run (AuthController.register Examples.env Examples.lee)
                     Examples.store in
  status r = 201 /\
  users w' = users Examples.store
             ++ [mkUser 4 "Lee" "lee@club.example" "h:fir" "player" "active"] /\
  player_profiles w' = player_profiles Examples.store
                       ++ [mkPlayerProfile 4 (Some "2004-02-29") None].
Proof. cbn. auto. Qed.

Example like_by_the_scout_notifies_the_owner :
  let (r, w') := run (PlayerController.likeVideo Examples.scout_sam (Some 1))
                     Examples.store in
  r = mkResponse 201 "Liked video" [("likeCount", Js.VNum 2)] /\
  notifications w' = [mkNotification 1 2 "Sam liked your video: Free kick" false].
Proof. cbn. auto. Qed.

Example unlike_without_a_like :
  run (PlayerController.unlikeVideo Examples.player_pat 1) Examples.store
  = (mkResponse 200 "Not liked" [("alreadyUnliked", Js.VBool true)],
     Examples.store).
Proof. reflexivity. Qed.

Example unlike_reports_the_count :
  fst (run (PlayerController.unlikeVideo Examples.player_kim 1) Examples.store)
  = mkResponse 200 "Unliked video" [("likeCount", Js.VNum 0)].
Proof. reflexivity. Qed.

Example invite_again_by_the_scout :
  run (ScoutController.invitePlayer Examples.scout_sam (Some 1) (Some 2))
      Examples.store
  = (json 409 "Player already invited to this tryout", Examples.store).
Proof. reflexivity. Qed.

Example cancel_an_accepted_invitation :
  run (ScoutController.cancelInvitation Examples.scout_sam 2) Examples.store
  = (json 400 "Cannot cancel an invitation that has been accepted",
     Examples.store).
Proof. reflexivity. Qed.

Example upload_while_the_store_is_down :
  let (r, w') := run (PlayerRoutes.upload Examples.env Examples.player_pat
                        (Some Examples.photo) None) Examples.store in
  status r = 500 /\ videos w' = videos Examples.store /\
  effects w' = [CloudUpload "image/png" "image" "pharaohs/images"].
Proof. cbn. auto. Qed.

Example trim_strips_white_space_of_any_width :
  Js.trim (Examples.no_break_space ++ " nice one" ++ Examples.line_separator)
  = "nice one" /\
  Js.trim (Examples.no_break_space ++ Examples.line_separator) = EmptyString /\
  Js.trim ("a" ++ Examples.no_break_space ++ "b")
  = ("a" ++ Examples.no_break_space ++ "b")%string.
Proof. vm_compute. auto. Qed.

Example comment_of_no_break_spaces_is_refused :
  run (PlayerController.addComment Examples.player_pat (Some 1)
         (Some (Examples.no_break_space ++ Examples.no_break_space)%string))
      Examples.store
  = (json 400 "Video ID and comment content are required", Examples.store).
Proof. reflexivity. Qed.

Example location_of_no_break_spaces_is_refused :
  run (AdminController.addTryoutLocation Examples.admin
         (Some Examples.no_break_space) "2025-03-01" "10.0.0.1") Examples.store
  = (json 400 "Location name is required", Examples.store).
Proof. reflexivity. Qed.

Example conversions_of_request_values :
  JsNumber.ToNumber Examples.env (Js.JString " 007 ") = Some 7%float /\
  JsNumber.ToNumber Examples.env (Js.JString "") = Some 0%float /\
  JsNumber.ToNumber Examples.env (Js.JArray [Js.JString "5"]) = Some 5%float /\
  JsNumber.ToString Examples.env
    (Js.JArray [Js.JNumber 1; Js.JNull; Js.JArray [Js.JBool true]])
  = Some "1,,true"%string /\
  JsNumber.add Examples.env (Js.JNumber 10) (Js.JString "3")
  = Some (Js.JString "103") /\
  JsNumber.add Examples.env (Js.JNumber 10) (Js.JBool true)
  = Some (Js.JNumber 11) /\
  JsNumber.ToNumber Examples.env (Js.JObject [("toString", Js.JNull)]) = None.
Proof. vm_compute. repeat split. Qed.

(** Validation goes by conversion: null, a boolean, an empty text and an
    array of one number pass; an object does not; and an object whose
    member hides [toString] ends in the catch block. *)
Example validation_goes_by_conversion :
  status (fst (run (PlayerController.updatePerformanceStats Examples.env
                      Examples.player_pat
                      (PlayerController.mkStatsBody (Some Js.JNull)
                         (Some (Js.JBool true)) (Some (Js.JString ""))
                         (Some (Js.JArray [Js.JNumber 5]))
                         (Some (Js.JNumber 0))))
                   Examples.store)) = 200 /\
  run (PlayerController.updatePerformanceStats Examples.env Examples.player_pat
         (PlayerController.mkStatsBody (Some (Js.JNumber 1))
            (Some (Js.JObject [])) (Some (Js.JNumber 0)) (Some (Js.JNumber 0))
            (Some (Js.JNumber 0))))
      Examples.store
  = (json 400 "goals must be a non-negative integer", Examples.store) /\
  run (PlayerController.updatePerformanceStats Examples.env Examples.player_pat
         (PlayerController.mkStatsBody (Some (Js.JNumber 1))
            (Some (Js.JObject [("toString", Js.JNull)])) (Some (Js.JNumber 0))
            (Some (Js.JNumber 0)) (Some (Js.JNumber 0))))
      Examples.store
  = (PlayerController.failed, Examples.store).
Proof. vm_compute. repeat split. Qed.

Example toFixed2_rounds_half_up :
  JsNumber.toFixed2 0.125 = Some "0.13" /\
  JsNumber.toFixed2 2.5 = Some "2.50" /\
  JsNumber.toFixed2 1 = Some "1.00" /\
  JsNumber.toFixed2 nan = Some "NaN".
Proof. vm_compute. auto. Qed.

Example rating_is_bounded :
  PlayerController.rating 1 9 0 0 0 = 5%float /\
  PlayerController.rating 2 0 0 0 7 = 1%float /\
  PlayerController.rating 0 4 4 0 0 = 1%float.
Proof. vm_compute. auto. Qed.

(** * Further properties of the handlers *)

(** ** Likes *)

Lemma filter_none_negb {A : Type} (p : A -> bool) l :
  filter p l = [] -> filter (fun x => negb (p x)) l = l.
Proof.
  induction l as [| x l IH]; cbn; [reflexivity |].
  destruct (p x); cbn; [discriminate |]. intros H. rewrite (IH H). reflexivity.
Qed.

Lemma found_video w v videoId :
  In v (videos w) -> video_id v = videoId ->
  nonempty (filter (fun x => Nat.eqb (video_id x) videoId) (videos w)) = true.
Proof.
  intros Hv Hid. apply nonempty_filter with (x := v); [assumption |].
  rewrite Hid. apply Nat.eqb_refl.
Qed.

(** X1. A fresh like followed by an unlike of the same user puts the likes
    table back as it was, and the unlike reports the count from before the
    like. *)
Theorem like_then_unlike_restores :
  forall (w : World) (caller : Caller) (videoId : nat) (v : Video),
    videoId <> 0 -> In v (videos w) -> video_id v = videoId ->
    has_liked (caller_id caller) videoId w = false ->
    let liked := snd (run (PlayerController.likeVideo caller (Some videoId)) w) in
    let (r, w') := run (PlayerController.unlikeVideo caller videoId) liked in
    status r = 200 /\
    likes w' = likes w /\
    field "likeCount" (payload r)
      = Some (Js.VNum (PlayerController.like_count videoId w)).
Proof.
  intros w caller videoId v Hv0 Hv Hid Hl liked.
  pose proof (likeVideo_fresh caller videoId Hv0 w v Hv Hid Hl) as H.
  subst liked. destruct (run _ w) as [r1 w1]. cbn [snd].
  destruct H as (_ & _ & Hlikes & Hvideos).
  assert (Hnone : filter (fun l => Nat.eqb (like_user_id l) (caller_id caller)
                                   && Nat.eqb (like_video_id l) videoId) (likes w)
                  = []) by (apply nonempty_false; exact Hl).
  unfold PlayerController.unlikeVideo, PlayerController.like_count. step_handler.
  rewrite Hvideos, (found_video w v videoId Hv Hid). cbn.
  assert (Hback : filter (fun l => negb (Nat.eqb (like_user_id l) (caller_id caller)
                                         && Nat.eqb (like_video_id l) videoId))
                         (likes w1) = likes w).
  { rewrite Hlikes, filter_app, (filter_none_negb _ _ Hnone). cbn.
    rewrite !Nat.eqb_refl. cbn. apply app_nil_r. }
  rewrite Hlikes, !filter_app, Hnone. cbn. rewrite !Nat.eqb_refl. cbn.
  rewrite Hback. repeat split; reflexivity.
Qed.

(** X1 on the sample store: Pat likes the clip and takes the like back. *)
Lemma like_then_unlike_restores_witness :
  (1 <> 0 /\ In Examples.clip (videos Examples.store) /\
   has_liked (caller_id Examples.player_pat) 1 Examples.store = false) /\
  (let (r, w') :=
     run (PlayerController.unlikeVideo Examples.player_pat 1)
         (snd (run (PlayerController.likeVideo Examples.player_pat (Some 1))
                   Examples.store)) in
   status r = 200 /\ likes w' = likes Examples.store /\
   field "likeCount" (payload r)
     = Some (Js.VNum (PlayerController.like_count 1 Examples.store))).
Proof.
  assert (H0 : 1 <> 0) by discriminate.
  assert (Hin : In Examples.clip (videos Examples.store)) by (left; reflexivity).
  split; [repeat split; auto |].
  apply (like_then_unlike_restores Examples.store Examples.player_pat 1
           Examples.clip H0 Hin eq_refl eq_refl).
Defined.

(** X2. [unlikeVideo] never adds a like and never removes a like of another
    user or of another video; when it answers 200 the caller has no like on
    the video left, and when the caller had none the store is not
    touched. *)
Theorem unlikeVideo_removes_only_own_like :
  forall (w : World) (caller : Caller) (videoId : nat),
    let (r, w') := run (PlayerController.unlikeVideo caller videoId) w in
    (status r = 200 \/ (status r = 404 /\ w' = w)) /\
    (forall l, In l (likes w') -> In l (likes w)) /\
    (forall l, In l (likes w) -> own_like (caller_id caller) videoId l = false ->
               In l (likes w')) /\
    (status r = 200 -> has_liked (caller_id caller) videoId w' = false) /\
    (has_liked (caller_id caller) videoId w = false -> w' = w).
Proof.
  intros w caller videoId.
  unfold PlayerController.unlikeVideo. step_handler.
  destruct (nonempty (filter _ (videos w))); cbn.
  2:{ repeat split; auto. discriminate. }
  unfold has_liked.
  destruct (nonempty (filter _ (likes w))) eqn:El; cbn.
  - split; [auto |]. split; [| split; [| split]].
    + intros l H. apply filter_In in H. tauto.
    + intros l H Ho. apply filter_In. split; [assumption |].
      unfold own_like in Ho. rewrite Ho. reflexivity.
    + intros _.
      destruct (filter _ (filter _ (likes w))) as [| l rest] eqn:E; [reflexivity |].
      assert (Hl : In l (l :: rest)) by (left; reflexivity).
      rewrite <- E in Hl. apply filter_In in Hl. destruct Hl as [Hl Hp].
      apply filter_In in Hl. destruct Hl as [_ Hn]. rewrite Hp in Hn. discriminate.
    + discriminate.
  - repeat split; auto.
Qed.

(** ** Comments and descriptions *)

(** X3. An existing comment is deleted by its author or by an
    administrator, with answer 200; for anybody else the answer is 403 and
    the store is as before. *)
Theorem deleteComment_author_or_admin :
  forall (w : World) (caller : Caller) (commentId : nat) (c : Comment),
    NoDup (map comment_id (comments w)) ->
    In c (comments w) -> comment_id c = commentId ->
    let (r, w') := run (PlayerController.deleteComment caller commentId) w in
    (comment_user_id c <> caller_id caller -> caller_role caller <> "admin" ->
       status r = 403 /\ w' = w) /\
    (comment_user_id c = caller_id caller \/ caller_role caller = "admin" ->
       status r = 200 /\ ~ In c (comments w') /\
       comments w' = without_comment commentId (comments w)).
Proof.
  intros w caller commentId c Hnd Hc Hid.
  unfold PlayerController.deleteComment. step_handler.
  destruct (filter _ (comments w)) as [| c' rest] eqn:E.
  { exfalso. apply (in_not_nil c) in E; [exact E |].
    apply filter_In. split; [assumption |]. rewrite Hid. apply Nat.eqb_refl. }
  assert (Hc' : In c' (filter (fun x => Nat.eqb (comment_id x) commentId)
                              (comments w))) by (rewrite E; left; reflexivity).
  apply filter_In in Hc'. destruct Hc' as [Hin He]. apply Nat.eqb_eq in He.
  assert (c' = c) by (apply (key_unique comment_id (comments w)); congruence).
  subst c'. cbn.
  assert (Hgone : ~ In c (without_comment commentId (comments w))).
  { unfold without_comment. rewrite filter_In. intros [_ H].
    rewrite Hid, Nat.eqb_refl in H. discriminate. }
  destruct (Nat.eqb (comment_user_id c) (caller_id caller)) eqn:Eo;
    destruct (String.eqb (caller_role caller) "admin") eqn:Ea; cbn;
    rewrite ?E; cbn.
  - apply Nat.eqb_eq in Eo. split; [intros; contradiction | auto].
  - apply Nat.eqb_eq in Eo. split; [intros; contradiction | auto].
  - apply String.eqb_eq in Ea. split; [intros; contradiction | auto].
  - apply Nat.eqb_neq in Eo. apply String.eqb_neq in Ea.
    split; [auto |]. intros [H | H]; contradiction.
Qed.

(** X3 on the sample store: Pat may not delete Kim's remark, Kim may. *)
Lemma deleteComment_author_or_admin_witness :
  (NoDup (map comment_id (comments Examples.store_with_remark)) /\
   In Examples.remark (comments Examples.store_with_remark) /\
   comment_user_id Examples.remark <> caller_id Examples.player_pat /\
   caller_role Examples.player_pat <> "admin") /\
  run (PlayerController.deleteComment Examples.player_pat 1)
      Examples.store_with_remark
  = (json 403 "You can only delete your own comments",
     Examples.store_with_remark) /\
  (let (r, w') := run (PlayerController.deleteComment Examples.player_kim 1)
                      Examples.store_with_remark in
   status r = 200 /\ comments w' = []).
Proof.
  assert (Hnd : NoDup (map comment_id (comments Examples.store_with_remark))).
  { cbn. repeat constructor; cbn; intuition discriminate. }
  assert (Hin : In Examples.remark (comments Examples.store_with_remark))
    by (left; reflexivity).
  split; [| split].
  - repeat split; auto; discriminate.
  - reflexivity.
  - pose proof (deleteComment_author_or_admin Examples.store_with_remark
                  Examples.player_kim 1 Examples.remark Hnd Hin eq_refl) as H.
    destruct (run _ Examples.store_with_remark) as [r w'].
    destruct H as [_ H]. destruct (H (or_introl eq_refl)) as (Hs & _ & Hc).
    split; [exact Hs | rewrite Hc; reflexivity].
Defined.

(** X4. [updateVideo] rewrites the description of the caller's video and
    nothing else: a video of another player gets 404 with the store
    untouched, and every video with another key stays as it is. *)
Theorem updateVideo_owner_only :
  forall (w : World) (caller : Caller) (videoId : nat) (description : string),
    let (r, w') := run (PlayerController.updateVideo caller videoId
                          (Some description)) w in
    ((forall v, In v (videos w) -> video_id v = videoId ->
                video_player_id v <> caller_id caller) ->
     status r = 404 /\ w' = w) /\
    (forall v, In v (videos w) -> video_id v = videoId ->
               video_player_id v = caller_id caller ->
               status r = 200 /\ In (described description v) (videos w')) /\
    (forall x, In x (videos w) -> video_id x <> videoId -> In x (videos w')) /\
    map video_id (videos w') = map video_id (videos w) /\
    map video_url (videos w') = map video_url (videos w) /\
    map video_player_id (videos w') = map video_player_id (videos w).
Proof.
  intros w caller videoId description.
  unfold PlayerController.updateVideo. step_handler.
  destruct (filter _ (videos w)) as [| v0 rest] eqn:E; cbn.
  - split; [auto |]. split; [| auto].
    intros v Hv Hid Hown. exfalso. apply (in_not_nil v) in E; [exact E |].
    apply filter_In. split; [assumption |].
    rewrite Hid, Hown, !Nat.eqb_refl. reflexivity.
  - split.
    { intros Hnone. exfalso.
      assert (H0 : In v0 (filter (fun v => Nat.eqb (video_id v) videoId
                                           && Nat.eqb (video_player_id v)
                                                (caller_id caller)) (videos w)))
        by (rewrite E; left; reflexivity).
      apply filter_In in H0. destruct H0 as [Hin Hc].
      apply andb_true_iff in Hc. destruct Hc as [Hi Ho].
      apply Nat.eqb_eq in Hi. apply Nat.eqb_eq in Ho.
      apply (Hnone v0 Hin Hi Ho). }
    split; [| split; [| split; [| split]]].
    + intros v Hv Hid _. split; [reflexivity |].
      apply in_map_iff. exists v. split; [| assumption].
      apply Nat.eqb_eq in Hid. rewrite Hid. reflexivity.
    + intros x Hx Hne. apply in_map_iff. exists x. split; [| assumption].
      apply Nat.eqb_neq in Hne. rewrite Hne. reflexivity.
    + rewrite map_map. apply map_ext. intros x.
      destruct (Nat.eqb (video_id x) videoId); reflexivity.
    + rewrite map_map. apply map_ext. intros x.
      destruct (Nat.eqb (video_id x) videoId); reflexivity.
    + rewrite map_map. apply map_ext. intros x.
      destruct (Nat.eqb (video_id x) videoId); reflexivity.
Qed.

(** ** The likes of every video *)

Lemma likeCountMap_from (f : nat -> nat) keys (m : nat -> option nat) k :
  fold_left (fun m row => fun k => if Nat.eqb k (fst row) then Some (snd row)
                                   else m k)
            (map (fun v => (v, f v)) keys) m k
  = if existsb (Nat.eqb k) keys then Some (f k) else m k.
Proof.
  revert m. induction keys as [| v keys IH]; intros m; cbn; [reflexivity |].
  rewrite IH. cbn.
  destruct (existsb (Nat.eqb k) keys); cbn.
  - rewrite orb_true_r. reflexivity.
  - rewrite orb_false_r. destruct (Nat.eqb k v) eqn:E; [| reflexivity].
    apply Nat.eqb_eq in E. subst. reflexivity.
Qed.

Lemma likeCountMap_spec (f : nat -> nat) keys k :
  PlayerController.likeCountMap (map (fun v => (v, f v)) keys) k
  = if existsb (Nat.eqb k) keys then Some (f k) else None.
Proof. apply likeCountMap_from. Qed.

Lemma existsb_eqb_In k l : existsb (Nat.eqb k) l = true <-> In k l.
Proof.
  rewrite existsb_exists. split.
  - intros (x & Hx & E). apply Nat.eqb_eq in E. subst. assumption.
  - intros H. exists k. split; [assumption | apply Nat.eqb_refl].
Qed.

Lemma no_like_no_count w k :
  ~ In k (map like_video_id (likes w)) -> PlayerController.like_count k w = 0.
Proof.
  intros H. unfold PlayerController.like_count.
  destruct (filter _ (likes w)) as [| l rest] eqn:E; [reflexivity |].
  exfalso. apply H.
  assert (Hl : In l (filter (fun l => Nat.eqb (like_video_id l) k) (likes w)))
    by (rewrite E; left; reflexivity).
  apply filter_In in Hl. destruct Hl as [Hin He]. apply Nat.eqb_eq in He.
  subst k. apply in_map. assumption.
Qed.

(** X5. [getVideoLikes] lists every video once, in table order, with the
    number of its likes and with the flag 1 exactly for the videos the
    caller likes. *)
Theorem getVideoLikes_counts :
  forall (w : World) (caller : Caller),
    map PlayerController.vl_video_id (PlayerController.getVideoLikes caller w)
      = map video_id (videos w) /\
    forall row, In row (PlayerController.getVideoLikes caller w) ->
      PlayerController.vl_likeCount row
        = PlayerController.like_count (PlayerController.vl_video_id row) w /\
      (PlayerController.vl_likedByUser row = 1 <->
       has_liked (caller_id caller) (PlayerController.vl_video_id row) w = true) /\
      (PlayerController.vl_likedByUser row = 0 <->
       has_liked (caller_id caller) (PlayerController.vl_video_id row) w = false).
Proof.
  intros w caller. unfold PlayerController.getVideoLikes. cbv zeta.
  destruct (map video_id (videos w)) as [| i0 ids] eqn:Ei.
  { split; [reflexivity | intros ? []]. }
  rewrite <- Ei. clear Ei i0 ids. split.
  - rewrite map_map. cbn. apply map_id.
  - intros row Hrow. apply in_map_iff in Hrow. destruct Hrow as (k & <- & _).
    cbn. unfold PlayerController.likeCounts. rewrite likeCountMap_spec.
    assert (Hliked :
      existsb (Nat.eqb k)
        (map like_video_id
           (filter (fun l => Nat.eqb (like_user_id l) (caller_id caller)) (likes w)))
      = has_liked (caller_id caller) k w).
    { unfold has_liked.
      destruct (existsb _ _) eqn:Ex.
      - apply existsb_eqb_In, in_map_iff in Ex. destruct Ex as (l & Hk & Hl).
        apply filter_In in Hl. destruct Hl as [Hin Hu]. symmetry.
        apply nonempty_filter with (x := l); [assumption |].
        rewrite Hu, Hk, Nat.eqb_refl. reflexivity.
      - destruct (filter (fun l => Nat.eqb (like_user_id l) (caller_id caller)
                                   && Nat.eqb (like_video_id l) k) (likes w))
          as [| l rest] eqn:E; [reflexivity |].
        assert (Hl : In l (filter (fun l => Nat.eqb (like_user_id l) (caller_id caller)
                                            && Nat.eqb (like_video_id l) k) (likes w)))
          by (rewrite E; left; reflexivity).
        apply filter_In in Hl. destruct Hl as [Hin Hc].
        apply andb_true_iff in Hc. destruct Hc as [Hu Hk]. apply Nat.eqb_eq in Hk.
        assert (Hex : existsb (Nat.eqb k)
                        (map like_video_id
                           (filter (fun l => Nat.eqb (like_user_id l) (caller_id caller))
                                   (likes w))) = true).
        { apply existsb_eqb_In, in_map_iff. exists l. split; [assumption |].
          apply filter_In. auto. }
        rewrite Hex in Ex. discriminate. }
    rewrite Hliked. split; [| destruct (has_liked _ k w); split; split;
                              congruence].
    destruct (existsb (Nat.eqb k) (nodup Nat.eq_dec (map like_video_id (likes w))))
      eqn:Ex.
    + unfold PlayerController.like_count.
      destruct (List.length _); reflexivity.
    + symmetry. apply no_like_no_count. intros Hin.
      apply (nodup_In Nat.eq_dec), existsb_eqb_In in Hin.
      rewrite Hin in Ex. discriminate.
Qed.

(** ** Tryouts and invitations *)

Lemma unread_after_new w w1 id userId msg :
  notifications w1 = notifications w ++ [mkNotification id userId msg false] ->
  NotificationInbox.unread userId w1 = S (NotificationInbox.unread userId w) /\
  forall other, other <> userId ->
    NotificationInbox.unread other w1 = NotificationInbox.unread other w.
Proof.
  intros E. unfold NotificationInbox.unread. rewrite E. split.
  - rewrite filter_app, length_app. cbn. rewrite Nat.eqb_refl. cbn. lia.
  - intros other Ho. rewrite filter_app, length_app. cbn.
    apply Nat.eqb_neq in Ho. rewrite Nat.eqb_sym, Ho. cbn. lia.
Qed.

Lemma owner_found w caller tryoutId t u :
  In t (tryouts w) -> tryout_id t = tryoutId ->
  tryout_scout_id t = caller_id caller ->
  In u (users w) -> user_id u = caller_id caller ->
  join2 (fun u t => Nat.eqb (tryout_scout_id t) (user_id u)
                    && Nat.eqb (tryout_id t) tryoutId
                    && Nat.eqb (tryout_scout_id t) (caller_id caller))
        (users w) (tryouts w) <> [].
Proof.
  intros Ht Htid Hts Hu Huid. apply (in_not_nil (u, t)). apply in_join2.
  repeat split; try assumption.
  rewrite Hts, Huid, Htid, !Nat.eqb_refl. reflexivity.
Qed.

(** X6. The first invitation of a player to a tryout of the calling scout
    is answered 201: one pending row for the pair is added and the player
    has one more unread notification, nobody else has.  The same request
    again is answered 409 and writes nothing, so the pair keeps its one
    row. *)
Theorem invitePlayer_once :
  forall (w : World) (caller : Caller) (tryoutId playerId : nat)
         (t : Tryout) (u : User),
    tryoutId <> 0 -> playerId <> 0 ->
    In t (tryouts w) -> tryout_id t = tryoutId ->
    tryout_scout_id t = caller_id caller ->
    In u (users w) -> user_id u = caller_id caller ->
    invitations_of tryoutId playerId w = [] ->
    let first := run (ScoutController.invitePlayer caller (Some tryoutId)
                        (Some playerId)) w in
    let second := run (ScoutController.invitePlayer caller (Some tryoutId)
                         (Some playerId)) (snd first) in
    status (fst first) = 201 /\
    invitations (snd first)
      = invitations w
        ++ [mkInvitation (fresh inv_id (invitations w)) tryoutId playerId "pending"] /\
    invitations_of tryoutId playerId (snd first)
      = [mkInvitation (fresh inv_id (invitations w)) tryoutId playerId "pending"] /\
    NotificationInbox.unread playerId (snd first)
      = S (NotificationInbox.unread playerId w) /\
    (forall other, other <> playerId ->
       NotificationInbox.unread other (snd first)
       = NotificationInbox.unread other w) /\
    status (fst second) = 409 /\ snd second = snd first.
Proof.
  intros w caller tryoutId playerId t u Ht0 Hp0 Ht Htid Hts Hu Huid Hnone
    first second.
  pose proof (owner_found w caller tryoutId t u Ht Htid Hts Hu Huid) as Hown.
  unfold invitations_of in Hnone.
  assert (E1 : exists u' t' w1,
    first = (json 201 "Player invited successfully", w1) /\
    invitations w1
      = invitations w
        ++ [mkInvitation (fresh inv_id (invitations w)) tryoutId playerId "pending"] /\
    (exists msg, notifications w1
       = notifications w
         ++ [mkNotification (fresh notif_id (notifications w)) playerId msg false]) /\
    tryouts w1 = tryouts w /\ users w1 = users w /\
    In (u', t') (join2 (fun u t => Nat.eqb (tryout_scout_id t) (user_id u)
                                   && Nat.eqb (tryout_id t) tryoutId
                                   && Nat.eqb (tryout_scout_id t) (caller_id caller))
                       (users w) (tryouts w))).
  { subst first. unfold ScoutController.invitePlayer. open_handler.
    rewrite (truthy_id_Some _ Ht0), (truthy_id_Some _ Hp0). cbn.
    destruct (join2 _ (users w) (tryouts w)) as [| [u' t'] rest] eqn:E;
      [contradiction |].
    cbn. rewrite Hnone. cbn. exists u', t'. eexists. split; [reflexivity |].
    cbn. repeat split; auto. eexists. reflexivity. }
  destruct E1 as (u' & t' & w1 & Ef & Hinv & (msg & Hnot) & Htr & Hus & _).
  assert (Hpair : filter (fun i => Nat.eqb (inv_tryout_id i) tryoutId
                                   && Nat.eqb (inv_player_id i) playerId)
                         (invitations w1)
                  = [mkInvitation (fresh inv_id (invitations w)) tryoutId playerId
                                  "pending"]).
  { rewrite Hinv, filter_app, Hnone. cbn. rewrite !Nat.eqb_refl. reflexivity. }
  destruct (unread_after_new w w1 _ playerId msg Hnot) as [Hu1 Hu2].
  assert (E2 : second = (json 409 "Player already invited to this tryout", w1)).
  { subst second. rewrite Ef. cbn [snd].
    unfold ScoutController.invitePlayer. open_handler.
    rewrite (truthy_id_Some _ Ht0), (truthy_id_Some _ Hp0). cbn.
    rewrite Htr, Hus.
    destruct (join2 _ (users w) (tryouts w)) as [| [u2 t2] rest] eqn:E;
      [contradiction |].
    cbn. rewrite Hpair. reflexivity. }
  rewrite E2, Ef. cbn [fst snd status]. unfold invitations_of.
  repeat split; auto.
Qed.

(** X6 on the sample store: Sam invites Kim's team mate, player 5. *)
Lemma invitePlayer_once_witness :
  (1 <> 0 /\ 5 <> 0 /\ In Examples.trial (tryouts Examples.store) /\
   tryout_scout_id Examples.trial = caller_id Examples.scout_sam /\
   In Examples.sam (users Examples.store) /\
   invitations_of 1 5 Examples.store = []) /\
  status (fst (run (ScoutController.invitePlayer Examples.scout_sam (Some 1)
                      (Some 5)) Examples.store)) = 201 /\
  invitations_of 1 5
    (snd (run (ScoutController.invitePlayer Examples.scout_sam (Some 1) (Some 5))
              Examples.store))
  = [mkInvitation 3 1 5 "pending"].
Proof.
  assert (H1 : 1 <> 0) by discriminate.
  assert (H5 : 5 <> 0) by discriminate.
  assert (Ht : In Examples.trial (tryouts Examples.store)) by (left; reflexivity).
  assert (Hu : In Examples.sam (users Examples.store)) by (left; reflexivity).
  split; [repeat split; auto |].
  destruct (invitePlayer_once Examples.store Examples.scout_sam 1 5 Examples.trial
              Examples.sam H1 H5 Ht eq_refl eq_refl Hu eq_refl eq_refl)
    as (A & _ & B & _).
  split; [exact A | exact B].
Defined.

Lemma not_owner_filter w caller tryoutId :
  not_owner caller tryoutId w ->
  filter (fun t => Nat.eqb (tryout_id t) tryoutId
                   && Nat.eqb (tryout_scout_id t) (caller_id caller)) (tryouts w)
  = [].
Proof.
  intros H. destruct (filter _ (tryouts w)) as [| t rest] eqn:E; [reflexivity |].
  exfalso.
  assert (Ht : In t (filter (fun t => Nat.eqb (tryout_id t) tryoutId
                                      && Nat.eqb (tryout_scout_id t)
                                           (caller_id caller)) (tryouts w)))
    by (rewrite E; left; reflexivity).
  apply filter_In in Ht. destruct Ht as [Hin Hc].
  apply andb_true_iff in Hc. destruct Hc as [Hi Ho].
  apply Nat.eqb_eq in Hi. apply Nat.eqb_eq in Ho. apply (H t Hin Hi Ho).
Qed.

(** X7. A scout who does not own the tryout can neither invite to it, by
    either operation, nor change it, nor delete it: the answer is 403 (400
    for an update with a field missing) and the store is as before. *)
Theorem tryout_of_another_scout_is_out_of_reach :
  forall (w : World) (caller : Caller) (tryoutId playerId : nat)
         (name location date time : option string),
    tryoutId <> 0 -> playerId <> 0 ->
    not_owner caller tryoutId w ->
    run (ScoutController.invitePlayer caller (Some tryoutId) (Some playerId)) w
      = (json 403 "You are not the owner of this tryout", w) /\
    run (PlayerController.sendInvitation caller (Some tryoutId) (Some playerId)) w
      = (json 403 "Unauthorized or tryout not found", w) /\
    run (ScoutController.deleteTryout caller tryoutId) w
      = (json 403 "You do not have permission to delete this tryout", w) /\
    snd (run (ScoutController.updateTryout caller tryoutId name location date
                time) w) = w /\
    (status (fst (run (ScoutController.updateTryout caller tryoutId name location
                         date time) w)) = 400 \/
     status (fst (run (ScoutController.updateTryout caller tryoutId name location
                         date time) w)) = 403).
Proof.
  intros w caller tryoutId playerId name location date time Ht0 Hp0 Hno.
  pose proof (not_owner_filter w caller tryoutId Hno) as Hf.
  split; [| split; [| split]].
  - unfold ScoutController.invitePlayer. open_handler.
    rewrite (truthy_id_Some _ Ht0), (truthy_id_Some _ Hp0). cbn.
    destruct (join2 _ (users w) (tryouts w)) as [| [u t] rest] eqn:E;
      [reflexivity |].
    exfalso.
    assert (H : In (u, t) (join2
      (fun u t => Nat.eqb (tryout_scout_id t) (user_id u)
                  && Nat.eqb (tryout_id t) tryoutId
                  && Nat.eqb (tryout_scout_id t) (caller_id caller))
      (users w) (tryouts w))) by (rewrite E; left; reflexivity).
    apply in_join2 in H. destruct H as (_ & Hin & Hc).
    rewrite !andb_true_iff in Hc. destruct Hc as [[_ Hi] Ho].
    apply Nat.eqb_eq in Hi. apply Nat.eqb_eq in Ho. apply (Hno t Hin Hi Ho).
  - unfold PlayerController.sendInvitation. open_handler.
    rewrite (truthy_id_Some _ Ht0), (truthy_id_Some _ Hp0). cbn.
    rewrite Hf. reflexivity.
  - unfold ScoutController.deleteTryout. step_handler. rewrite Hf. reflexivity.
  - unfold ScoutController.updateTryout. step_handler.
    destruct (negb (Js.truthy_str name) || negb (Js.truthy_str location)
              || negb (Js.truthy_str date) || negb (Js.truthy_str time)); cbn.
    + auto.
    + rewrite Hf. cbn. auto.
Qed.

(** X7 on the sample store: Ray has no tryout. *)
Lemma tryout_of_another_scout_is_out_of_reach_witness :
  (1 <> 0 /\ 2 <> 0 /\ not_owner Examples.scout_ray 1 Examples.store) /\
  run (ScoutController.deleteTryout Examples.scout_ray 1) Examples.store
  = (json 403 "You do not have permission to delete this tryout", Examples.store).
Proof.
  assert (H1 : 1 <> 0) by discriminate.
  assert (H2 : 2 <> 0) by discriminate.
  assert (Hno : not_owner Examples.scout_ray 1 Examples.store).
  { intros t [<- | []] _. discriminate. }
  split; [repeat split; auto |].
  apply (tryout_of_another_scout_is_out_of_reach Examples.store Examples.scout_ray
           1 2 None None None None H1 H2 Hno).
Defined.

Lemma negb_eqb_neq a b : negb (Nat.eqb a b) = true <-> a <> b.
Proof.
  rewrite negb_true_iff. apply Nat.eqb_neq.
Qed.

(** X8. When its scout deletes a tryout, the tryout and every invitation to
    it are gone, all other tryouts and invitations stay, nobody is
    notified, and a store in which every invitation refers to a tryout is
    still one afterwards. *)
Theorem deleteTryout_cascades :
  forall (w : World) (caller : Caller) (tryoutId : nat) (t : Tryout),
    In t (tryouts w) -> tryout_id t = tryoutId ->
    tryout_scout_id t = caller_id caller ->
    let (r, w') := run (ScoutController.deleteTryout caller tryoutId) w in
    status r = 200 /\
    (forall x, In x (tryouts w') <-> In x (tryouts w) /\ tryout_id x <> tryoutId) /\
    (forall i, In i (invitations w') <->
               In i (invitations w) /\ inv_tryout_id i <> tryoutId) /\
    notifications w' = notifications w /\
    (invitations_have_tryouts w -> invitations_have_tryouts w').
Proof.
  intros w caller tryoutId t Ht Htid Hts.
  unfold ScoutController.deleteTryout. step_handler.
  rewrite (nonempty_filter _ (tryouts w) t Ht)
    by (rewrite Htid, Hts, !Nat.eqb_refl; reflexivity).
  cbn.
  assert (HT : forall x, In x (filter (fun t => negb (Nat.eqb (tryout_id t) tryoutId))
                                      (tryouts w))
                         <-> In x (tryouts w) /\ tryout_id x <> tryoutId).
  { intros x. rewrite filter_In, negb_eqb_neq. reflexivity. }
  assert (HI : forall i, In i (filter (fun i => negb (Nat.eqb (inv_tryout_id i)
                                                       tryoutId)) (invitations w))
                         <-> In i (invitations w) /\ inv_tryout_id i <> tryoutId).
  { intros i. rewrite filter_In, negb_eqb_neq. reflexivity. }
  split; [reflexivity |]. split; [exact HT |]. split; [exact HI |].
  split; [reflexivity |].
  intros Hfk i Hi. cbn in Hi. apply HI in Hi. destruct Hi as [Hi Hne].
  destruct (Hfk i Hi) as (x & Hx & Hxid). exists x. split; [| exact Hxid].
  cbn. apply HT. split; [assumption | congruence].
Qed.

(** X8 on the sample store: Sam deletes the trial, and both invitations go
    with it. *)
Lemma deleteTryout_cascades_witness :
  (In Examples.trial (tryouts Examples.store) /\
   tryout_scout_id Examples.trial = caller_id Examples.scout_sam /\
   invitations_have_tryouts Examples.store) /\
  (let (r, w') := run (ScoutController.deleteTryout Examples.scout_sam 1)
                      Examples.store in
   status r = 200 /\ tryouts w' = [] /\ invitations w' = [] /\
   invitations_have_tryouts w').
Proof.
  assert (Ht : In Examples.trial (tryouts Examples.store)) by (left; reflexivity).
  assert (Hfk : invitations_have_tryouts Examples.store).
  { intros i [<- | [<- | []]]; exists Examples.trial; split; auto. }
  split; [repeat split; auto |].
  pose proof (deleteTryout_cascades Examples.store Examples.scout_sam 1
                Examples.trial Ht eq_refl eq_refl) as H.
  cbn in H. cbn. destruct H as (Hs & _ & _ & _ & H).
  repeat split; auto.
Defined.

(** What an accepted answer of [updateInvitationStatus] leaves behind. *)
Lemma updateInvitationStatus_accepts w caller invitationId s i t u :
  s = "accepted" \/ s = "declined" ->
  In i (invitations w) -> inv_id i = invitationId ->
  inv_player_id i = caller_id caller ->
  In t (tryouts w) -> tryout_id t = inv_tryout_id i ->
  In u (users w) -> user_id u = tryout_scout_id t ->
  let (r, w') := run (PlayerController.updateInvitationStatus caller
                        invitationId (Some s)) w in
  status r = 200 /\
  invitations w' = answered invitationId s (invitations w) /\
  tryouts w' = tryouts w /\ users w' = users w /\
  exists n, notifications w' = notifications w ++ [n].
Proof.
  intros Hs Hi Hid Hp Ht Htid Hu Huid.
  unfold PlayerController.updateInvitationStatus. step_handler.
  assert (Hv : (String.eqb s "accepted" || (String.eqb s "declined" || false))
               = true).
  { destruct Hs as [-> | ->]; reflexivity. }
  rewrite Hv. cbn.
  destruct (join3 _ (invitations w) (tryouts w) (users w))
    as [| [[i' t'] u'] rest] eqn:E.
  { exfalso. apply (in_not_nil (i, t, u)) in E; [exact E |].
    apply in_join3. repeat split; try assumption.
    rewrite Htid, Huid, Hid, Hp, !Nat.eqb_refl. reflexivity. }
  cbn. repeat split; auto.
  eexists. reflexivity.
Qed.

Lemma answered_keys invitationId s l :
  map inv_id (answered invitationId s l) = map inv_id l.
Proof.
  unfold answered. rewrite map_map. apply map_ext. intros j.
  destruct (Nat.eqb (inv_id j) invitationId); reflexivity.
Qed.

(** X9. Once the invited player has accepted or declined, the scout's
    cancellation is refused with 400 and the answered invitation stays in
    the store. *)
Theorem answered_invitation_cannot_be_cancelled :
  forall (w : World) (player scout : Caller) (invitationId : nat) (s : string)
         (i : Invitation) (t : Tryout) (u p : User),
    s = "accepted" \/ s = "declined" ->
    NoDup (map inv_id (invitations w)) ->
    In i (invitations w) -> inv_id i = invitationId ->
    inv_player_id i = caller_id player ->
    In t (tryouts w) -> tryout_id t = inv_tryout_id i ->
    tryout_scout_id t = caller_id scout ->
    In u (users w) -> user_id u = tryout_scout_id t ->
    In p (users w) -> user_id p = inv_player_id i ->
    let answered_w :=
      snd (run (PlayerController.updateInvitationStatus player invitationId
                  (Some s)) w) in
    let (r, w') := run (ScoutController.cancelInvitation scout invitationId)
                       answered_w in
    status r = 400 /\ w' = answered_w /\
    In (mkInvitation invitationId (inv_tryout_id i) (inv_player_id i) s)
       (invitations w').
Proof.
  intros w player scout invitationId s i t u p Hs Hnd Hi Hid Hpl Ht Htid Hts
    Hu Huid Hp Hpid answered_w.
  pose proof (updateInvitationStatus_accepts w player invitationId s i t u
                Hs Hi Hid Hpl Ht Htid Hu Huid) as H.
  subst answered_w. destruct (run _ w) as [r1 w1]. cbn [snd].
  destruct H as (_ & Hinv & Htr & Hus & _).
  set (i1 := mkInvitation invitationId (inv_tryout_id i) (inv_player_id i) s).
  assert (Hi1 : In i1 (invitations w1)).
  { rewrite Hinv. unfold answered. apply in_map_iff. exists i.
    split; [| assumption]. apply Nat.eqb_eq in Hid. rewrite Hid.
    apply Nat.eqb_eq in Hid. rewrite Hid. reflexivity. }
  assert (Hnd1 : NoDup (map inv_id (invitations w1)))
    by (rewrite Hinv, answered_keys; assumption).
  assert (Ht1 : In t (tryouts w1)) by (rewrite Htr; assumption).
  assert (Hp1 : In p (users w1)) by (rewrite Hus; assumption).
  destruct (cancel_lookup w1 scout invitationId i1 t p Hnd1 Hi1 eq_refl Ht1 Htid
              Hts Hp1 Hpid) as (t' & u' & rest & E).
  unfold ScoutController.cancelInvitation. step_handler. rewrite E.
  assert (Hnp : String.eqb (inv_status i1) "pending" = false).
  { destruct Hs as [-> | ->]; reflexivity. }
  rewrite Hnp. cbn. auto.
Qed.

(** X9 on the sample store: Pat accepts, then Sam tries to cancel. *)
Lemma answered_invitation_cannot_be_cancelled_witness :
  (NoDup (map inv_id (invitations Examples.store)) /\
   In Examples.invite_pat (invitations Examples.store) /\
   inv_status Examples.invite_pat = "pending") /\
  (let (r, w') :=
     run (ScoutController.cancelInvitation Examples.scout_sam 1)
         (snd (run (PlayerController.updateInvitationStatus Examples.player_pat 1
                      (Some "accepted")) Examples.store)) in
   status r = 400 /\
   In (mkInvitation 1 1 2 "accepted") (invitations w')).
Proof.
  assert (Hnd : NoDup (map inv_id (invitations Examples.store))).
  { cbn. repeat constructor; cbn; intuition discriminate. }
  assert (Hi : In Examples.invite_pat (invitations Examples.store))
    by (left; reflexivity).
  assert (Ht : In Examples.trial (tryouts Examples.store)) by (left; reflexivity).
  assert (Hu : In Examples.sam (users Examples.store)) by (left; reflexivity).
  assert (Hp : In Examples.pat (users Examples.store))
    by (right; left; reflexivity).
  split; [repeat split; auto |].
  pose proof (answered_invitation_cannot_be_cancelled Examples.store
                Examples.player_pat Examples.scout_sam 1 "accepted"
                Examples.invite_pat Examples.trial Examples.sam Examples.pat
                (or_introl eq_refl) Hnd Hi eq_refl eq_refl Ht eq_refl eq_refl
                Hu eq_refl Hp eq_refl) as H.
  cbv zeta in H. destruct (run _ _) as [r w']. destruct H as (A & _ & B).
  split; [exact A | exact B].
Defined.

(** ** Accounts *)

Lemma no_such_email w email :
  (forall u, In u (users w) -> user_email u <> email) ->
  filter (fun u => String.eqb (user_email u) email) (users w) = [].
Proof.
  intros H. destruct (filter _ (users w)) as [| u rest] eqn:E; [reflexivity |].
  exfalso.
  assert (Hu : In u (filter (fun u => String.eqb (user_email u) email) (users w)))
    by (rewrite E; left; reflexivity).
  apply filter_In in Hu. destruct Hu as [Hin He]. apply String.eqb_eq in He.
  apply (H u Hin He).
Qed.

(** X10. A well-formed registration under a new address is answered 201
    and writes one user row with the hash of the password and the status
    the schema gives a new row.  From then on a login under that address
    writes nothing.  If that status is active, the login is answered 200,
    with the key the registration reported, exactly for the passwords the
    hash check accepts and 401 for the others; under any other default it
    is answered 403 whatever the password.  The same registration again is
    answered 409 and writes nothing. *)
Theorem registered_account_can_log_in :
  forall (env : Env) (w : World) (body : AuthController.RegisterBody)
         (email pw : string),
    AuthController.missing_fields body = false ->
    AuthController.reg_email body = Some email ->
    AuthController.reg_password body = Some pw ->
    AuthController.reg_confirmPassword body = Some pw ->
    (forall u, In u (users w) -> user_email u <> email) ->
    let first := run (AuthController.register env body) w in
    status (fst first) = 201 /\
    users (snd first) = users w ++ [registered env body w] /\
    user_status (registered env body w) = users_status_default env /\
    (forall pw',
       let attempt := run (AuthController.login env (Some email) (Some pw'))
                          (snd first) in
       snd attempt = snd first /\
       (users_status_default env = "active" ->
        (bcrypt_compare env pw' (bcrypt_hash env pw) = true ->
         status (fst attempt) = 200 /\
         field "id" (payload (fst attempt)) = field "id" (payload (fst first))) /\
        (bcrypt_compare env pw' (bcrypt_hash env pw) = false ->
         status (fst attempt) = 401)) /\
       (users_status_default env <> "active" ->
        fst attempt = json 403 "Account is not active")) /\
    run (AuthController.register env body) (snd first)
      = (json 409 "Email already exists", snd first).
Proof.
  intros env w body email pw Hm He Hp Hc Hnew first.
  pose proof (no_such_email w email Hnew) as Hnone.
  assert (E1 : exists r1 w1,
    first = (r1, w1) /\ status r1 = 201 /\
    field "id" (payload r1) = Some (Js.VNum (fresh user_id (users w))) /\
    users w1 = users w ++ [registered env body w]).
  { subst first. unfold AuthController.register, registered. step_handler.
    rewrite Hm, Hp, Hc, He. cbn. rewrite String.eqb_refl. cbn.
    rewrite Hnone. cbn.
    destruct (String.eqb (AuthController.text (AuthController.reg_role body))
                "player"
              && Js.truthy_str (AuthController.reg_date_of_birth body)); cbn;
      eexists; eexists; repeat split. }
  destruct E1 as (r1 & w1 & Ef & Hs & Hid & Hus).
  rewrite Ef. cbn [fst snd].
  assert (Hfound : filter (fun u => String.eqb (user_email u) email) (users w1)
                   = [registered env body w]).
  { rewrite Hus, filter_app, Hnone. unfold registered. cbn.
    rewrite He. cbn. rewrite String.eqb_refl. reflexivity. }
  split; [exact Hs |]. split; [exact Hus |]. split; [reflexivity |]. split.
  - intros pw'. cbv zeta.
    unfold AuthController.login. open_handler. cbn [fst snd].
    rewrite Hfound.
    cbv beta iota delta [registered user_status user_password user_id].
    destruct (String.eqb (users_status_default env) "active") eqn:Ea.
    + apply String.eqb_eq in Ea. cbn. rewrite Hp. cbn.
      destruct (bcrypt_compare env pw' (bcrypt_hash env pw)); cbn.
      * split; [reflexivity |]. split; [| congruence].
        intros _. split; [| discriminate].
        intros _. split; [reflexivity |]. rewrite Hid. reflexivity.
      * split; [reflexivity |]. split; [| congruence].
        intros _. split; [discriminate | auto].
    + apply String.eqb_neq in Ea. cbn.
      split; [reflexivity |]. split; [contradiction | reflexivity].
  - unfold AuthController.register. step_handler.
    rewrite Hm, Hp, Hc, He. cbn. rewrite String.eqb_refl. cbn.
    rewrite Hfound. reflexivity.
Qed.

(** X10 on the sample store: Lee registers and logs in where new accounts
    are active, and is refused where they are not. *)
Lemma registered_account_can_log_in_witness :
  (AuthController.missing_fields Examples.lee = false /\
   (forall u, In u (users Examples.store) ->
              user_email u <> "lee@club.example")) /\
  status (fst (run (AuthController.register Examples.env Examples.lee)
                   Examples.store)) = 201 /\
  status (fst (run (AuthController.login Examples.env (Some "lee@club.example")
                      (Some "fir"))
                   (snd (run (AuthController.register Examples.env Examples.lee)
                             Examples.store)))) = 200 /\
  fst (run (AuthController.login Examples.env_pending
              (Some "lee@club.example") (Some "fir"))
           (snd (run (AuthController.register Examples.env_pending Examples.lee)
                     Examples.store)))
  = json 403 "Account is not active".
Proof.
  assert (Hnew : forall u, In u (users Examples.store) ->
                           user_email u <> "lee@club.example").
  { intros u [<- | [<- | [<- | []]]]; discriminate. }
  split; [split; [reflexivity | exact Hnew] |].
  destruct (registered_account_can_log_in Examples.env Examples.store
              Examples.lee "lee@club.example" "fir" eq_refl eq_refl eq_refl
              eq_refl Hnew) as (A & _ & _ & B & _).
  destruct (registered_account_can_log_in Examples.env_pending Examples.store
              Examples.lee "lee@club.example" "fir" eq_refl eq_refl eq_refl
              eq_refl Hnew) as (_ & _ & _ & C & _).
  split; [exact A |]. split.
  - destruct (B "fir") as (_ & H & _). destruct (H eq_refl) as [H1 _].
    apply H1. reflexivity.
  - destruct (C "fir") as (_ & _ & H). apply H. discriminate.
Defined.

(** ** Administration of accounts *)

Lemma unique_email_filter (l : list User) u :
  NoDup (map user_email l) -> In u l ->
  filter (fun x => String.eqb (user_email x) (user_email u)) l = [u].
Proof.
  induction l as [| x l IH]; cbn; intros Hnd Hu; [contradiction |].
  inversion Hnd as [| ? ? Hx Hl]; subst.
  destruct Hu as [-> | Hu].
  - rewrite String.eqb_refl. f_equal.
    destruct (filter _ l) as [| y rest] eqn:E; [reflexivity |].
    exfalso. apply Hx.
    assert (Hy : In y (filter (fun x => String.eqb (user_email x) (user_email u)) l))
      by (rewrite E; left; reflexivity).
    apply filter_In in Hy. destruct Hy as [Hin He]. apply String.eqb_eq in He.
    rewrite <- He. apply in_map. assumption.
  - destruct (String.eqb (user_email x) (user_email u)) eqn:E.
    + exfalso. apply Hx. apply String.eqb_eq in E. rewrite E.
      apply in_map. assumption.
    + apply IH; assumption.
Qed.

Lemma filter_email_map (f : User -> User) e l :
  (forall x, user_email (f x) = user_email x) ->
  filter (fun x => String.eqb (user_email x) e) (map f l)
  = map f (filter (fun x => String.eqb (user_email x) e) l).
Proof.
  intros Hf. induction l as [| x l IH]; cbn; [reflexivity |].
  rewrite Hf. destruct (String.eqb (user_email x) e); cbn; rewrite IH; reflexivity.
Qed.

(** X11. [updateUserStatus] with one of the three statuses is answered 200,
    writes the status to the account and one row to the audit trail; after
    that a login to the account is answered 403 whatever the password when
    the status is not active, and 200 for a password the hash check accepts
    when it is.  Any other status is answered 400 and writes nothing. *)
Theorem account_status_gates_login :
  forall (env : Env) (w : World) (admin : Caller) (u : User) (s ip : string)
         (status_ : option string),
    NoDup (map user_email (users w)) -> In u (users w) ->
    (Js.array_includes ["active"; "inactive"; "suspended"] s = true ->
     let first := run (AdminController.updateUserStatus admin (user_id u)
                         (Some s) ip) w in
     status (fst first) = 200 /\
     system_logs (snd first)
       = system_logs w
         ++ [mkSystemLog (caller_id admin) "UPDATE" "user" (user_id u) ip] /\
     (s <> "active" -> forall password,
        run (AuthController.login env (Some (user_email u)) password) (snd first)
        = (json 403 "Account is not active", snd first)) /\
     (s = "active" -> forall pw,
        bcrypt_compare env pw (user_password u) = true ->
        status (fst (run (AuthController.login env (Some (user_email u))
                            (Some pw)) (snd first))) = 200)) /\
    (Js.truthy_str status_ = false \/
     Js.array_includes ["active"; "inactive"; "suspended"]
       (AuthController.text status_) = false ->
     run (AdminController.updateUserStatus admin (user_id u) status_ ip) w
     = (json 400 "Invalid status value", w)).
Proof.
  intros env w admin u s ip status_ Hnd Hu. split.
  - intros Hs first.
    assert (Ht : Js.truthy_str (Some s) = true).
    { destruct s; [discriminate | reflexivity]. }
    assert (E : exists w1,
      first = (json 200 "User status updated", w1) /\
      users w1 = map (fun x => if Nat.eqb (user_id x) (user_id u)
                               then with_status s x else x) (users w) /\
      system_logs w1
        = system_logs w
          ++ [mkSystemLog (caller_id admin) "UPDATE" "user" (user_id u) ip]).
    { subst first. unfold AdminController.updateUserStatus,
        AdminController.logAdminAction. open_handler.
      rewrite Ht. cbn [AuthController.text]. rewrite Hs. cbn.
      eexists. repeat split. }
    destruct E as (w1 & Ef & Hus & Hlog). rewrite Ef. cbn [fst snd].
    assert (Hfound : filter (fun x => String.eqb (user_email x) (user_email u))
                            (users w1) = [with_status s u]).
    { rewrite Hus, filter_email_map.
      - rewrite (unique_email_filter _ u Hnd Hu). cbn.
        rewrite Nat.eqb_refl. reflexivity.
      - intros x. destruct (Nat.eqb (user_id x) (user_id u)); reflexivity. }
    split; [reflexivity |]. split; [exact Hlog |]. split.
    + intros Hna password. unfold AuthController.login. step_handler.
      rewrite Hfound. cbn. apply String.eqb_neq in Hna. rewrite Hna. reflexivity.
    + intros -> pw Hpw. unfold AuthController.login. step_handler.
      rewrite Hfound. cbn. rewrite Hpw. reflexivity.
  - intros H. unfold AdminController.updateUserStatus. open_handler.
    destruct H as [H | H]; rewrite H; [reflexivity |].
    cbn [negb]. rewrite orb_true_r. reflexivity.
Qed.

(** X11 on the sample store: the administrator suspends Pat. *)
Lemma account_status_gates_login_witness :
  (NoDup (map user_email (users Examples.store)) /\
   In Examples.pat (users Examples.store) /\
   status (fst (run (AuthController.login Examples.env (Some "pat@club.example")
                       (Some "elm")) Examples.store)) = 200) /\
  run (AuthController.login Examples.env (Some "pat@club.example") (Some "elm"))
      (snd (run (AdminController.updateUserStatus Examples.admin 2
                   (Some "suspended") "10.0.0.1") Examples.store))
  = (json 403 "Account is not active",
     snd (run (AdminController.updateUserStatus Examples.admin 2
                 (Some "suspended") "10.0.0.1") Examples.store)).
Proof.
  assert (Hnd : NoDup (map user_email (users Examples.store))).
  { cbn. repeat constructor; cbn; intuition discriminate. }
  assert (Hin : In Examples.pat (users Examples.store))
    by (right; left; reflexivity).
  split; [repeat split; auto |].
  destruct (account_status_gates_login Examples.env Examples.store Examples.admin
              Examples.pat "suspended" "10.0.0.1" None Hnd Hin) as [H _].
  destruct (H eq_refl) as (_ & _ & Hno & _).
  apply Hno. discriminate.
Defined.

(** X12. After [resetUserPassword] the account's hash is that of the
    temporary password the answer reports: a login to an active account
    is answered 200 exactly for the passwords the hash check accepts
    against it, 401 for the others, and one row is added to the audit
    trail. *)
Theorem reset_password_replaces_the_hash :
  forall (env : Env) (w : World) (admin : Caller) (u : User)
         (tempPassword ip : string),
    NoDup (map user_email (users w)) -> In u (users w) ->
    user_status u = "active" ->
    let first := run (AdminController.resetUserPassword env admin (user_id u)
                        tempPassword ip) w in
    status (fst first) = 200 /\
    field "tempPassword" (payload (fst first)) = Some (Js.VStr tempPassword) /\
    system_logs (snd first)
      = system_logs w
        ++ [mkSystemLog (caller_id admin) "RESET_PASSWORD" "user" (user_id u) ip] /\
    forall pw,
      status (fst (run (AuthController.login env (Some (user_email u)) (Some pw))
                       (snd first)))
      = if bcrypt_compare env pw (bcrypt_hash env tempPassword) then 200 else 401.
Proof.
  intros env w admin u tempPassword ip Hnd Hu Hact first.
  assert (E : exists r1 w1,
    first = (r1, w1) /\ status r1 = 200 /\
    field "tempPassword" (payload r1) = Some (Js.VStr tempPassword) /\
    users w1 = map (fun x => if Nat.eqb (user_id x) (user_id u)
                             then with_password (bcrypt_hash env tempPassword) x
                             else x) (users w) /\
    system_logs w1
      = system_logs w
        ++ [mkSystemLog (caller_id admin) "RESET_PASSWORD" "user" (user_id u) ip]).
  { subst first. unfold AdminController.resetUserPassword,
      AdminController.logAdminAction. step_handler.
    eexists. eexists. repeat split. }
  destruct E as (r1 & w1 & Ef & Hs & Hf & Hus & Hlog). rewrite Ef. cbn [fst snd].
  assert (Hfound : filter (fun x => String.eqb (user_email x) (user_email u))
                          (users w1)
                   = [with_password (bcrypt_hash env tempPassword) u]).
  { rewrite Hus, filter_email_map.
    - rewrite (unique_email_filter _ u Hnd Hu). cbn.
      rewrite Nat.eqb_refl. reflexivity.
    - intros x. destruct (Nat.eqb (user_id x) (user_id u)); reflexivity. }
  repeat split; auto.
  intros pw. unfold AuthController.login. step_handler.
  rewrite Hfound. cbn. rewrite Hact. cbn.
  destruct (bcrypt_compare env pw (bcrypt_hash env tempPassword)); reflexivity.
Qed.

(** X12 on the sample store: Pat's password is reset to a temporary one. *)
Lemma reset_password_replaces_the_hash_witness :
  (NoDup (map user_email (users Examples.store)) /\
   In Examples.pat (users Examples.store) /\
   user_status Examples.pat = "active") /\
  status (fst (run (AuthController.login Examples.env (Some "pat@club.example")
                      (Some "x7k2m9qa"))
                   (snd (run (AdminController.resetUserPassword Examples.env
                                Examples.admin 2 "x7k2m9qa" "10.0.0.1")
                             Examples.store)))) = 200 /\
  status (fst (run (AuthController.login Examples.env (Some "pat@club.example")
                      (Some "elm"))
                   (snd (run (AdminController.resetUserPassword Examples.env
                                Examples.admin 2 "x7k2m9qa" "10.0.0.1")
                             Examples.store)))) = 401.
Proof.
  assert (Hnd : NoDup (map user_email (users Examples.store))).
  { cbn. repeat constructor; cbn; intuition discriminate. }
  assert (Hin : In Examples.pat (users Examples.store))
    by (right; left; reflexivity).
  split; [repeat split; auto |].
  destruct (reset_password_replaces_the_hash Examples.env Examples.store
              Examples.admin Examples.pat "x7k2m9qa" "10.0.0.1" Hnd Hin eq_refl)
    as (_ & _ & _ & H).
  split; [apply (H "x7k2m9qa") | apply (H "elm")].
Defined.

(** X13. [deleteUser] removes the account and adds one audit row, and
    nothing else: the videos, likes, comments and invitations of the user
    stay in the store.  A login under the deleted account's address is
    answered 401. *)
Theorem deleteUser_removes_the_account_only :
  forall (env : Env) (w : World) (admin : Caller) (u : User) (ip : string)
         (password : option string),
    NoDup (map user_email (users w)) -> In u (users w) ->
    let (r, w') := run (AdminController.deleteUser admin (user_id u) ip) w in
    status r = 200 /\
    (forall x, In x (users w') <-> In x (users w) /\ user_id x <> user_id u) /\
    videos w' = videos w /\ likes w' = likes w /\ comments w' = comments w /\
    invitations w' = invitations w /\ player_profiles w' = player_profiles w /\
    system_logs w'
      = system_logs w
        ++ [mkSystemLog (caller_id admin) "DELETE" "user" (user_id u) ip] /\
    run (AuthController.login env (Some (user_email u)) password) w'
      = (json 401 "Invalid credentials", w').
Proof.
  intros env w admin u ip password Hnd Hu.
  unfold AdminController.deleteUser, AdminController.logAdminAction.
  step_handler.
  assert (HU : forall x, In x (filter (fun x => negb (Nat.eqb (user_id x) (user_id u)))
                                      (users w))
                         <-> In x (users w) /\ user_id x <> user_id u).
  { intros x. rewrite filter_In, negb_eqb_neq. reflexivity. }
  split; [reflexivity |]. split; [exact HU |].
  do 6 (split; [reflexivity |]).
  unfold AuthController.login. step_handler.
  destruct (filter (fun x => String.eqb (user_email x) (user_email u))
                   (filter (fun x => negb (Nat.eqb (user_id x) (user_id u)))
                           (users w))) as [| x rest] eqn:E; [reflexivity |].
  exfalso.
  assert (Hx : In x (x :: rest)) by (left; reflexivity).
  rewrite <- E in Hx. apply filter_In in Hx. destruct Hx as [Hx He].
  apply HU in Hx. destruct Hx as [Hx Hne]. apply String.eqb_eq in He.
  apply Hne. f_equal. apply (key_unique user_email (users w)); assumption.
Qed.

(** X13 on the sample store: the administrator deletes Pat, whose clip
    stays. *)
Lemma deleteUser_removes_the_account_only_witness :
  (NoDup (map user_email (users Examples.store)) /\
   In Examples.pat (users Examples.store)) /\
  (let (r, w') := run (AdminController.deleteUser Examples.admin 2 "10.0.0.1")
                      Examples.store in
   status r = 200 /\ videos w' = [Examples.clip] /\
   users w' = [Examples.sam; Examples.kim]).
Proof.
  assert (Hnd : NoDup (map user_email (users Examples.store))).
  { cbn. repeat constructor; cbn; intuition discriminate. }
  assert (Hin : In Examples.pat (users Examples.store))
    by (right; left; reflexivity).
  split; [split; assumption |].
  pose proof (deleteUser_removes_the_account_only Examples.env Examples.store
                Examples.admin Examples.pat "10.0.0.1" None Hnd Hin) as H.
  cbn in H. cbn. destruct H as (Hs & _ & Hv & _). repeat split; auto.
Defined.

(** ** Locations *)

Lemma filter_all {A : Type} (p : A -> bool) l :
  (forall x, In x l -> p x = true) -> filter p l = l.
Proof.
  induction l as [| x l IH]; cbn; intros H; [reflexivity |].
  rewrite (H x (or_introl eq_refl)), IH; [reflexivity |].
  intros y Hy. apply H. right. assumption.
Qed.

Lemma filter_nothing {A : Type} (p : A -> bool) l :
  (forall x, In x l -> p x = false) -> filter p l = [].
Proof.
  induction l as [| x l IH]; cbn; intros H; [reflexivity |].
  rewrite (H x (or_introl eq_refl)). apply IH.
  intros y Hy. apply H. right. assumption.
Qed.

(** X14. [deleteTryoutLocation] never deletes a tryout that is not a
    location record, nor any row of another location.  While a real tryout
    uses the location it answers 400 with their number and writes nothing;
    otherwise it answers 200, no row of the location is left, and one row
    is added to the audit trail. *)
Theorem deleteTryoutLocation_spares_real_tryouts :
  forall (w : World) (caller : Caller) (location ip : string),
    location <> EmptyString ->
    let (r, w') := run (AdminController.deleteTryoutLocation caller location ip)
                       w in
    (forall t, In t (tryouts w') -> In t (tryouts w)) /\
    (forall t, In t (tryouts w) -> tryout_name t <> "Location Template" ->
               In t (tryouts w')) /\
    (forall t, In t (tryouts w) -> tryout_location t <> location ->
               In t (tryouts w')) /\
    (AdminController.activeTryouts location w <> [] ->
     status r = 400 /\ w' = w /\
     field "count" (payload r)
       = Some (Js.VNum (List.length (AdminController.activeTryouts location w)))) /\
    (AdminController.activeTryouts location w = [] ->
     status r = 200 /\
     (forall t, In t (tryouts w') -> tryout_location t <> location) /\
     system_logs w'
       = system_logs w ++ [mkSystemLog (caller_id caller) "DELETE" "location" 0 ip]).
Proof.
  intros w caller location ip Hloc.
  unfold AdminController.deleteTryoutLocation, AdminController.logAdminAction.
  open_handler.
  assert (Ht : Js.truthy_str (Some location) = true).
  { destruct location; [congruence | reflexivity]. }
  rewrite Ht. cbn.
  destruct (AdminController.activeTryouts location w) as [| a rest] eqn:E; cbn.
  - split; [| split; [| split; [| split]]].
    + intros t H. apply filter_In in H. tauto.
    + intros t H Hn. apply filter_In. split; [assumption |].
      apply String.eqb_neq in Hn. rewrite Hn, andb_false_r. reflexivity.
    + intros t H Hn. apply filter_In. split; [assumption |].
      apply String.eqb_neq in Hn. rewrite Hn. reflexivity.
    + congruence.
    + intros _. split; [reflexivity |]. split; [| reflexivity].
      intros t H Hl. apply filter_In in H. destruct H as [Hin Hk].
      rewrite Hl, String.eqb_refl in Hk. cbn in Hk.
      apply negb_true_iff in Hk.
      assert (Ha : In t (AdminController.activeTryouts location w)).
      { unfold AdminController.activeTryouts. apply filter_In.
        split; [assumption |]. rewrite Hl, String.eqb_refl, Hk. reflexivity. }
      rewrite E in Ha. exact Ha.
  - repeat split; auto; discriminate.
Qed.

(** X14 on the store with locations: Giza is in use by the Giza cup, Luxor
    is free. *)
Lemma deleteTryoutLocation_spares_real_tryouts_witness :
  ("Giza" <> EmptyString /\ "Luxor" <> EmptyString) /\
  run (AdminController.deleteTryoutLocation Examples.admin "Giza" "10.0.0.1")
      Examples.store_with_locations
  = (mkResponse 400 "Cannot delete location that is in use by active tryouts"
       [("count", Js.VNum 1)], Examples.store_with_locations) /\
  (let (r, w') := run (AdminController.deleteTryoutLocation Examples.admin
                         "Luxor" "10.0.0.1") Examples.store_with_locations in
   status r = 200 /\
   forall t, In t (tryouts w') -> tryout_location t <> "Luxor").
Proof.
  assert (Hl : "Luxor" <> EmptyString) by discriminate.
  split; [split; [discriminate | exact Hl] |]. split; [reflexivity |].
  pose proof (deleteTryoutLocation_spares_real_tryouts
                Examples.store_with_locations Examples.admin "Luxor" "10.0.0.1"
                Hl) as H.
  destruct (run _ Examples.store_with_locations) as [r w'].
  destruct H as (_ & _ & _ & _ & H). destruct (H eq_refl) as (A & B & _).
  split; [exact A | exact B].
Defined.

Lemma trim_empty : Js.trim EmptyString = EmptyString.
Proof. reflexivity. Qed.

(** X15. A name that is not blank and that no tryout has yet as location
    is registered with answer 201 as one location record; registering it
    again is answered 400 and writes nothing; deleting it puts the tryouts
    back as they were.  A missing or blank name is answered 400. *)
Theorem location_added_then_deleted :
  forall (w : World) (admin : Caller) (location now ip : string)
         (blank : option string),
    Js.trim location <> EmptyString ->
    (forall t, In t (tryouts w) -> tryout_location t <> location) ->
    let first := run (AdminController.addTryoutLocation admin (Some location)
                        now ip) w in
    status (fst first) = 201 /\
    tryouts (snd first) = tryouts w ++ [location_template w admin location now] /\
    run (AdminController.addTryoutLocation admin (Some location) now ip)
        (snd first)
      = (json 400 "Location already exists", snd first) /\
    (let second := run (AdminController.deleteTryoutLocation admin location ip)
                       (snd first) in
     status (fst second) = 200 /\ tryouts (snd second) = tryouts w) /\
    (Js.trim (AuthController.text blank) = EmptyString ->
     run (AdminController.addTryoutLocation admin blank now ip) w
     = (json 400 "Location name is required", w)).
Proof.
  intros w admin location now ip blank Htrim Hfree first.
  assert (Hloc : location <> EmptyString).
  { intros ->. apply Htrim. reflexivity. }
  assert (Ht : Js.truthy_str (Some location) = true).
  { destruct location; [congruence | reflexivity]. }
  assert (Hte : String.eqb (Js.trim location) EmptyString = false)
    by (apply String.eqb_neq; exact Htrim).
  assert (Hnone : filter (fun t => String.eqb (tryout_location t) location)
                         (tryouts w) = []).
  { apply filter_nothing. intros t Hin. apply String.eqb_neq. auto. }
  assert (E : exists r1 w1,
    first = (r1, w1) /\ status r1 = 201 /\
    tryouts w1 = tryouts w ++ [location_template w admin location now]).
  { subst first. unfold AdminController.addTryoutLocation,
      AdminController.logAdminAction. open_handler.
    rewrite Ht. cbn [AuthController.text negb orb]. rewrite Hte. cbn.
    rewrite Hnone. cbn. eexists. eexists. repeat split. }
  destruct E as (r1 & w1 & Ef & Hs & Htr). rewrite Ef. cbn [fst snd].
  split; [exact Hs |]. split; [exact Htr |]. split; [| split].
  - unfold AdminController.addTryoutLocation. open_handler.
    rewrite Ht. cbn [AuthController.text negb orb]. rewrite Hte. cbn.
    rewrite Htr, filter_app, Hnone. cbn. rewrite String.eqb_refl. reflexivity.
  - unfold AdminController.deleteTryoutLocation, AdminController.logAdminAction,
      AdminController.activeTryouts. open_handler.
    rewrite Ht. cbn. rewrite Htr, !filter_app. cbn.
    rewrite String.eqb_refl. cbn.
    assert (Hidle : filter (fun t => String.eqb (tryout_location t) location
                                     && negb (String.eqb (tryout_name t)
                                                "Location Template"))
                           (tryouts w) = []).
    { apply filter_nothing. intros t Hin. pose proof (Hfree t Hin) as Hn.
      apply String.eqb_neq in Hn. rewrite Hn. reflexivity. }
    assert (Hkeep : filter (fun t => negb (String.eqb (tryout_location t) location
                                           && String.eqb (tryout_name t)
                                                "Location Template"))
                           (tryouts w) = tryouts w).
    { apply filter_all. intros t Hin. pose proof (Hfree t Hin) as Hn.
      apply String.eqb_neq in Hn. rewrite Hn. reflexivity. }
    rewrite Hidle. cbn. rewrite Htr, filter_app, Hkeep. cbn.
    rewrite String.eqb_refl. cbn. split; [reflexivity | apply app_nil_r].
  - intros Hb. unfold AdminController.addTryoutLocation. open_handler.
    rewrite Hb, String.eqb_refl, orb_true_r. reflexivity.
Qed.

(** X15 on the sample store: Aswan is registered and deleted again. *)
Lemma location_added_then_deleted_witness :
  (Js.trim "Aswan" <> EmptyString /\
   (forall t, In t (tryouts Examples.store) -> tryout_location t <> "Aswan")) /\
  status (fst (run (AdminController.addTryoutLocation Examples.admin
                      (Some "Aswan") "2025-03-01" "10.0.0.1") Examples.store))
  = 201 /\
  tryouts (snd (run (AdminController.deleteTryoutLocation Examples.admin "Aswan"
                       "10.0.0.1")
                    (snd (run (AdminController.addTryoutLocation Examples.admin
                                 (Some "Aswan") "2025-03-01" "10.0.0.1")
                              Examples.store))))
  = tryouts Examples.store.
Proof.
  assert (Ht : Js.trim "Aswan" <> EmptyString) by (cbn; discriminate).
  assert (Hf : forall t, In t (tryouts Examples.store) ->
                         tryout_location t <> "Aswan").
  { intros t [<- | []]. discriminate. }
  split; [split; assumption |].
  destruct (location_added_then_deleted Examples.store Examples.admin "Aswan"
              "2025-03-01" "10.0.0.1" None Ht Hf) as (A & _ & _ & B & _).
  split; [exact A | apply B].
Defined.

(** ** The inbox *)

Lemma unread_read_all (uid other : nat) (l : list Notification) :
  List.length
    (filter (fun n => Nat.eqb (notif_user_id n) other && negb (notif_is_read n))
       (map (fun n => if Nat.eqb (notif_user_id n) uid then read n else n) l))
  = if Nat.eqb other uid then 0
    else List.length
           (filter (fun n => Nat.eqb (notif_user_id n) other
                             && negb (notif_is_read n)) l).
Proof.
  unfold read. induction l as [| n l IH]; cbn [map filter].
  - destruct (Nat.eqb other uid); reflexivity.
  - destruct (Nat.eqb (notif_user_id n) uid) eqn:E.
    + apply Nat.eqb_eq in E. cbn [notif_user_id notif_is_read negb].
      rewrite andb_false_r, IH, E.
      destruct (Nat.eqb other uid) eqn:F; [reflexivity |].
      rewrite Nat.eqb_sym, F. reflexivity.
    + destruct (Nat.eqb (notif_user_id n) other) eqn:F; cbn [andb].
      * assert (G : Nat.eqb other uid = false).
        { apply Nat.eqb_eq in F. rewrite <- F. exact E. }
        destruct (negb (notif_is_read n)); cbn [List.length];
          rewrite IH, G; reflexivity.
      * exact IH.
Qed.

(** X16. [markAllAsRead] answers 200 and leaves the caller with no unread
    notification; the unread count of every other user, the number of
    notifications, their recipients and their messages are unchanged. *)
Theorem markAllAsRead_clears_the_inbox :
  forall (w : World) (caller : Caller),
    let (r, w') := run (NotificationInbox.markAllAsRead caller) w in
    status r = 200 /\
    NotificationInbox.unread (caller_id caller) w' = 0 /\
    (forall other, Nat.eqb other (caller_id caller) = false ->
       NotificationInbox.unread other w' = NotificationInbox.unread other w) /\
    map notif_id (notifications w') = map notif_id (notifications w) /\
    map notif_user_id (notifications w') = map notif_user_id (notifications w) /\
    map notif_message (notifications w') = map notif_message (notifications w).
Proof.
  intros w caller. unfold NotificationInbox.markAllAsRead. step_handler.
  unfold NotificationInbox.unread. cbn.
  pose proof (unread_read_all (caller_id caller)) as U. unfold read in U.
  split; [reflexivity |]. split; [| split; [| split; [| split]]].
  - rewrite U, Nat.eqb_refl. reflexivity.
  - intros other H. rewrite U, H. reflexivity.
  - rewrite map_map. apply map_ext. intros n.
    destruct (Nat.eqb _ _); reflexivity.
  - rewrite map_map. apply map_ext. intros n.
    destruct (Nat.eqb _ _); reflexivity.
  - rewrite map_map. apply map_ext. intros n.
    destruct (Nat.eqb _ _); reflexivity.
Qed.

(** X17. A notification that is not in the caller's inbox (no such key, or
    the notification of another user) can be neither marked nor deleted:
    both handlers answer 404 and write nothing. *)
Theorem inbox_is_private :
  forall (w : World) (caller : Caller) (notificationId : nat),
    not_in_inbox caller notificationId w ->
    run (NotificationInbox.markAsRead caller notificationId) w
    = (json 404 "Notification not found", w) /\
    run (NotificationInbox.deleteNotification caller notificationId) w
    = (json 404 "Notification not found", w).
Proof.
  intros w caller nid H.
  assert (E : filter (fun n => Nat.eqb (notif_id n) nid
                               && Nat.eqb (notif_user_id n) (caller_id caller))
                     (notifications w) = []).
  { apply filter_nothing. intros n Hin.
    destruct (Nat.eqb (notif_id n) nid) eqn:F; [| reflexivity].
    apply Nat.eqb_eq in F. apply Nat.eqb_neq. exact (H n Hin F). }
  unfold NotificationInbox.markAsRead, NotificationInbox.deleteNotification.
  step_handler. rewrite E. split; reflexivity.
Qed.

(** X17 on the store with notices: Kim reaches for Pat's notice. *)
Lemma inbox_is_private_witness :
  not_in_inbox Examples.player_kim 1 Examples.store_with_notices /\
  run (NotificationInbox.deleteNotification Examples.player_kim 1)
      Examples.store_with_notices
  = (json 404 "Notification not found", Examples.store_with_notices).
Proof.
  assert (H : not_in_inbox Examples.player_kim 1 Examples.store_with_notices).
  { intros n [<- | [<- | []]]; cbn; intros; discriminate. }
  split; [exact H |].
  destruct (inbox_is_private Examples.store_with_notices Examples.player_kim 1 H)
    as [_ B].
  exact B.
Defined.

Lemma mark_others (nid : nat) (l : list Notification) :
  ~ In nid (map notif_id l) ->
  map (fun n => if Nat.eqb (notif_id n) nid then read n else n) l = l.
Proof.
  unfold read. intros H. rewrite <- (map_id l) at 2. apply map_ext_in.
  intros n Hin.
  destruct (Nat.eqb (notif_id n) nid) eqn:E; [| reflexivity].
  apply Nat.eqb_eq in E. exfalso. apply H. rewrite <- E.
  apply in_map. exact Hin.
Qed.

Lemma unread_read_one (uid : nat) (x : Notification) (l : list Notification) :
  NoDup (map notif_id l) -> In x l ->
  notif_user_id x = uid -> notif_is_read x = false ->
  List.length
    (filter (fun n => Nat.eqb (notif_user_id n) uid && negb (notif_is_read n)) l)
  = S (List.length
         (filter (fun n => Nat.eqb (notif_user_id n) uid
                           && negb (notif_is_read n))
            (map (fun n => if Nat.eqb (notif_id n) (notif_id x) then read n
                           else n) l))).
Proof.
  intros Hnd Hin Hu Hr. pose proof (mark_others (notif_id x)) as M.
  unfold read in *. induction l as [| n l IH]; [destruct Hin |].
  cbn [map] in Hnd. inversion Hnd as [| ? ? Hfresh Hrest]. subst.
  destruct Hin as [-> | Hin].
  - cbn [map filter]. rewrite Nat.eqb_refl, Hr. cbn [negb andb].
    rewrite Nat.eqb_refl. cbn [notif_user_id notif_is_read negb andb].
    rewrite andb_false_r, (M _ Hfresh). reflexivity.
  - cbn [map filter].
    assert (E : Nat.eqb (notif_id n) (notif_id x) = false).
    { apply Nat.eqb_neq. intros F. apply Hfresh. rewrite F.
      apply in_map. exact Hin. }
    rewrite E.
    destruct (Nat.eqb (notif_user_id n) (notif_user_id x) && negb (notif_is_read n));
      cbn [List.length]; rewrite (IH Hrest Hin); reflexivity.
Qed.

(** X18. On a table with unique keys, marking an unread notification of
    the caller's own inbox answers 200 and lowers the caller's unread count
    by exactly one; deleting it answers 200, and what is left are exactly
    the notifications with another key. *)
Theorem own_notification_is_marked_or_deleted :
  forall (w : World) (caller : Caller) (n : Notification),
    NoDup (map notif_id (notifications w)) ->
    In n (notifications w) ->
    notif_user_id n = caller_id caller ->
    notif_is_read n = false ->
    (let (r, w') := run (NotificationInbox.markAsRead caller (notif_id n)) w in
     status r = 200 /\
     NotificationInbox.unread (caller_id caller) w
     = S (NotificationInbox.unread (caller_id caller) w')) /\
    (let (r, w') := run (NotificationInbox.deleteNotification caller (notif_id n))
                        w in
     status r = 200 /\
     forall x, In x (notifications w') <->
               In x (notifications w) /\ notif_id x <> notif_id n).
Proof.
  intros w caller n Hnd Hin Hu Hr.
  assert (E : exists x rest,
    filter (fun m => Nat.eqb (notif_id m) (notif_id n)
                     && Nat.eqb (notif_user_id m) (caller_id caller))
           (notifications w) = x :: rest).
  { destruct (filter _ (notifications w)) as [| x rest] eqn:F;
      [| eexists; eexists; reflexivity].
    exfalso. assert (G : In n []); [| exact G].
    rewrite <- F. apply filter_In. split; [exact Hin |].
    rewrite Hu, !Nat.eqb_refl. reflexivity. }
  destruct E as (x & rest & E).
  unfold NotificationInbox.markAsRead, NotificationInbox.deleteNotification.
  step_handler. rewrite E. cbn. split.
  - split; [reflexivity |]. unfold NotificationInbox.unread. cbn.
    rewrite <- Hu.
    pose proof (unread_read_one _ n _ Hnd Hin eq_refl Hr) as U.
    unfold read in U. exact U.
  - split; [reflexivity |]. intros y. rewrite filter_In.
    rewrite negb_true_iff, Nat.eqb_neq. tauto.
Qed.

(** X18 on the store with notices: Pat marks the first notice. *)
Lemma own_notification_is_marked_or_deleted_witness :
  (NoDup (map notif_id (notifications Examples.store_with_notices)) /\
   In Examples.notice_one (notifications Examples.store_with_notices) /\
   notif_user_id Examples.notice_one = caller_id Examples.player_pat /\
   notif_is_read Examples.notice_one = false) /\
  NotificationInbox.unread 2 Examples.store_with_notices
  = S (NotificationInbox.unread 2
         (snd (run (NotificationInbox.markAsRead Examples.player_pat 1)
                   Examples.store_with_notices))).
Proof.
  assert (Hnd : NoDup (map notif_id (notifications Examples.store_with_notices))).
  { cbn. constructor; [intros [H | []]; discriminate |].
    constructor; [intros [] | constructor]. }
  assert (Hin : In Examples.notice_one
                   (notifications Examples.store_with_notices))
    by (left; reflexivity).
  split; [split; [exact Hnd | split; [exact Hin | split; reflexivity]] |].
  destruct (own_notification_is_marked_or_deleted Examples.store_with_notices
              Examples.player_pat Examples.notice_one Hnd Hin eq_refl eq_refl)
    as [A _].
  cbn in A. destruct A as [_ A]. exact A.
Defined.

(** ** Shortlists *)

Lemma filter_nil_false {A : Type} (p : A -> bool) l :
  filter p l = [] -> forall x, In x l -> p x = false.
Proof.
  intros H x Hin. destruct (p x) eqn:E; [| reflexivity].
  assert (G : In x (filter p l)) by (apply filter_In; auto).
  rewrite H in G. destruct G.
Qed.

(** X19. A player who is not yet on the caller's shortlist is put on it
    with answer 201 and exactly one new row; after that the list shows the
    player, a second request is answered 409 and writes nothing, and
    removing the player gives back the rows there were.  The player is
    notified with the scout's name and organization, [Unknown Club] where
    there is none; without a user row of the scout nobody is notified. *)
Theorem shortlist_add_once :
  forall (d : Shortlists.Directory) (caller : Caller) (playerId : nat),
    playerId <> 0 ->
    Shortlists.shortlisted (caller_id caller) playerId d = [] ->
    let (r, d') := Shortlists.addToShortlist caller (Some playerId) d in
    status r = 201 /\
    Shortlists.shortlists d'
    = Shortlists.shortlists d ++ [shortlist_row d (caller_id caller) playerId] /\
    Shortlists.addToShortlist caller (Some playerId) d'
    = (json 409 "Player already shortlisted", d') /\
    (forall u, In u (users (Shortlists.world d)) -> user_id u = playerId ->
               In u (Shortlists.getShortlist caller d')) /\
    (forall scout_name club_name rest,
       Shortlists.scoutDetails (caller_id caller) d
       = (scout_name, club_name) :: rest ->
       notifications (Shortlists.world d')
       = notifications (Shortlists.world d)
         ++ [shortlist_notice d playerId scout_name club_name] /\
       users (Shortlists.world d') = users (Shortlists.world d)) /\
    (Shortlists.scoutDetails (caller_id caller) d = [] ->
     Shortlists.world d' = Shortlists.world d) /\
    Shortlists.shortlists (snd (Shortlists.removeFromShortlist caller playerId d'))
    = Shortlists.shortlists d.
Proof.
  intros d caller pid Hp Hnew.
  assert (Ht : Js.truthy_id (Some pid) = true).
  { destruct pid; [congruence | reflexivity]. }
  unfold Shortlists.addToShortlist. rewrite Ht. cbn [negb].
  unfold PlayerController.id_of. rewrite Hnew. cbn [nonempty].
  split; [reflexivity |]. split; [reflexivity |]. split; [| split; [| split; [| split]]].
  - unfold Shortlists.shortlisted in *.
    cbn [Shortlists.shortlists]. rewrite filter_app, Hnew. cbn.
    rewrite !Nat.eqb_refl. reflexivity.
  - intros u Hu <-. unfold Shortlists.getShortlist.
    cbn [Shortlists.shortlists Shortlists.world].
    apply in_map_iff.
    exists (shortlist_row d (caller_id caller) (user_id u), u).
    split; [reflexivity |]. apply in_join2.
    split; [apply in_or_app; right; left; reflexivity |].
    split; [| cbn; rewrite !Nat.eqb_refl; reflexivity].
    destruct (Shortlists.scoutDetails (caller_id caller) d) as [| [a b] t];
      exact Hu.
  - intros name club rest E. rewrite E. cbn. split; reflexivity.
  - intros E. rewrite E. reflexivity.
  - unfold Shortlists.removeFromShortlist. cbn. rewrite filter_app. cbn.
    rewrite !Nat.eqb_refl. cbn. rewrite app_nil_r.
    apply (filter_none_negb _ _ Hnew).
Qed.

(** X19 on the sample directory: Sam puts Pat on the list. *)
Lemma shortlist_add_once_witness :
  (2 <> 0 /\ Shortlists.shortlisted 1 2 Examples.directory = []) /\
  (let (r, d') := Shortlists.addToShortlist Examples.scout_sam (Some 2)
                    Examples.directory in
   status r = 201 /\
   Shortlists.addToShortlist Examples.scout_sam (Some 2) d'
   = (json 409 "Player already shortlisted", d')).
Proof.
  assert (H2 : 2 <> 0) by discriminate.
  split; [split; [exact H2 | reflexivity] |].
  pose proof (shortlist_add_once Examples.directory Examples.scout_sam 2 H2
                eq_refl) as H.
  destruct (Shortlists.addToShortlist Examples.scout_sam (Some 2)
              Examples.directory) as [r d'].
  destruct H as (A & _ & B & _). split; [exact A | exact B].
Defined.

(** X20. [removeFromShortlist] always answers 200, also when the player
    was not on the list.  It removes exactly the rows of the caller for
    that player: rows of other scouts and of other players stay, nothing
    else in the store changes, and a second removal changes nothing. *)
Theorem removeFromShortlist_only_own_pair :
  forall (d : Shortlists.Directory) (caller : Caller) (playerId : nat),
    let (r, d') := Shortlists.removeFromShortlist caller playerId d in
    status r = 200 /\
    Shortlists.world d' = Shortlists.world d /\
    Shortlists.scout_profiles d' = Shortlists.scout_profiles d /\
    Shortlists.shortlisted (caller_id caller) playerId d' = [] /\
    (forall s, In s (Shortlists.shortlists d') <->
               In s (Shortlists.shortlists d) /\
               (Shortlists.sl_scout_id s = caller_id caller ->
                Shortlists.sl_player_id s <> playerId)) /\
    Shortlists.removeFromShortlist caller playerId d' = (r, d') /\
    (Shortlists.shortlisted (caller_id caller) playerId d = [] ->
     Shortlists.shortlists d' = Shortlists.shortlists d).
Proof.
  intros d caller pid. unfold Shortlists.removeFromShortlist.
  split; [reflexivity |]. split; [reflexivity |]. split; [reflexivity |].
  assert (Hgone : Shortlists.shortlisted (caller_id caller) pid
     (Shortlists.mkDirectory (Shortlists.world d)
        (filter (fun s => negb (Nat.eqb (Shortlists.sl_scout_id s) (caller_id caller)
                                && Nat.eqb (Shortlists.sl_player_id s) pid))
                (Shortlists.shortlists d))
        (Shortlists.scout_profiles d)) = []).
  { unfold Shortlists.shortlisted. cbn [Shortlists.shortlists].
    apply filter_nothing. intros s Hs. apply filter_In in Hs.
    destruct Hs as [_ Hs]. apply negb_true_iff in Hs. exact Hs. }
  split; [exact Hgone |]. split; [| split].
  - intros s. cbn [Shortlists.shortlists]. rewrite filter_In, negb_true_iff,
      andb_false_iff, !Nat.eqb_neq. split.
    + intros [Hin [H | H]]; split; auto; intros E; contradiction.
    + intros [Hin H]. split; [exact Hin |].
      destruct (Nat.eq_dec (Shortlists.sl_scout_id s) (caller_id caller));
        [right; auto | left; assumption].
  - f_equal. cbn [Shortlists.world Shortlists.shortlists Shortlists.scout_profiles].
    f_equal. apply (filter_none_negb _ _ Hgone).
  - intros H. apply (filter_none_negb _ _ H).
Qed.

(** ** Statistics and rating *)

Lemma SFleb_of_not_ltb a b :
  SFeqb a a = true -> SFeqb b b = true -> SFltb a b = false -> SFleb b a = true.
Proof.
  destruct a as [s | s | | s m e], b as [s' | s' | | s' m' e'];
    try destruct s; try destruct s'; unfold SFeqb, SFltb, SFleb; simpl;
    try discriminate; try reflexivity; intros _ _.
  - rewrite (Z.compare_antisym e e').
    change (Pos.compare_cont Eq) with Pos.compare.
    rewrite (Pos.compare_antisym m).
    destruct (e ?= e')%Z; cbn [CompOpp]; try discriminate; try reflexivity.
    destruct (m ?= m')%positive; cbn [CompOpp]; intros;
      (discriminate || reflexivity).
  - rewrite (Z.compare_antisym e e').
    change (Pos.compare_cont Eq) with Pos.compare.
    rewrite (Pos.compare_antisym m).
    destruct (e ?= e')%Z; cbn [CompOpp]; try discriminate; try reflexivity.
    destruct (m ?= m')%positive; cbn [CompOpp]; intros;
      (discriminate || reflexivity).
Qed.

Lemma leb_of_not_ltb (x y : float) :
  is_nan x = false -> is_nan y = false -> (x <? y)%float = false ->
  (y <=? x)%float = true.
Proof.
  unfold is_nan. rewrite !negb_false_iff, !FloatAxioms.eqb_spec,
    FloatAxioms.ltb_spec, FloatAxioms.leb_spec.
  apply SFleb_of_not_ltb.
Qed.

(** X21. Whatever the five numbers are, the rating the handler computes is
    never below 1 and never above 5; unless it is not a number it lies
    between 1 and 5.  It can be not a number for values that validation
    lets pass: one match with 2^1023 goals and 2^1023 red cards. *)
Theorem rating_within_bounds :
  forall mp g a y r : float,
    (PlayerController.rating mp g a y r <? 1)%float = false /\
    (5 <? PlayerController.rating mp g a y r)%float = false /\
    (is_nan (PlayerController.rating mp g a y r) = false ->
     (1 <=? PlayerController.rating mp g a y r)%float = true /\
     (PlayerController.rating mp g a y r <=? 5)%float = true) /\
    PlayerController.invalid_stat 0x1p+1023%float = false /\
    is_nan (PlayerController.rating 1 0x1p+1023 0 0 0x1p+1023) = true.
Proof.
  intros mp g a y r. rewrite rating_refines.
  unfold Spec.rating, Spec.clamp.
  set (x := Spec.scaled (Spec.raw mp g a y r)).
  assert (H1 : ((1 <? 1)%float = false /\ (5 <? 1)%float = false)
               /\ (1 <=? 1)%float = true /\ (1 <=? 5)%float = true)
    by (vm_compute; auto).
  assert (H5 : ((5 <? 1)%float = false /\ (5 <? 5)%float = false)
               /\ (1 <=? 5)%float = true /\ (5 <=? 5)%float = true)
    by (vm_compute; auto).
  assert (Hn : is_nan 1 = false /\ is_nan 5 = false) by (vm_compute; auto).
  split; [| split; [| split; [| split; vm_compute; reflexivity]]];
    destruct (0 <? mp)%float; try tauto;
    destruct (x <? 1)%float eqn:L; try tauto;
    destruct (5 <? x)%float eqn:G; try tauto.
  intros Hx. split; apply leb_of_not_ltb; tauto.
Qed.

Ltac settle_stats :=
  cbn [status message];
  repeat match goal with
         | |- _ /\ _ => split
         end;
  intros; subst;
  try reflexivity; try discriminate; try congruence;
  try (left; reflexivity); try (right; left; reflexivity);
  try (right; right; reflexivity).

(** X22. Whatever the request holds, [updatePerformanceStats] answers 200,
    400 or 500 and touches no table but the statistics and the profiles.
    A 400 writes nothing, and only a 200 writes a rating: the 500 of a
    refused statement or of a conversion that throws leaves every profile
    as it was.  The fields are checked in the order of the request: when
    matches played convert to a non-negative integer and goals do not, the
    answer is the 400 that names the goals, whatever the later fields
    are. *)
Theorem rejected_stats_write_nothing :
  forall (env : Env) (w : World) (caller : Caller)
         (body : PlayerController.StatsBody),
    let (resp, w') := run (PlayerController.updatePerformanceStats env caller
                             body) w in
    (status resp = 200 \/ status resp = 400 \/ status resp = 500) /\
    (status resp = 400 -> w' = w) /\
    (status resp = 500 -> player_profiles w' = player_profiles w) /\
    (users w' = users w /\ videos w' = videos w /\ likes w' = likes w /\
     comments w' = comments w /\ tryouts w' = tryouts w /\
     invitations w' = invitations w /\ notifications w' = notifications w /\
     system_logs w' = system_logs w /\ effects w' = effects w) /\
    (forall mp g n m,
       PlayerController.matches_played body = Some mp ->
       PlayerController.goals body = Some g ->
       PlayerController.assists body <> None ->
       PlayerController.yellow_cards body <> None ->
       PlayerController.red_cards body <> None ->
       JsNumber.ToNumber env mp = Some n ->
       PlayerController.invalid_stat n = false ->
       JsNumber.ToNumber env g = Some m ->
       PlayerController.invalid_stat m = true ->
       resp = json 400 "goals must be a non-negative integer").
Proof.
  intros env w caller [[mp |] [g |] [a |] [y |] [r |]];
    unfold PlayerController.updatePerformanceStats;
    cbv beta iota delta [PlayerController.matches_played PlayerController.goals
      PlayerController.assists PlayerController.yellow_cards
      PlayerController.red_cards];
    try (cbn; settle_stats; fail).
  unfold PlayerController.validate. open_handler.
  destruct (JsNumber.ToNumber env mp) as [n1 |] eqn:E1;
    [| cbn; settle_stats; fail].
  destruct (PlayerController.invalid_stat n1) eqn:V1;
    [cbn; settle_stats; fail |].
  destruct (JsNumber.ToNumber env g) as [n2 |] eqn:E2;
    [| cbn; settle_stats; fail].
  destruct (PlayerController.invalid_stat n2) eqn:V2;
    [cbn; settle_stats; fail |].
  destruct (JsNumber.ToNumber env a) as [n3 |] eqn:E3;
    [| cbn; settle_stats; fail].
  destruct (PlayerController.invalid_stat n3) eqn:V3;
    [cbn; settle_stats; fail |].
  destruct (JsNumber.ToNumber env y) as [n4 |] eqn:E4;
    [| cbn; settle_stats; fail].
  destruct (PlayerController.invalid_stat n4) eqn:V4;
    [cbn; settle_stats; fail |].
  destruct (JsNumber.ToNumber env r) as [n5 |] eqn:E5;
    [| cbn; settle_stats; fail].
  destruct (PlayerController.invalid_stat n5) eqn:V5;
    [cbn; settle_stats; fail |].
  destruct (PlayerController.rating_of env mp g a y r) as [x |] eqn:Ex;
    [| cbn; settle_stats; fail].
  destruct (executes env [mp; g; a; y; r]) eqn:Es;
    [| cbn; settle_stats; fail].
  destruct (executes env [Js.JNumber x]) eqn:Er;
    destruct (nonempty (filter
      (fun s => Nat.eqb (ps_player_id s) (caller_id caller))
      (player_stats w)));
    cbn; settle_stats.
Qed.

Lemma filter_map_commute {A : Type} (p : A -> bool) (f : A -> A) l :
  (forall x, p (f x) = p x) -> filter p (map f l) = map f (filter p l).
Proof.
  intros H. induction l as [| x l IH]; cbn; [reflexivity |].
  rewrite H. destruct (p x); cbn; rewrite IH; reflexivity.
Qed.

(** X23. After a request of five numbers, non-negative integers, whose
    rating is a number and whose two statements the store executes,
    [getPlayerStats] reports the five numbers that were sent.  The player has one statistics row if there was
    none, and as many as before otherwise; rows of other players stay.  The
    rating reported is the computed one if the player has a profile row,
    and 0 if not; the three counts of the answer are unchanged. *)
Theorem stats_are_kept_once_and_read_back :
  forall (env : Env) (w : World) (caller : Caller) (mp g a y r : float),
    PlayerController.invalid_stat mp = false ->
    PlayerController.invalid_stat g = false ->
    PlayerController.invalid_stat a = false ->
    PlayerController.invalid_stat y = false ->
    PlayerController.invalid_stat r = false ->
    is_nan (PlayerController.rating mp g a y r) = false ->
    store_executes env [Js.JNumber mp; Js.JNumber g; Js.JNumber a;
                        Js.JNumber y; Js.JNumber r] = true ->
    store_executes env [Js.JNumber (PlayerController.rating mp g a y r)] = true ->
    let w' := snd (run (PlayerController.updatePerformanceStats env caller
                          (numbers mp g a y r)) w) in
    let before := PlayerController.getPlayerStats caller w in
    let after := PlayerController.getPlayerStats caller w' in
    (exists s, PlayerController.performanceStats after = Some s /\
               ps_matches_played s = Js.JNumber mp /\
               ps_goals s = Js.JNumber g /\ ps_assists s = Js.JNumber a /\
               ps_yellow_cards s = Js.JNumber y /\
               ps_red_cards s = Js.JNumber r) /\
    List.length (stats_of (caller_id caller) w')
    = Nat.max 1 (List.length (stats_of (caller_id caller) w)) /\
    (forall s, In s (player_stats w) -> ps_player_id s <> caller_id caller ->
               In s (player_stats w')) /\
    PlayerController.stats_rating after
    = match profiles_of (caller_id caller) w with
      | [] => Some 0%float
      | _ :: _ => Some (PlayerController.rating mp g a y r)
      end /\
    PlayerController.mediaCount after = PlayerController.mediaCount before /\
    PlayerController.invitationCount after
    = PlayerController.invitationCount before /\
    PlayerController.pendingCount after = PlayerController.pendingCount before.
Proof.
  intros env w caller mp g a y r Hmp Hg Ha Hy Hr Hn Ss Sx.
  rewrite rating_refines in *.
  assert (Es : executes env [Js.JNumber mp; Js.JNumber g; Js.JNumber a;
                             Js.JNumber y; Js.JNumber r] = true).
  { unfold executes. cbn [forallb].
    rewrite !valid_is_writable by assumption. exact Ss. }
  assert (Ex : executes env [Js.JNumber (Spec.rating mp g a y r)] = true).
  { unfold executes. cbn [forallb].
    rewrite (rating_is_writable _ _ _ _ _ Hn). exact Sx. }
  pose proof (updatePerformanceStats_numbers env w caller mp g a y r
                Hmp Hg Ha Hy Hr) as H.
  destruct (run _ w) as [resp w0]. destruct H as [_ H].
  destruct (H Es) as (_ & _ & H'). destruct (H' Ex) as (_ & -> & _).
  clear H H'. cbn [snd].
  unfold stats_of, profiles_of, PlayerController.getPlayerStats, kept, rated.
  cbn [set_player_profiles set_player_stats player_stats player_profiles videos
       invitations PlayerController.performanceStats
       PlayerController.stats_rating PlayerController.mediaCount
       PlayerController.invitationCount PlayerController.pendingCount].
  set (x := Spec.rating mp g a y r).
  set (own := fun s => Nat.eqb (ps_player_id s) (caller_id caller)).
  set (renew := fun s => if Nat.eqb (ps_player_id s) (caller_id caller)
                         then mkPlayerStats (ps_id s) (caller_id caller)
                                (Js.JNumber mp) (Js.JNumber g) (Js.JNumber a)
                                (Js.JNumber y) (Js.JNumber r)
                         else s).
  set (ownp := fun p => Nat.eqb (pp_user_id p) (caller_id caller)).
  set (rate := fun p => if Nat.eqb (pp_user_id p) (caller_id caller)
                        then mkPlayerProfile (pp_user_id p) (pp_date_of_birth p)
                                             (Some x)
                        else p).
  assert (Hown : forall s, own (renew s) = own s).
  { intros s. unfold own, renew.
    destruct (Nat.eqb (ps_player_id s) (caller_id caller)) eqn:E;
      [apply Nat.eqb_refl | exact E]. }
  assert (Hownp : forall p, ownp (rate p) = ownp p).
  { intros p. unfold ownp, rate.
    destruct (Nat.eqb (pp_user_id p) (caller_id caller)) eqn:E; exact E. }
  assert (Hrating : match filter ownp (map rate (player_profiles w)) with
                    | [] => Some 0%float
                    | p :: _ => pp_rating p
                    end
                    = match filter ownp (player_profiles w) with
                      | [] => Some 0%float
                      | _ :: _ => Some x
                      end).
  { rewrite (filter_map_commute _ _ _ Hownp).
    destruct (filter ownp (player_profiles w)) as [| p rest] eqn:E;
      [reflexivity |].
    assert (Hp : ownp p = true).
    { assert (G : In p (filter ownp (player_profiles w)))
        by (rewrite E; left; reflexivity).
      apply filter_In in G. tauto. }
    cbn [map]. unfold rate at 1. unfold ownp in Hp. rewrite Hp. reflexivity. }
  destruct (filter own (player_stats w)) as [| s0 rest] eqn:E.
  - cbn [nonempty]. rewrite filter_app, E. cbn.
    rewrite Nat.eqb_refl. cbn.
    split; [eexists; split; [reflexivity |]; repeat split |].
    split; [reflexivity |].
    split; [intros s Hs _; apply in_or_app; left; exact Hs |].
    split; [exact Hrating |]. repeat split.
  - cbn [nonempty].
    rewrite (filter_map_commute _ _ _ Hown), E.
    assert (H0 : own s0 = true).
    { assert (G : In s0 (filter own (player_stats w)))
        by (rewrite E; left; reflexivity).
      apply filter_In in G. tauto. }
    cbn [map]. unfold renew at 1. unfold own in H0. rewrite H0.
    split; [eexists; split; [reflexivity |]; repeat split |].
    split; [cbn; rewrite length_map; reflexivity |].
    split; [| split; [exact Hrating | repeat split]].
    intros s Hs Hne. apply in_map_iff. exists s. split; [| exact Hs].
    unfold renew. apply Nat.eqb_neq in Hne. rewrite Hne. reflexivity.
Qed.

(** X23 on the sample store: Pat, who has a profile and no statistics yet,
    sends the season. *)
Lemma stats_are_kept_once_and_read_back_witness :
  (PlayerController.invalid_stat 10 = false /\
   PlayerController.invalid_stat 5 = false /\
   PlayerController.invalid_stat 3 = false /\
   PlayerController.invalid_stat 1 = false /\
   PlayerController.invalid_stat 0 = false) /\
  List.length
    (stats_of 2
       (snd (run (PlayerController.updatePerformanceStats Examples.env
                    Examples.player_pat Examples.season) Examples.store))) = 1.
Proof.
  assert (Hv : PlayerController.invalid_stat 10 = false
               /\ PlayerController.invalid_stat 5 = false
               /\ PlayerController.invalid_stat 3 = false
               /\ PlayerController.invalid_stat 1 = false
               /\ PlayerController.invalid_stat 0 = false)
    by (vm_compute; auto).
  split; [exact Hv |]. destruct Hv as (H10 & H5 & H3 & H1 & H0).
  assert (Hn : is_nan (PlayerController.rating 10 5 3 1 0) = false)
    by (vm_compute; reflexivity).
  destruct (stats_are_kept_once_and_read_back Examples.env Examples.store
              Examples.player_pat 10 5 3 1 0 H10 H5 H3 H1 H0 Hn eq_refl eq_refl)
    as (_ & A & _).
  exact A.
Defined.

(** ** Uploads that the media store refuses *)

(** X24. When the media store refuses the upload of an accepted file, the
    player is answered 413 if the refusal speaks of a payload too large and
    500 otherwise; no video row is written, and the refused call is the
    only trace.  Without the configuration of the media store the answer
    is 500 and no call is made at all. *)
Theorem failed_upload_leaves_no_video :
  forall (env : Env) (w : World) (caller : Caller)
         (file : PlayerController.File) (description : option string),
    caller_role caller = "player" ->
    UploadService.single (Some file) = inr (Some file) ->
    let (r, w') := run (PlayerRoutes.upload env caller (Some file) description)
                       w in
    (cloudinary_configured env = false ->
     r = json 500 "Server configuration error" /\ w' = w) /\
    (forall err,
       cloudinary_configured env = true ->
       cloud_upload env (PlayerController.originalname file)
                    (PlayerController.mimetype file) = UploadFailed err ->
       (status r = if Js.includes err "payload too large" then 413 else 500) /\
       videos w' = videos w /\
       w' = set_effects (fun l => l ++ [upload_request file]) w).
Proof.
  intros env w caller file description Hrole Hsingle.
  unfold PlayerRoutes.upload, PlayerRoutes.role. rewrite Hsingle.
  unfold PlayerController.uploadMedia, CloudinaryService.uploadBuffer.
  open_handler. rewrite Hrole. cbn [String.eqb Ascii.eqb Bool.eqb negb].
  destruct (cloudinary_configured env) eqn:Ec; cbn.
  - destruct (cloud_upload env (PlayerController.originalname file)
                (PlayerController.mimetype file)) as [url public_id | e] eqn:Eu;
      cbn.
    + split; [discriminate |]. intros err _ Herr. discriminate.
    + assert (Hcall : forall l,
        l ++ [CloudUpload (PlayerController.mimetype file)
                (if String.eqb (inferred_type file) "image"
                 then "image" else "video")
                ("pharaohs/" ++ inferred_type file ++ "s")%string]
        = l ++ [upload_request file]).
      { intros l. unfold upload_request, inferred_type.
        destruct (Js.startsWith (PlayerController.mimetype file) "image/");
          reflexivity. }
      destruct (Js.includes e "payload too large") eqn:E1; cbn.
      * split; [discriminate |]. intros err _ Herr.
        injection Herr as <-. rewrite E1.
        split; [reflexivity |]. split; [reflexivity |].
        unfold set_effects. f_equal. apply Hcall.
      * destruct (Js.includes e "cloudinary") eqn:E2; cbn;
          (split; [discriminate |]); intros err _ Herr;
          injection Herr as <-; rewrite E1;
          (split; [reflexivity |]); (split; [reflexivity |]);
          unfold set_effects; f_equal; apply Hcall.
  - split; [intros _; split; reflexivity | intros err H; discriminate].
Qed.

(** X24 on the sample store: the media store hangs up on Pat's photo. *)
Lemma failed_upload_leaves_no_video_witness :
  (caller_role Examples.player_pat = "player" /\
   UploadService.single (Some Examples.photo) = inr (Some Examples.photo)) /\
  (let (r, w') := run (PlayerRoutes.upload Examples.env Examples.player_pat
                         (Some Examples.photo) None) Examples.store in
   status r = 500 /\ videos w' = videos Examples.store).
Proof.
  split; [split; reflexivity |].
  pose proof (failed_upload_leaves_no_video Examples.env Examples.store
                Examples.player_pat Examples.photo None eq_refl eq_refl) as H.
  destruct (run _ Examples.store) as [r w'].
  destruct H as [_ H].
  destruct (H "socket hang up" eq_refl eq_refl) as (A & B & _).
  split; [exact A | exact B].
Defined.

(** ** Tryouts from creation to deletion *)

Lemma fresh_is_new {A : Type} (key : A -> nat) (rows : list A) x :
  In x rows -> Nat.eqb (key x) (fresh key rows) = false.
Proof.
  intros Hin. apply Nat.eqb_neq. unfold fresh.
  assert (H : key x <= list_max (map key rows)); [| lia].
  assert (F : Forall (fun k => k <= list_max (map key rows)) (map key rows))
    by (apply list_max_le; lia).
  rewrite Forall_forall in F. apply F. apply in_map. exact Hin.
Qed.

Lemma truthy_str_Some s : s <> EmptyString -> Js.truthy_str (Some s) = true.
Proof. destruct s; [congruence | reflexivity]. Qed.

(** X25. A tryout created with all its fields is answered 201 and stored as
    one row under a key no other tryout has, with the calling scout as its
    owner and date and time joined by a space.  Another scout is refused
    its deletion with 403; the owner deletes it with 200, and the tryouts
    are then what they were before.  A request without a name is answered
    400 and writes nothing. *)
Theorem created_tryout_belongs_to_its_scout :
  forall (w : World) (caller other : Caller) (name location date time : string)
         (location' date' : option string),
    name <> EmptyString -> location <> EmptyString ->
    date <> EmptyString -> time <> EmptyString ->
    let key := fresh tryout_id (tryouts w) in
    let first := run (ScoutController.createTryoutWithTime caller (Some name)
                        (Some location) (Some date) (Some time)) w in
    status (fst first) = 201 /\
    tryouts (snd first)
    = tryouts w ++ [mkTryout key (caller_id caller) name location
                      (date ++ " " ++ time)%string] /\
    (forall t, In t (tryouts w) -> tryout_id t <> key) /\
    (Nat.eqb (caller_id caller) (caller_id other) = false ->
     run (ScoutController.deleteTryout other key) (snd first)
     = (json 403 "You do not have permission to delete this tryout", snd first)) /\
    (let second := run (ScoutController.deleteTryout caller key) (snd first) in
     status (fst second) = 200 /\ tryouts (snd second) = tryouts w) /\
    tryouts (snd (run (ScoutController.createTryout caller (Some name)
                         (Some location) (Some date)) w))
    = tryouts w ++ [mkTryout key (caller_id caller) name location date] /\
    run (ScoutController.createTryout caller None location' date') w
    = (json 400 "All fields required", w).
Proof.
  intros w caller other name location date time location' date'
         Hn Hl Hd Ht key first.
  assert (Hnew : forall t, In t (tryouts w) ->
                           Nat.eqb (tryout_id t) key = false)
    by (intros t Hin; apply fresh_is_new; exact Hin).
  assert (Hnone : forall who,
    filter (fun t => Nat.eqb (tryout_id t) key
                     && Nat.eqb (tryout_scout_id t) who) (tryouts w) = []).
  { intros who. apply filter_nothing. intros t Hin.
    rewrite (Hnew t Hin). reflexivity. }
  assert (Hkeep : filter (fun t => negb (Nat.eqb (tryout_id t) key)) (tryouts w)
                  = tryouts w).
  { apply filter_all. intros t Hin. rewrite (Hnew t Hin). reflexivity. }
  subst first.
  unfold ScoutController.createTryoutWithTime, ScoutController.createTryout,
    ScoutController.deleteTryout.
  open_handler.
  rewrite (truthy_str_Some _ Hn), (truthy_str_Some _ Hl),
    (truthy_str_Some _ Hd), (truthy_str_Some _ Ht).
  cbn. fold key.
  split; [reflexivity |]. split; [reflexivity |]. split; [| split; [| split]].
  - intros t Hin. apply Nat.eqb_neq. apply Hnew. exact Hin.
  - intros Hother. rewrite filter_app, Hnone. cbn.
    rewrite Nat.eqb_refl, Hother. reflexivity.
  - rewrite filter_app, Hnone. cbn. rewrite !Nat.eqb_refl. cbn.
    rewrite filter_app, Hkeep. cbn. rewrite Nat.eqb_refl. cbn.
    split; [reflexivity | apply app_nil_r].
  - split; reflexivity.
Qed.

(** X25 on the sample store: Sam announces a summer trial. *)
Lemma created_tryout_belongs_to_its_scout_witness :
  ("Summer trial" <> EmptyString /\ "Giza" <> EmptyString /\
   "2025-07-01" <> EmptyString /\ "09:00" <> EmptyString) /\
  tryouts (snd (run (ScoutController.createTryoutWithTime Examples.scout_sam
                       (Some "Summer trial") (Some "Giza") (Some "2025-07-01")
                       (Some "09:00")) Examples.store))
  = tryouts Examples.store
    ++ [mkTryout 2 1 "Summer trial" "Giza" "2025-07-01 09:00"].
Proof.
  assert (H1 : "Summer trial" <> EmptyString) by discriminate.
  assert (H2 : "Giza" <> EmptyString) by discriminate.
  assert (H3 : "2025-07-01" <> EmptyString) by discriminate.
  assert (H4 : "09:00" <> EmptyString) by discriminate.
  split; [auto |].
  destruct (created_tryout_belongs_to_its_scout Examples.store
              Examples.scout_sam Examples.scout_ray "Summer trial" "Giza"
              "2025-07-01" "09:00" None None H1 H2 H3 H4) as (_ & A & _).
  exact A.
Defined.
